(** * Blog automation: the publishing pipeline of [blog_engine.py]

    A shallow embedding of the response parser, the post writer, the
    fallback HTML conversion and the orchestrator of [BlogEngine], of
    [safe_filename] from [utils.py] and of [WordPressClient], together
    with the properties of the specification that concern them.

    Python [str] values are modelled as [string]; a character is a code
    point in the range 0..255.  The external collaborators (clock, file
    system, environment, spreadsheet, completion service, markdown
    library, XML-RPC endpoint) are the fields of a record of oracles that
    answer from the history of the run; the history records every
    interaction and every line printed.  Printing never raises, and only
    exceptions of class [Exception] are considered.  A file is the string
    handed to [write], on a platform that does not translate newlines;
    paths are those of [pathlib] on a POSIX system. *)

From Stdlib Require Import String Ascii List Bool Arith ZArith Lia DecimalString.
Import ListNotations.
Local Open Scope list_scope.
Local Open Scope string_scope.

(** ** Python string operations *)

Module PyStr.

(** The newline character and the double quote. *)
Definition nl : ascii := "010"%char.
Definition NL : string := String nl "".
Definition DQ : string := String "034"%char "".

(** [str.isspace] on one character, for code points below 256:
    U+0009..U+000D, U+001C..U+0020, U+0085 and U+00A0.  The regex class
    [\s] on [str] patterns is the same set. *)
Definition code_in (lo hi : nat) (c : ascii) : bool :=
  let n := nat_of_ascii c in ((lo <=? n) && (n <=? hi))%nat.

Definition is_space (c : ascii) : bool :=
  code_in 9 13 c || code_in 28 32 c || code_in 133 133 c || code_in 160 160 c.

Definition is_upper_az (c : ascii) : bool := code_in 65 90 c.
Definition is_lower_az (c : ascii) : bool := code_in 97 122 c.
Definition is_digit09 (c : ascii) : bool := code_in 48 57 c.

(** The character class [a-zA-Z0-9]. *)
Definition is_alnum_class (c : ascii) : bool :=
  is_lower_az c || is_upper_az c || is_digit09 c.

(** [str.lower] on one character below 256: A..Z and the Latin-1
    capitals U+00C0..U+00DE (U+00D7 excepted) move up by 32. *)
Definition lower_char (c : ascii) : ascii :=
  if code_in 65 90 c || (code_in 192 222 c && negb (code_in 215 215 c))
  then ascii_of_nat (nat_of_ascii c + 32)
  else c.

Fixpoint lower (s : string) : string :=
  match s with
  | "" => ""
  | String c s' => String (lower_char c) (lower s')
  end.

(** Slices [s[:n]] and [s[n:]]. *)
Fixpoint take (n : nat) (s : string) : string :=
  match n, s with
  | S n', String c s' => String c (take n' s')
  | _, _ => ""
  end.

Fixpoint drop (n : nat) (s : string) : string :=
  match n, s with
  | S n', String _ s' => drop n' s'
  | _, _ => s
  end.

(** The slice [s[:n]] for any integer [n]: a negative [n] counts from
    the end of [s]. *)
Definition slice_to (n : Z) (s : string) : string :=
  if (0 <=? n)%Z then take (Z.to_nat n) s
  else take (String.length s - Z.to_nat (- n)) s.

(** [s.startswith(p)]. *)
Fixpoint startswith (p s : string) : bool :=
  match p, s with
  | "", _ => true
  | String a p', String b s' => Ascii.eqb a b && startswith p' s'
  | String _ _, "" => false
  end.

(** [s.find(sub)]: the index of the first occurrence, [None] for -1. *)
Fixpoint find (sub s : string) : option nat :=
  if startswith sub s then Some 0
  else match s with
       | "" => None
       | String _ s' => option_map S (find sub s')
       end.

(** [s.split(sep, maxsplit)] for a non-empty [sep], as CPython's loop:
    while splits remain, find the next occurrence, cut there and go on
    after the separator; the rest is the last element. *)
Fixpoint splitn (sep : string) (maxsplit : nat) (s : string) : list string :=
  match maxsplit with
  | 0 => [s]
  | S m =>
      match find sep s with
      | None => [s]
      | Some pos => take pos s :: splitn sep m (drop (pos + String.length sep) s)
      end
  end.

(** [s.split(sep)]: no limit; a string has at most [length s] cuts. *)
Definition split (sep s : string) : list string := splitn sep (String.length s) s.

(** [s.replace(old, new, count)] for a non-empty [old]. *)
Fixpoint replacen (old new : string) (count : nat) (s : string) : string :=
  match count with
  | 0 => s
  | S k =>
      match find old s with
      | None => s
      | Some pos => take pos s ++ new ++ replacen old new k (drop (pos + String.length old) s)
      end
  end.

Definition replace (old new s : string) : string := replacen old new (String.length s) s.

(** [sep.join(parts)]. *)
Fixpoint join (sep : string) (parts : list string) : string :=
  match parts with
  | [] => ""
  | [x] => x
  | x :: rest => x ++ sep ++ join sep rest
  end.

(** [s.strip()] and [s.strip(chars)]: drop the characters of a set
    from both ends. *)
Fixpoint lstrip_by (p : ascii -> bool) (s : string) : string :=
  match s with
  | "" => ""
  | String c s' => if p c then lstrip_by p s' else s
  end.

Fixpoint rstrip_by (p : ascii -> bool) (s : string) : string :=
  match s with
  | "" => ""
  | String c s' =>
      match rstrip_by p s' with
      | "" => if p c then "" else String c ""
      | r => String c r
      end
  end.

Definition strip_by (p : ascii -> bool) (s : string) : string :=
  rstrip_by p (lstrip_by p s).

Definition strip (s : string) : string := strip_by is_space s.

Fixpoint char_in (c : ascii) (chars : string) : bool :=
  match chars with
  | "" => false
  | String d chars' => Ascii.eqb c d || char_in c chars'
  end.

Definition strip_chars (chars s : string) : string :=
  strip_by (fun c => char_in c chars) s.

(** Truth value of a string: non-empty. *)
Definition truthy (s : string) : bool := negb (s =? "").

(** Every character of [s] satisfies [p]. *)
Fixpoint all_chars (p : ascii -> bool) (s : string) : bool :=
  match s with
  | "" => true
  | String c s' => p c && all_chars p s'
  end.

(** [sub in s]. *)
Definition contains (sub s : string) : bool :=
  match find sub s with Some _ => true | None => false end.

End PyStr.
Import PyStr.

(** ** The regular expressions of the source

    Each [re.sub] call of the source uses a pattern of one of four
    shapes; each shape is a scanner over the subject, left to right,
    that copies unmatched characters and replaces matches. *)

Module PyRe.

(** [re.sub('[...]', repl, s)] for a pattern that is one character
    class: every matching character is replaced. *)
Fixpoint sub_class (matches : ascii -> bool) (repl s : string) : string :=
  match s with
  | "" => ""
  | String c s' =>
      if matches c then repl ++ sub_class matches repl s'
      else String c (sub_class matches repl s')
  end.

(** [re.sub('C+', repl, s)] for a character class [C]: every maximal
    run of matching characters is replaced once.  [in_match] tells that
    the previous character belonged to the run being replaced. *)
Fixpoint sub_run (run : ascii -> bool) (repl : string) (in_match : bool)
         (s : string) : string :=
  match s with
  | "" => ""
  | String c s' =>
      if run c then
        if in_match then sub_run run repl true s'
        else repl ++ sub_run run repl true s'
      else String c (sub_run run repl false s')
  end.

(** [re.sub('xC+', repl, s)] for a literal character [x] outside the
    class [C]: [x] followed by a maximal non-empty run of [C]. *)
Fixpoint sub_lit_run (lit : ascii) (run : ascii -> bool) (repl : string)
         (in_match : bool) (s : string) : string :=
  match s with
  | "" => ""
  | String c s' =>
      if in_match && run c then sub_lit_run lit run repl true s'
      else if Ascii.eqb c lit
              && match s' with String d _ => run d | "" => false end
      then repl ++ sub_lit_run lit run repl true s'
      else String c (sub_lit_run lit run repl false s')
  end.

(** [re.sub('^M(.+)$', '<t>\1</t>', s, flags=re.MULTILINE)] for a
    literal marker [M]: [.] excludes only the newline, so the pattern
    matches a whole line that starts with [M] and has at least one more
    character. *)
Definition sub_line_one (marker open_tag close_tag line : string) : string :=
  if startswith marker line
     && (0 <? String.length (drop (String.length marker) line))%nat
  then open_tag ++ drop (String.length marker) line ++ close_tag
  else line.

Definition sub_line (marker open_tag close_tag s : string) : string :=
  join NL (map (sub_line_one marker open_tag close_tag) (split NL s)).

(** The lazy group [(.+?)] followed by the literal [delim]: the least
    [k >= 1] such that the first [k] characters of [t] hold no newline
    and [delim] follows them. *)
Fixpoint lazy_until (delim t : string) : option nat :=
  match t with
  | "" => None
  | String c t' =>
      if Ascii.eqb c nl then None
      else if startswith delim t' then Some 1
      else option_map S (lazy_until delim t')
  end.

(** [re.sub('D(.+?)D', '<t>\1</t>', s)] for a literal delimiter [D].
    [skip] counts the characters of the current match that are still
    to be passed over. *)
Fixpoint sub_delim_go (delim open_tag close_tag : string) (skip : nat)
         (s : string) : string :=
  match s with
  | "" => ""
  | String c s' =>
      match skip with
      | S k => sub_delim_go delim open_tag close_tag k s'
      | 0 =>
          let d := String.length delim in
          if startswith delim s then
            match lazy_until delim (drop d s) with
            | Some k =>
                open_tag ++ take k (drop d s) ++ close_tag
                ++ sub_delim_go delim open_tag close_tag (d + k + d - 1) s'
            | None => String c (sub_delim_go delim open_tag close_tag 0 s')
            end
          else String c (sub_delim_go delim open_tag close_tag 0 s')
      end
  end.

Definition sub_delim (delim open_tag close_tag s : string) : string :=
  sub_delim_go delim open_tag close_tag 0 s.

End PyRe.
Import PyRe.

(** ** [utils.py] *)

Module Utils.

(** The class [[a-zA-Z0-9\s-]]. *)
Definition safe_char (c : ascii) : bool :=
  is_alnum_class c || is_space c || Ascii.eqb c "-".

(** [safe_filename(text, max_length)]; [max_length] is any integer. *)
Definition safe_filename (text : string) (max_length : Z) : string :=
  let filename := sub_class (fun c => negb (safe_char c)) "" text in
  let filename := sub_run is_space "-" false (strip filename) in
  let filename := slice_to max_length (lower filename) in
  strip_chars "-" filename.

End Utils.
Import Utils.

(** ** The pure stages of [blog_engine.py] *)

Module Pure.

Definition META_TAG : string := "META_DESCRIPTION:".

(** The loop of the fallback path: the first line whose stripped form
    is non-empty and which does not start with [#], stripped. *)
Fixpoint first_paragraph_of (lines : list string) : string :=
  match lines with
  | [] => ""
  | line :: rest =>
      if truthy (strip line) && negb (startswith "#" line) then strip line
      else first_paragraph_of rest
  end.

Definition fallback_meta_description (content : string) : string * string :=
  let lines := split NL content in
  let first_paragraph := first_paragraph_of lines in
  let meta_description :=
    if (157 <? String.length first_paragraph)%nat
    then take 157 first_paragraph ++ "..."
    else first_paragraph in
  (meta_description, content).

Definition _extract_meta_description (content : string) : string * string :=
  if startswith META_TAG content then
    let lines := splitn NL 2 content in
    if (2 <=? List.length lines)%nat then
      let meta_description := strip (replace META_TAG "" (nth 0 lines "")) in
      let clean_content := strip (join NL (skipn 1 lines)) in
      (meta_description, clean_content)
    else fallback_meta_description content
  else fallback_meta_description content.

(** The class of the first pattern of [_save_blog_post],
    [[^a-zA-Z0-9\\s-]] in a raw string: the complement of the letters,
    the digits, the backslash, the letter s and the hyphen. *)
Definition slug_char (c : ascii) : bool :=
  is_alnum_class c || Ascii.eqb c "\" || Ascii.eqb c "s" || Ascii.eqb c "-".

(** The file name stem computed at the head of [_save_blog_post]; its
    second pattern, [\\s+] in a raw string, is a backslash followed by
    one or more letters s. *)
Definition slug (title : string) : string :=
  let filename := sub_class (fun c => negb (slug_char c)) "" title in
  let filename :=
    sub_lit_run "\" (fun c => Ascii.eqb c "s") "-" false (strip filename) in
  take 50 (lower filename).

(** Removal of a leading YAML block, shared by both conversions. *)
Definition strip_frontmatter (markdown_content : string) : string :=
  if startswith "---" markdown_content then
    let parts := splitn "---" 2 markdown_content in
    if (3 <=? List.length parts)%nat then strip (nth 2 parts "")
    else markdown_content
  else markdown_content.

(** One turn of the paragraph loop of [_simple_markdown_to_html]: the
    wrapped paragraph is bound to [para] and nothing more is done with
    it; only the second branch appends. *)
Definition paragraph_step (html_paragraphs : list string) (para : string)
  : list string :=
  let para := strip para in
  if truthy para && negb (startswith "<" para) then
    let para := "<p>" ++ para ++ "</p>" in
    html_paragraphs
  else if truthy para then (html_paragraphs ++ [para])%list
  else html_paragraphs.

Definition _simple_markdown_to_html (markdown_content : string) : string :=
  let markdown_content := strip_frontmatter markdown_content in
  let html_content := markdown_content in
  let html_content := sub_line "### " "<h3>" "</h3>" html_content in
  let html_content := sub_line "## " "<h2>" "</h2>" html_content in
  let html_content := sub_line "# " "<h1>" "</h1>" html_content in
  let html_content := sub_delim "**" "<strong>" "</strong>" html_content in
  let html_content := sub_delim "*" "<em>" "</em>" html_content in
  let paragraphs := split (NL ++ NL) html_content in
  let html_paragraphs := fold_left paragraph_step paragraphs [] in
  join NL html_paragraphs.

End Pure.
Import Pure.
(** ** Data model *)

(** An exception is represented by its message. *)
Definition exn : Type := string.

(** The row identifier of a topic: an integer, or the string
    ['custom'] of an ad-hoc topic. *)
Inductive RowNumber : Type :=
| RowInt (n : Z)
| RowCustom.

(** A topic dictionary, with the four keys the engine gives it. *)
Record TopicRecord : Type := mkTopic {
  row_number : RowNumber;
  primary_keywords : string;
  auxiliary_keywords : string;
  title : string
}.

Record datetime : Type := mkDatetime {
  year : nat; month : nat; day : nat;
  hour : nat; minute : nat; second : nat
}.

(** A [WordPressPost] as [create_post] fills it. *)
Record WordPressPost : Type := mkPost {
  post_title : string;
  post_content : string;
  post_status : string;
  post_excerpt : string;
  post_custom_fields : list (string * string)
}.

(** What the program prints, one constructor per [print] of the source. *)
Inductive Msg : Type :=
| InfoSheetsInitialized
| InfoAiInitialized
| InfoWpConnected
| WarnWpConnectionFailed
| InfoMarkdownOnly
| ErrWpInitFailed (e : exn)
| InfoFallingBack
| InfoLoaded (n : nat)
| PlainConnectionTestFailed (e : exn)
| ErrRowNotFound (row : Z)
| InfoGeneratingFor (title : string)
| InfoMetaDescription (meta_description : string)
| OkMarkdownSaved (filename : string)
| OkPublishedPostId (post_id : Z)
| ErrPublishingFailed
| InfoBeastMode (n : nat)
| InfoPublishingEnabledForAll
| InfoGenerating (title : string)
| OkMarkdown (filename : string)
| OkWordPressId (post_id : Z)
| PlainRule
| ErrFailedToGenerate (title : string) (e : exn)
| OkBeastModeComplete
| OkGenerated (generated_count total : nat)
| OkPublished (published_count total : nat)
| InfoGeneratingCustom (topic : string)
| OkCustomMarkdownSaved (filename : string)
| ErrPublishingError (e : exn)
| InfoConverted (markdown_chars html_chars : nat)
| ErrConversionFailed (e : exn).

(** One interaction of the program with its surroundings, with the
    answer it received. *)
Inductive Event : Type :=
| EvPrint (m : Msg)
| EvClock (t : datetime)
| EvMkdir (dir : string) (r : option exn)
| EvSheetsAuthorize (r : option exn)
| EvWorksheetGet (range : string) (r : exn + list (list string))
| EvGetenv (name : string) (r : option string)
| EvOpenAIClient (api_key : string) (r : option exn)
| EvCompletion (model prompt : string) (r : exn + string)
| EvFileWrite (dir name content : string) (r : option exn)
| EvXmlRpcClient (url username password : string) (r : option exn)
| EvGetPosts (number : nat) (r : exn + unit)
| EvNewPost (post : WordPressPost) (r : exn + Z)
| EvLoadDotenv (r : option exn).

(** The state of the surroundings is the history of the run, oldest
    interaction first. *)
Definition World : Type := list Event.

(** The external collaborators.  Each answers from the history, so two
    calls with the same arguments may be answered differently. *)
Record Collaborators : Type := mkCollaborators {
  datetime_now : World -> datetime;
  path_mkdir : string -> World -> option exn;
  sheets_authorize : World -> option exn;
  worksheet_get : string -> World -> exn + list (list string);
  os_getenv : string -> World -> option string;
  openai_client : string -> World -> option exn;
  chat_completions_create : string -> string -> World -> exn + string;
  file_write : string -> string -> string -> World -> option exn;
  markdown_markdown : string -> exn + string;
  xmlrpc_client : string -> string -> string -> World -> option exn;
  xmlrpc_get_posts : nat -> World -> exn + unit;
  xmlrpc_new_post : WordPressPost -> World -> exn + Z;
  load_dotenv : World -> option exn
}.

(** ** Computations that print, call out and may raise *)

Module Eff.

Definition M (A : Type) : Type := World -> (exn + A) * World.

Definition ret {A} (a : A) : M A := fun w => (inr a, w).

Definition raise {A} (e : exn) : M A := fun w => (inl e, w).

Definition bind {A B} (c : M A) (k : A -> M B) : M B :=
  fun w => match c w with
           | (inr a, w') => k a w'
           | (inl e, w') => (inl e, w')
           end.

(** [try: c  except Exception as e: h e]. *)
Definition try_catch {A} (c : M A) (h : exn -> M A) : M A :=
  fun w => match c w with
           | (inr a, w') => (inr a, w')
           | (inl e, w') => h e w'
           end.

(** An interaction: ask, record the answer, return it. *)
Definition perform {R} (ask : World -> R) (ev : R -> Event) : M R :=
  fun w => let r := ask w in (inr r, (w ++ [ev r])%list).

Definition print (m : Msg) : M unit :=
  fun w => (inr tt, (w ++ [EvPrint m])%list).

(** Turn an answer that carries a failure into a raise. *)
Definition of_sum {A} (r : exn + A) : M A :=
  match r with inl e => raise e | inr a => ret a end.

Definition of_failure (r : option exn) : M unit :=
  match r with Some e => raise e | None => ret tt end.

(** The computation returns from [w], having added the events [evs]
    to the history, and its result and events satisfy [Q]. *)
Definition returns {A} (c : M A) (w : World) (Q : A -> list Event -> Prop)
  : Prop :=
  exists a evs, c w = (inr a, (w ++ evs)%list) /\ Q a evs.

End Eff.
Import Eff.

Declare Scope eff_scope.
Delimit Scope eff_scope with eff.
Notation "x <- c ;; k" := (bind c (fun x => k))
  (at level 61, c at next level, right associativity) : eff_scope.
Notation "c ;; k" := (bind c (fun _ => k))
  (at level 61, right associativity) : eff_scope.
Local Open Scope eff_scope.

(** ** What a history shows *)

Module Trace.

(** The files the run has written: directory, name, content. *)
Fixpoint files_written (w : World) : list (string * string * string) :=
  match w with
  | [] => []
  | EvFileWrite dir name content None :: w' =>
      (dir, name, content) :: files_written w'
  | _ :: w' => files_written w'
  end.

(** The remote posts the run has created, with their identifiers. *)
Fixpoint posts_created (w : World) : list (WordPressPost * Z) :=
  match w with
  | [] => []
  | EvNewPost post (inr post_id) :: w' => (post, post_id) :: posts_created w'
  | _ :: w' => posts_created w'
  end.

(** The remote creation calls the run has issued, answered or not. *)
Fixpoint new_post_calls (w : World) : list WordPressPost :=
  match w with
  | [] => []
  | EvNewPost post _ :: w' => post :: new_post_calls w'
  | _ :: w' => new_post_calls w'
  end.

(** The completion requests the run has issued. *)
Fixpoint completion_calls (w : World) : list string :=
  match w with
  | [] => []
  | EvCompletion _ prompt _ :: w' => prompt :: completion_calls w'
  | _ :: w' => completion_calls w'
  end.

Fixpoint printed (w : World) : list Msg :=
  match w with
  | [] => []
  | EvPrint m :: w' => m :: printed w'
  | _ :: w' => printed w'
  end.

(** Failures the run has met: completion requests, file writes and
    remote creation calls that raised. *)
Fixpoint completion_failures (w : World) : nat :=
  match w with
  | [] => 0
  | EvCompletion _ _ (inl _) :: w' => S (completion_failures w')
  | _ :: w' => completion_failures w'
  end.

Fixpoint write_failures (w : World) : nat :=
  match w with
  | [] => 0
  | EvFileWrite _ _ _ (Some _) :: w' => S (write_failures w')
  | _ :: w' => write_failures w'
  end.

Fixpoint new_post_failures (w : World) : nat :=
  match w with
  | [] => 0
  | EvNewPost _ (inl _) :: w' => S (new_post_failures w')
  | _ :: w' => new_post_failures w'
  end.

(** The probes of the remote endpoint that raised. *)
Fixpoint probe_failures (w : World) : nat :=
  match w with
  | [] => 0
  | EvGetPosts _ (inl _) :: w' => S (probe_failures w')
  | _ :: w' => probe_failures w'
  end.

Definition is_print (e : Event) : bool :=
  match e with EvPrint _ => true | _ => false end.

(** Truth value of a post identifier. *)
Definition truthy_id (post_id : Z) : bool := negb (post_id =? 0)%Z.

(** The created posts whose identifier the engine takes as a success. *)
Definition posts_published (w : World) : list (WordPressPost * Z) :=
  filter (fun p => truthy_id (snd p)) (posts_created w).

End Trace.
Import Trace.

(** ** [wordpress_client.py] *)

Module WordPress.

(** The XML-RPC client object held in [self.client]. *)
Record Client : Type := mkClient {
  client_url : string; client_username : string; client_password : string
}.

Record WordPressClient : Type := mkWordPressClient {
  wp_url : option string;
  wp_username : option string;
  wp_password : option string;
  client : option Client
}.

(** Truth value of an [os.getenv] result. *)
Definition env_truthy (v : option string) : bool :=
  match v with Some s => truthy s | None => false end.

Definition env_value (v : option string) : string :=
  match v with Some s => s | None => "" end.

Section WithCollaborators.
Variable env : Collaborators.

(** [WordPressClient()]: [__init__] and [_create_client].  The
    constructor first loads the [.env] file, outside any handler. *)
Definition WordPressClient_new : M WordPressClient :=
  r <- perform (load_dotenv env) EvLoadDotenv ;;
  of_failure r ;;
  url <- perform (os_getenv env "WORDPRESS_URL") (EvGetenv "WORDPRESS_URL") ;;
  username <- perform (os_getenv env "WORDPRESS_USERNAME")
                      (EvGetenv "WORDPRESS_USERNAME") ;;
  password <- perform (os_getenv env "WORDPRESS_PASSWORD")
                      (EvGetenv "WORDPRESS_PASSWORD") ;;
  try_catch
    (if env_truthy url && env_truthy username && env_truthy password then
       r <- perform (xmlrpc_client env (env_value url) (env_value username)
                                   (env_value password))
                    (EvXmlRpcClient (env_value url) (env_value username)
                                    (env_value password)) ;;
       of_failure r ;;
       ret (mkWordPressClient url username password
              (Some (mkClient (env_value url) (env_value username)
                              (env_value password))))
     else raise "Missing WordPress credentials in .env file")
    (fun e => raise ("Failed to create WordPress client: " ++ e)).

Definition test_connection (self : WordPressClient) : M bool :=
  match client self with
  | None => ret false
  | Some _ =>
      r <- perform (xmlrpc_get_posts env 1) (EvGetPosts 1) ;;
      match r with
      | inr _ => ret true
      | inl e => print (PlainConnectionTestFailed e) ;; ret false
      end
  end.

(** The post object [create_post] builds before the remote call. *)
Definition build_post (title content status meta_description : string)
  : WordPressPost :=
  mkPost title content status
    (if truthy meta_description then meta_description
     else if (200 <? String.length content)%nat
          then take 200 content ++ "..." else content)
    (if truthy meta_description then
       [("_yoast_wpseo_metadesc", meta_description);
        ("_aioseop_description", meta_description);
        ("meta_description", meta_description)]
     else []).

Definition create_post (self : WordPressClient)
           (title content status meta_description : string) : M Z :=
  try_catch
    (match client self with
     | None => raise "WordPress client not initialized"
     | Some _ =>
         let post := build_post title content status meta_description in
         r <- perform (xmlrpc_new_post env post) (EvNewPost post) ;;
         of_sum r
     end)
    (fun e => raise ("Failed to create WordPress post: " ++ e)).

End WithCollaborators.

End WordPress.
Import WordPress.

(** ** [blog_engine.py]: the engine *)

Module Engine.

Record BlogEngine : Type := mkEngine {
  output_dir : string;
  ai_model : string;
  wordpress_enabled : bool;
  wp_status : string;
  sheet_data : list TopicRecord;
  wp_client : option WordPressClient   (* [None]: the attribute is unset *)
}.

Definition set_wordpress_enabled (self : BlogEngine) (b : bool) : BlogEngine :=
  mkEngine (output_dir self) (ai_model self) b (wp_status self)
           (sheet_data self) (wp_client self).

Definition set_wp_client (self : BlogEngine) (c : WordPressClient) : BlogEngine :=
  mkEngine (output_dir self) (ai_model self) (wordpress_enabled self)
           (wp_status self) (sheet_data self) (Some c).

Definition set_sheet_data (self : BlogEngine) (d : list TopicRecord) : BlogEngine :=
  mkEngine (output_dir self) (ai_model self) (wordpress_enabled self)
           (wp_status self) d (wp_client self).

(** Decimal rendering, as [str] of an integer and as the zero-padded
    fields of [strftime]. *)
Definition str_of_Z (n : Z) : string := NilEmpty.string_of_int (Z.to_int n).
Definition str_of_nat (n : nat) : string := NilEmpty.string_of_uint (Nat.to_uint n).

Fixpoint zeros (n : nat) : string :=
  match n with 0 => "" | S n' => String "0" (zeros n') end.

Definition zero_pad (width n : nat) : string :=
  let digits := str_of_nat n in
  zeros (width - String.length digits) ++ digits.

(** [strftime("%Y%m%d_%H%M%S")]. *)
Definition strftime_stamp (t : datetime) : string :=
  zero_pad 4 (year t) ++ zero_pad 2 (month t) ++ zero_pad 2 (day t) ++ "_"
  ++ zero_pad 2 (hour t) ++ zero_pad 2 (minute t) ++ zero_pad 2 (second t).

(** [strftime("%Y-%m-%d %H:%M:%S")]. *)
Definition strftime_date (t : datetime) : string :=
  zero_pad 4 (year t) ++ "-" ++ zero_pad 2 (month t) ++ "-" ++ zero_pad 2 (day t)
  ++ " " ++ zero_pad 2 (hour t) ++ ":" ++ zero_pad 2 (minute t) ++ ":"
  ++ zero_pad 2 (second t).

Definition str_of_row (r : RowNumber) : string :=
  match r with RowInt n => str_of_Z n | RowCustom => "custom" end.

Definition str_of_bool (b : bool) : string := if b then "True" else "False".

(** The file name of a post written at [t]. *)
Definition post_filename (t : datetime) (topic_title : string) : string :=
  strftime_stamp t ++ "_" ++ slug topic_title ++ ".md".

(** The key lines of the front-matter block of [_save_blog_post]. *)
Definition front_matter_fields (enabled : bool) (topic_data : TopicRecord)
           (meta_description : string) (t : datetime) : string :=
  "title: " ++ DQ ++ title topic_data ++ DQ ++ NL
  ++ "meta_description: " ++ DQ ++ meta_description ++ DQ ++ NL
  ++ "date: " ++ strftime_date t ++ NL
  ++ "primary_keywords: " ++ DQ ++ primary_keywords topic_data ++ DQ ++ NL
  ++ "auxiliary_keywords: " ++ DQ ++ auxiliary_keywords topic_data ++ DQ ++ NL
  ++ "row_number: " ++ str_of_row (row_number topic_data) ++ NL
  ++ "generated_by: " ++ DQ ++ "Blog Writing Agent v2.0" ++ DQ ++ NL
  ++ "wordpress_enabled: " ++ str_of_bool enabled ++ NL.

(** The whole block: the opening line, the key lines, the closing line
    and the blank line. *)
Definition front_matter (enabled : bool) (topic_data : TopicRecord)
           (meta_description : string) (t : datetime) : string :=
  "---" ++ NL
  ++ front_matter_fields enabled topic_data meta_description t
  ++ "---" ++ NL
  ++ NL.

(** Paths as [pathlib] keeps them on a POSIX system: a root, which is
    empty, [/] or [//], and the components.  Parsing a string drops its
    empty components and the components [.]; exactly two leading slashes
    are kept as the root [//], any other number of them is the root [/]. *)
Record PosixPath : Type := mkPath {
  path_root : string;
  path_parts : list string
}.

Definition root_of (s : string) : string :=
  if startswith "//" s && negb (startswith "///" s) then "//"
  else if startswith "/" s then "/"
  else "".

Definition parts_of (s : string) : list string :=
  filter (fun part => truthy part && negb (part =? ".")) (split "/" s).

(** [Path(s)]. *)
Definition Path (s : string) : PosixPath := mkPath (root_of s) (parts_of s).

(** [self / key]: a key with a root replaces the path. *)
Definition joinpath (self : PosixPath) (key : string) : PosixPath :=
  if truthy (root_of key) then Path key
  else mkPath (path_root self) (path_parts self ++ parts_of key).

(** [str(p)]; the empty path is written [.]. *)
Definition str_of_path (p : PosixPath) : string :=
  match path_parts p with
  | [] => if truthy (path_root p) then path_root p else "."
  | _ :: _ => path_root p ++ join "/" (path_parts p)
  end.

(** [str(Path(dir) / filename)], as [_save_blog_post] returns it for the
    output directory the engine was given. *)
Definition path_str (dir filename : string) : string :=
  str_of_path (joinpath (Path dir) filename).

(** The prompt of [_generate_ai_content]. *)
Definition prompt_of (topic_data : TopicRecord) : string :=
  NL
  ++ "Write an engaging, comprehensive blog post about " ++ DQ
  ++ title topic_data ++ DQ ++ "." ++ NL
  ++ NL
  ++ "Primary keywords to focus on: " ++ primary_keywords topic_data ++ NL
  ++ "Auxiliary keywords to include: " ++ auxiliary_keywords topic_data ++ NL
  ++ NL
  ++ "Requirements:" ++ NL
  ++ "- FIRST: Write a compelling meta description (150-160 characters) that includes primary keywords" ++ NL
  ++ "- Format the meta description as: META_DESCRIPTION: [your description here]" ++ NL
  ++ "- Then write the blog post in markdown format" ++ NL
  ++ "- Include a compelling title with # header" ++ NL
  ++ "- Add an engaging introduction" ++ NL
  ++ "- Create 3-5 main sections with ## headers" ++ NL
  ++ "- Include practical tips, examples, or insights" ++ NL
  ++ "- Add a strong conclusion" ++ NL
  ++ "- Use bullet points and numbered lists where appropriate" ++ NL
  ++ "- Make it SEO-friendly but natural and engaging" ++ NL
  ++ "- Aim for 800-1200 words" ++ NL
  ++ "- Include relevant emojis to make it more engaging" ++ NL
  ++ NL
  ++ "IMPORTANT: Start your response with the meta description line, then add a blank line, then write the blog post." ++ NL
  ++ NL
  ++ "Example format:" ++ NL
  ++ "META_DESCRIPTION: Learn how digital marketing transforms businesses with proven strategies that boost sales, increase brand awareness, and drive customer engagement in 2025." ++ NL
  ++ NL
  ++ "# Your Blog Post Title Here" ++ NL
  ++ "...rest of the blog content..." ++ NL
  ++ NL
  ++ "Write a high-quality blog post that would rank well and provide real value to readers." ++ NL.

(** The rows of the sheet made into topics: numbered from 1, rows with
    fewer than three cells left out. *)
Fixpoint rows_to_topics (i : Z) (all_data : list (list string)) : list TopicRecord :=
  match all_data with
  | [] => []
  | row :: rest =>
      if (3 <=? List.length row)%nat then
        mkTopic (RowInt i) (nth 0 row "") (nth 1 row "") (nth 2 row "")
        :: rows_to_topics (i + 1) rest
      else rows_to_topics (i + 1) rest
  end.

(** The first topic of the given row, as the search loop of
    [generate_blog_post] finds it. *)
Fixpoint find_row (n : Z) (data : list TopicRecord) : option TopicRecord :=
  match data with
  | [] => None
  | item :: rest =>
      match row_number item with
      | RowInt m => if (m =? n)%Z then Some item else find_row n rest
      | RowCustom => find_row n rest
      end
  end.

(** Truth value of the result of [_publish_to_wordpress]. *)
Definition truthy_post_id (r : option Z) : bool :=
  match r with Some post_id => truthy_id post_id | None => false end.

Definition id_value (r : option Z) : Z :=
  match r with Some post_id => post_id | None => 0%Z end.

Section WithCollaborators.
Variable env : Collaborators.

Definition _init_sheets_client : M unit :=
  try_catch
    (r <- perform (sheets_authorize env) EvSheetsAuthorize ;;
     of_failure r ;;
     print InfoSheetsInitialized)
    (fun e => raise ("Failed to initialize Google Sheets: " ++ e)).

Definition _init_ai_client : M unit :=
  try_catch
    (api_key <- perform (os_getenv env "OPENROUTER_API_KEY")
                        (EvGetenv "OPENROUTER_API_KEY") ;;
     if env_truthy api_key then
       r <- perform (openai_client env (env_value api_key))
                    (EvOpenAIClient (env_value api_key)) ;;
       of_failure r ;;
       print InfoAiInitialized
     else raise "OPENROUTER_API_KEY not found in environment. Please set it in your .env file.")
    (fun e => raise ("Failed to initialize AI client: " ++ e)).

(** The only statement of the [try] block that can raise is the
    construction of the client, which precedes every assignment to
    [self]; the handler therefore starts from [self] as it was. *)
Definition _init_wordpress_client (self : BlogEngine) : M BlogEngine :=
  try_catch
    (c <- WordPressClient_new env ;;
     let self := set_wp_client self c in
     ok <- test_connection env c ;;
     if ok then
       print InfoWpConnected ;; ret self
     else
       print WarnWpConnectionFailed ;;
       print InfoMarkdownOnly ;;
       ret (set_wordpress_enabled self false))
    (fun e =>
       print (ErrWpInitFailed e) ;;
       print InfoFallingBack ;;
       ret (set_wordpress_enabled self false)).

Definition _load_sheet_data (self : BlogEngine) : M BlogEngine :=
  try_catch
    (h <- perform (worksheet_get env "A1:C1") (EvWorksheetGet "A1:C1") ;;
     h <- of_sum h ;;
     match h with
     | [] => raise "list index out of range"
     | headers :: _ =>
         d <- perform (worksheet_get env "A2:C") (EvWorksheetGet "A2:C") ;;
         all_data <- of_sum d ;;
         let self := set_sheet_data self (rows_to_topics 1 all_data) in
         print (InfoLoaded (List.length (sheet_data self))) ;;
         ret self
     end)
    (fun e => raise ("Failed to load sheet data: " ++ e)).

(** [BlogEngine(output_dir, ai_model, wordpress_enabled, wp_status)]. *)
Definition BlogEngine_new (output_dir ai_model : string)
           (wordpress_enabled : bool) (wp_status : string) : M BlogEngine :=
  let self := mkEngine output_dir ai_model wordpress_enabled wp_status [] None in
  r <- perform (path_mkdir env output_dir) (EvMkdir output_dir) ;;
  of_failure r ;;
  _init_sheets_client ;;
  _init_ai_client ;;
  self <- (if wordpress_enabled then _init_wordpress_client self else ret self) ;;
  _load_sheet_data self.

Definition _generate_ai_content (self : BlogEngine) (topic_data : TopicRecord)
  : M string :=
  let prompt := prompt_of topic_data in
  try_catch
    (r <- perform (chat_completions_create env (ai_model self) prompt)
                  (EvCompletion (ai_model self) prompt) ;;
     content <- of_sum r ;;
     ret (strip content))
    (fun e => raise ("AI generation failed: " ++ e)).

Definition _save_blog_post (self : BlogEngine) (topic_data : TopicRecord)
           (content meta_description : string) : M string :=
  t1 <- perform (datetime_now env) EvClock ;;
  let filename := post_filename t1 (title topic_data) in
  t2 <- perform (datetime_now env) EvClock ;;
  let metadata :=
    front_matter (wordpress_enabled self) topic_data meta_description t2 in
  let full_content := metadata ++ content in
  try_catch
    (r <- perform (file_write env (output_dir self) filename full_content)
                  (EvFileWrite (output_dir self) filename full_content) ;;
     of_failure r ;;
     ret (path_str (output_dir self) filename))
    (fun e => raise ("Failed to save markdown file: " ++ e)).

(** The markdown library may raise; the handler converts what
    [markdown_content] holds at that point, front matter removed. *)
Definition _markdown_to_html (markdown_content : string) : M string :=
  let markdown_content := strip_frontmatter markdown_content in
  match markdown_markdown env markdown_content with
  | inr html_content =>
      let html_content := strip html_content in
      print (InfoConverted (String.length markdown_content)
                           (String.length html_content)) ;;
      ret html_content
  | inl e =>
      print (ErrConversionFailed e) ;;
      ret (_simple_markdown_to_html markdown_content)
  end.

Definition _publish_to_wordpress (self : BlogEngine) (topic_data : TopicRecord)
           (content meta_description : string) : M (option Z) :=
  match wordpress_enabled self, wp_client self with
  | true, Some c =>
      try_catch
        (html_content <- _markdown_to_html content ;;
         post_id <- create_post env c (title topic_data) html_content
                                (wp_status self) meta_description ;;
         ret (Some post_id))
        (fun e => print (ErrPublishingError e) ;; ret None)
  | _, _ => ret None
  end.

Definition generate_blog_post (self : BlogEngine) (row : Z) : M unit :=
  match find_row row (sheet_data self) with
  | None => print (ErrRowNotFound row)
  | Some topic_data =>
      print (InfoGeneratingFor (title topic_data)) ;;
      ai_content <- _generate_ai_content self topic_data ;;
      let (meta_description, blog_content) :=
        _extract_meta_description ai_content in
      print (InfoMetaDescription meta_description) ;;
      filename <- _save_blog_post self topic_data blog_content meta_description ;;
      print (OkMarkdownSaved filename) ;;
      if wordpress_enabled self then
        wp_post_id <- _publish_to_wordpress self topic_data blog_content
                                            meta_description ;;
        if truthy_post_id wp_post_id
        then print (OkPublishedPostId (id_value wp_post_id))
        else print ErrPublishingFailed
      else ret tt
  end.

(** The body of the loop of [generate_all_blog_posts] for one topic,
    from the counters before it to the counters after it.  Nothing
    after the increment of [generated_count] can raise, so the handler
    returns the counters the turn started with. *)
Definition batch_body (self : BlogEngine) (counts : nat * nat)
           (topic_data : TopicRecord) : M (nat * nat) :=
  let (generated_count, published_count) := counts in
  try_catch
    (print (InfoGenerating (title topic_data)) ;;
     ai_content <- _generate_ai_content self topic_data ;;
     let (meta_description, blog_content) :=
       _extract_meta_description ai_content in
     filename <- _save_blog_post self topic_data blog_content meta_description ;;
     let generated_count := generated_count + 1 in
     print (OkMarkdown filename) ;;
     published_count <-
       (if wordpress_enabled self then
          wp_post_id <- _publish_to_wordpress self topic_data blog_content
                                              meta_description ;;
          if truthy_post_id wp_post_id then
            print (OkWordPressId (id_value wp_post_id)) ;;
            ret (published_count + 1)
          else
            print ErrPublishingFailed ;; ret published_count
        else ret published_count) ;;
     print PlainRule ;;
     ret (generated_count, published_count))
    (fun e =>
       print (ErrFailedToGenerate (title topic_data) e) ;;
       ret (generated_count, published_count)).

Fixpoint batch_loop (self : BlogEngine) (topics : list TopicRecord)
         (counts : nat * nat) : M (nat * nat) :=
  match topics with
  | [] => ret counts
  | topic_data :: rest =>
      counts <- batch_body self counts topic_data ;;
      batch_loop self rest counts
  end.

(** [generate_all_blog_posts]; the model returns the two counters it
    prints. *)
Definition generate_all_blog_posts (self : BlogEngine) : M (nat * nat) :=
  let total := List.length (sheet_data self) in
  print (InfoBeastMode total) ;;
  (if wordpress_enabled self then print InfoPublishingEnabledForAll else ret tt) ;;
  counts <- batch_loop self (sheet_data self) (0, 0) ;;
  print OkBeastModeComplete ;;
  print (OkGenerated (fst counts) total) ;;
  (if wordpress_enabled self then print (OkPublished (snd counts) total)
   else ret tt) ;;
  ret counts.

Definition generate_custom_blog_post (self : BlogEngine) (topic : string)
  : M unit :=
  print (InfoGeneratingCustom topic) ;;
  let custom_data := mkTopic RowCustom topic "" topic in
  ai_content <- _generate_ai_content self custom_data ;;
  let (meta_description, blog_content) :=
    _extract_meta_description ai_content in
  filename <- _save_blog_post self custom_data blog_content meta_description ;;
  print (OkCustomMarkdownSaved filename) ;;
  if wordpress_enabled self then
    wp_post_id <- _publish_to_wordpress self custom_data blog_content
                                        meta_description ;;
    if truthy_post_id wp_post_id
    then print (OkPublishedPostId (id_value wp_post_id))
    else print ErrPublishingFailed
  else ret tt.

End WithCollaborators.

End Engine.
Import Engine.

(** ** What a stage and a topic leave in the history *)

Module Yields.

(** Collaborators that always answer one way. *)
Definition generation_succeeds (env : Collaborators) (self : BlogEngine)
           (topic_data : TopicRecord) : Prop :=
  forall w, exists raw,
    chat_completions_create env (ai_model self) (prompt_of topic_data) w = inr raw.

Definition generation_raises (env : Collaborators) (self : BlogEngine)
           (topic_data : TopicRecord) : Prop :=
  forall w, exists e,
    chat_completions_create env (ai_model self) (prompt_of topic_data) w = inl e.

Definition writes_succeed (env : Collaborators) : Prop :=
  forall dir name content w, file_write env dir name content w = None.

(** The events of one call of [_publish_to_wordpress] that returned
    [r]: no file, no completion request, at most one remote creation
    call, which either raised or created a post. *)
Definition publish_segment (enabled : bool) (r : option Z) (evs : list Event)
  : Prop :=
  files_written evs = []
  /\ completion_calls evs = []
  /\ completion_failures evs = 0
  /\ write_failures evs = 0
  /\ List.length (new_post_calls evs) <= 1
  /\ new_post_failures evs + List.length (posts_created evs)
     = List.length (new_post_calls evs)
  /\ List.length (posts_published evs) = (if truthy_post_id r then 1 else 0)
  /\ ~ In ErrPublishingFailed (printed evs)
  /\ (enabled = false -> evs = []).

(** The events of one turn of the batch loop: one completion request;
    then exactly one of a raised generation, a raised write and a written
    file; a remote creation call only after a written file, and at most
    one. *)
Definition topic_segment (env : Collaborators) (self : BlogEngine)
           (topic_data : TopicRecord) (evs : list Event) : Prop :=
  completion_calls evs = [prompt_of topic_data]
  /\ List.length (files_written evs) + completion_failures evs
     + write_failures evs = 1
  /\ List.length (new_post_calls evs) <= List.length (files_written evs)
  /\ new_post_failures evs + List.length (posts_created evs)
     = List.length (new_post_calls evs)
  /\ (wordpress_enabled self = false -> new_post_calls evs = [])
  /\ In (InfoGenerating (title topic_data)) (printed evs)
  /\ (generation_raises env self topic_data -> completion_failures evs = 1)
  /\ (generation_succeeds env self topic_data -> completion_failures evs = 0)
  /\ (writes_succeed env -> write_failures evs = 0).

End Yields.
Import Yields.

(** ** Concrete surroundings for the scenarios *)

Module Scenarios.

Definition noon : datetime := mkDatetime 2025 9 24 12 0 0.

Definition reply : string :=
  "META_DESCRIPTION: A short description." ++ NL ++ NL
  ++ "# Title" ++ NL ++ NL ++ "Some text.".

Definition rows : list (list string) :=
  [["bread"; "flour, yeast"; "Baking bread"];
   ["tea"; "leaves"; "Brewing tea"];
   ["jam"; "fruit, sugar"; "Making jam"]].

Definition topic1 : TopicRecord := mkTopic (RowInt 1) "bread" "flour, yeast" "Baking bread".
Definition topic2 : TopicRecord := mkTopic (RowInt 2) "tea" "leaves" "Brewing tea".
Definition topic3 : TopicRecord := mkTopic (RowInt 3) "jam" "fruit, sugar" "Making jam".

(** Surroundings in which every collaborator answers well. *)
Definition env_ok : Collaborators :=
  mkCollaborators
    (fun _ => noon)
    (fun _ _ => None)
    (fun _ => None)
    (fun range _ => if range =? "A1:C1" then inr [["Primary"; "Auxiliary"; "Title"]]
                    else inr rows)
    (fun _ _ => Some "value")
    (fun _ _ => None)
    (fun _ _ _ => inr reply)
    (fun _ _ _ _ => None)
    (fun md => inr ("<p>" ++ md ++ "</p>"))
    (fun _ _ _ _ => None)
    (fun _ _ => inr tt)
    (fun _ _ => inr 101%Z)
    (fun _ => None).

Definition with_completion (env : Collaborators)
           (f : string -> string -> World -> exn + string) : Collaborators :=
  mkCollaborators (datetime_now env) (path_mkdir env) (sheets_authorize env)
    (worksheet_get env) (os_getenv env) (openai_client env) f (file_write env)
    (markdown_markdown env) (xmlrpc_client env) (xmlrpc_get_posts env)
    (xmlrpc_new_post env) (load_dotenv env).

Definition with_file_write (env : Collaborators)
           (f : string -> string -> string -> World -> option exn) : Collaborators :=
  mkCollaborators (datetime_now env) (path_mkdir env) (sheets_authorize env)
    (worksheet_get env) (os_getenv env) (openai_client env)
    (chat_completions_create env) f
    (markdown_markdown env) (xmlrpc_client env) (xmlrpc_get_posts env)
    (xmlrpc_new_post env) (load_dotenv env).

Definition with_get_posts (env : Collaborators)
           (f : nat -> World -> exn + unit) : Collaborators :=
  mkCollaborators (datetime_now env) (path_mkdir env) (sheets_authorize env)
    (worksheet_get env) (os_getenv env) (openai_client env)
    (chat_completions_create env) (file_write env)
    (markdown_markdown env) (xmlrpc_client env) f (xmlrpc_new_post env)
    (load_dotenv env).

Definition with_new_post (env : Collaborators)
           (f : WordPressPost -> World -> exn + Z) : Collaborators :=
  mkCollaborators (datetime_now env) (path_mkdir env) (sheets_authorize env)
    (worksheet_get env) (os_getenv env) (openai_client env)
    (chat_completions_create env) (file_write env)
    (markdown_markdown env) (xmlrpc_client env) (xmlrpc_get_posts env) f
    (load_dotenv env).

(** The completion request for the second topic raises. *)
Definition env_second_generation_fails : Collaborators :=
  with_completion env_ok
    (fun _ prompt _ => if prompt =? prompt_of topic2 then inl "rate limited"
                       else inr reply).

(** The first attempt to write a file raises, later ones succeed. *)
Definition env_first_write_fails : Collaborators :=
  with_file_write env_ok
    (fun _ _ _ w => if (write_failures w =? 0)%nat then Some "disk full" else None).

(** Every remote creation call raises. *)
Definition env_publish_fails : Collaborators :=
  with_new_post env_ok (fun _ _ => inl "connection refused").

(** The probe of the remote endpoint raises. *)
Definition env_probe_fails : Collaborators :=
  with_get_posts env_ok (fun _ _ => inl "timed out").

Definition a_client : WordPressClient :=
  mkWordPressClient (Some "value") (Some "value") (Some "value")
                    (Some (mkClient "value" "value" "value")).

(** The engine that the constructor returns when publishing was asked
    for and the probe raised. *)
Definition engine_after_failed_probe : BlogEngine :=
  mkEngine "blog_posts" "openai/gpt-4o-mini" false "draft"
           [topic1; topic2; topic3] (Some a_client).

Definition engine_markdown_only : BlogEngine :=
  mkEngine "blog_posts" "openai/gpt-4o-mini" false "draft"
           [topic1; topic2; topic3] None.

Definition engine_publishing : BlogEngine :=
  mkEngine "blog_posts" "openai/gpt-4o-mini" true "draft"
           [topic1; topic2; topic3] (Some a_client).

End Scenarios.

(** ** Notions the specification uses *)

Module SpecWords.

(** The first non-blank line that does not start with a heading
    marker, as it stands in the text. *)
Fixpoint first_text_line (lines : list string) : option string :=
  match lines with
  | [] => None
  | line :: rest =>
      if truthy (strip line) && negb (startswith "#" line) then Some line
      else first_text_line rest
  end.

(** A match of [^\d{8}_\d{6}_hello-world-2025\.md$]; the final [$]
    also accepts one newline at the very end. *)
Definition hello_pattern (f : string) : bool :=
  (String.length (take 8 f) =? 8)%nat && all_chars is_digit09 (take 8 f)
  && (take 1 (drop 8 f) =? "_")
  && (String.length (take 6 (drop 9 f)) =? 6)%nat
  && all_chars is_digit09 (take 6 (drop 9 f))
  && ((drop 15 f =? "_hello-world-2025.md")
      || (drop 15 f =? "_hello-world-2025.md" ++ NL)).

(** The characters both file-name computations keep as they are:
    letters, digits and the hyphen. *)
Definition stem_char (c : ascii) : bool := is_alnum_class c || Ascii.eqb c "-".

(** A string without any character of a given set. *)
Definition free_of (chars s : string) : bool :=
  all_chars (fun c => negb (char_in c chars)) s.






End SpecWords.
Import SpecWords.

(** ** Shapes of file names *)

Module Shapes.

(** Lowercase letters, digits and the hyphen. *)
Definition file_char (c : ascii) : bool :=
  is_lower_az c || is_digit09 c || Ascii.eqb c "-".

(** The characters a post file name is made of: those of [file_char],
    the backslash, the underscore and the dot. *)
Definition post_name_char (c : ascii) : bool :=
  file_char c || Ascii.eqb c "\" || Ascii.eqb c "_" || Ascii.eqb c ".".

(** A string that [strip] leaves as it is. *)
Definition trimmed (s : string) : Prop := strip s = s.

(** A string on one line. *)
Definition one_line (s : string) : bool :=
  all_chars (fun c => negb (Ascii.eqb c nl)) s.

(** The hyphens that end [s], counted on from [k] hyphens met just
    before it; [None] once three hyphens in a row were met. *)
Fixpoint dash_run (k : nat) (s : string) : option nat :=
  match s with
  | "" => Some k
  | String c s' =>
      if Ascii.eqb c "-" then
        if (2 <=? k)%nat then None else dash_run (S k) s'
      else dash_run 0 s'
  end.

Fixpoint hyphens (n : nat) : string :=
  match n with 0 => "" | S n' => String "-" (hyphens n') end.

(** Entered after at most [i] hyphens, [s] holds no three hyphens in a
    row and ends with at most [j] hyphens. *)
Definition dash_bound (i j : nat) (s : string) : Prop :=
  forall k, k <= i -> exists k', k' <= j /\ dash_run k s = Some k'.

End Shapes.
Import Shapes.

(** ** More of what a history shows *)

Module MoreTrace.

(** The interactions that concern the WordPress site: reading its
    credentials, connecting, probing and creating posts. *)
Definition is_wordpress_event (e : Event) : bool :=
  match e with
  | EvXmlRpcClient _ _ _ _ => true
  | EvGetPosts _ _ => true
  | EvNewPost _ _ => true
  | EvGetenv name _ => startswith "WORDPRESS_" name
  | _ => false
  end.

Definition no_wordpress (evs : list Event) : bool :=
  forallb (fun e => negb (is_wordpress_event e)) evs.

(** The connections to the XML-RPC endpoint the run has attempted. *)
Fixpoint client_attempts (w : World) : nat :=
  match w with
  | [] => 0
  | EvXmlRpcClient _ _ _ _ :: w' => S (client_attempts w')
  | _ :: w' => client_attempts w'
  end.

(** The environment variables the run has read and found unset or
    empty. *)
Fixpoint missing_env (w : World) : nat :=
  match w with
  | [] => 0
  | EvGetenv _ r :: w' =>
      if env_truthy r then missing_env w' else S (missing_env w')
  | _ :: w' => missing_env w'
  end.

(** The constructions of the completion client the run has attempted. *)
Fixpoint ai_client_attempts (w : World) : nat :=
  match w with
  | [] => 0
  | EvOpenAIClient _ _ :: w' => S (ai_client_attempts w')
  | _ :: w' => ai_client_attempts w'
  end.

(** The interactions of the set-up: everything but a reading of the
    clock, a completion request, a file write and a remote creation
    call. *)
Definition is_setup_event (e : Event) : bool :=
  match e with
  | EvClock _ => false
  | EvCompletion _ _ _ => false
  | EvFileWrite _ _ _ _ => false
  | EvNewPost _ _ => false
  | _ => true
  end.

Definition setup_only (evs : list Event) : bool := forallb is_setup_event evs.

End MoreTrace.
Import MoreTrace.

(** ** Outcomes of a run for one topic *)

Module Outcomes.

(** What the pipeline leaves for one topic when the per-topic handler of
    the batch run is not around it. *)
Definition pipeline_outcome (self : BlogEngine) (topic_data : TopicRecord)
           (r : exn + unit) (evs : list Event) : Prop :=
  completion_calls evs = [prompt_of topic_data]
  /\ List.length (files_written evs) + completion_failures evs
     + write_failures evs = 1
  /\ List.length (new_post_calls evs) <= List.length (files_written evs)
  /\ (wordpress_enabled self = false -> new_post_calls evs = [])
  /\ (forall e, r = inl e ->
        (startswith "AI generation failed: " e = true
         /\ completion_failures evs = 1)
        \/ (startswith "Failed to save markdown file: " e = true
            /\ write_failures evs = 1))
  /\ (r = inr tt -> List.length (files_written evs) = 1)
  /\ (0 < new_post_failures evs ->
      r = inr tt /\ In ErrPublishingFailed (printed evs)).

End Outcomes.
Import Outcomes.

(** ** More concrete surroundings *)

Module MoreScenarios.

Definition with_getenv (env : Collaborators)
           (f : string -> World -> option string) : Collaborators :=
  mkCollaborators (datetime_now env) (path_mkdir env) (sheets_authorize env)
    (worksheet_get env) f (openai_client env)
    (chat_completions_create env) (file_write env)
    (markdown_markdown env) (xmlrpc_client env) (xmlrpc_get_posts env)
    (xmlrpc_new_post env) (load_dotenv env).

Definition with_worksheet (env : Collaborators)
           (f : string -> World -> exn + list (list string)) : Collaborators :=
  mkCollaborators (datetime_now env) (path_mkdir env) (sheets_authorize env)
    f (os_getenv env) (openai_client env)
    (chat_completions_create env) (file_write env)
    (markdown_markdown env) (xmlrpc_client env) (xmlrpc_get_posts env)
    (xmlrpc_new_post env) (load_dotenv env).

(** No environment variable is set. *)
Definition env_nothing_set : Collaborators :=
  with_getenv Scenarios.env_ok (fun _ _ => None).

Definition with_load_dotenv (env : Collaborators)
           (f : World -> option exn) : Collaborators :=
  mkCollaborators (datetime_now env) (path_mkdir env) (sheets_authorize env)
    (worksheet_get env) (os_getenv env) (openai_client env)
    (chat_completions_create env) (file_write env)
    (markdown_markdown env) (xmlrpc_client env) (xmlrpc_get_posts env)
    (xmlrpc_new_post env) f.

(** The [.env] file cannot be read. *)
Definition env_dotenv_unreadable : Collaborators :=
  with_load_dotenv Scenarios.env_ok (fun _ => Some "permission denied").

(** The spreadsheet cannot be read. *)
Definition env_sheet_unreadable : Collaborators :=
  with_worksheet Scenarios.env_ok (fun _ _ => inl "permission denied").

(** Every completion request raises. *)
Definition env_no_completion : Collaborators :=
  Scenarios.with_completion Scenarios.env_ok (fun _ _ _ => inl "rate limited").

End MoreScenarios.

(** ** [wordpress_client.py]: the connection report *)

Module Report.

(** The dictionary [get_connection_info] returns. *)
Record ConnectionInfo : Type := mkConnectionInfo {
  info_url : option string;
  info_username : option string;
  password_set : bool;
  client_ready : bool
}.

Definition get_connection_info (self : WordPressClient) : ConnectionInfo :=
  mkConnectionInfo (wp_url self) (wp_username self)
                   (env_truthy (wp_password self))
                   (match client self with Some _ => true | None => false end).

End Report.
Import Report.

(** ** [blog_agent.py]: the command line *)

Module Cli.

(** The command line as [parse_args] returns it. *)
Record Args : Type := mkArgs {
  args_list : bool;
  args_generate : option Z;
  args_generate_all : bool;
  args_custom : option string;
  args_to_wordpress : bool;
  args_wp_status : string;
  args_output_dir : string;
  args_model : string
}.

(** What [parser.parse_args()] makes of the command line: the parsed
    arguments, or the help text and an exit with status 0, or the usage
    with an error message and an exit with status 2. *)
Inductive ParseResult : Type :=
| Parsed (args : Args)
| HelpRequested
| UsageError.

(** What [main], the parser and [list_topics] print themselves. *)
Inductive CliMsg : Type :=
| Banner (date : string)
| Usage
| InfoInitializing
| OkInitialized
| ErrInitFailed (e : exn)
| Help
| InfoTipList
| InfoTipWordPress
| InfoTopicsHeader
| PlainRule80
| WarnNoTopics
| PlainTopicRow (row : RowNumber) (title : string)
| PlainTopicPrimary (primary_keywords : string)
| PlainTopicAuxiliary (auxiliary_keywords : string)
| PlainRule60
| PlainTotal (n : nat)
| InfoPublishingEnabled
| InfoMarkdownOnlyMode.

(** The history of a run of the command line: the interactions of the
    engine and the lines of the command line, in order. *)
Inductive Line : Type :=
| EngineLine (e : Event)
| CliLine (m : CliMsg).

Definition History : Type := list Line.

(** The part of the history the collaborators of the engine answer
    from. *)
Fixpoint engine_events (h : History) : World :=
  match h with
  | [] => []
  | EngineLine e :: h' => e :: engine_events h'
  | CliLine _ :: h' => engine_events h'
  end.

Fixpoint said (h : History) : list CliMsg :=
  match h with
  | [] => []
  | CliLine m :: h' => m :: said h'
  | EngineLine _ :: h' => said h'
  end.

(** The topics a listing shows: number and title. *)
Fixpoint topic_rows (ms : list CliMsg) : list (RowNumber * string) :=
  match ms with
  | [] => []
  | PlainTopicRow row t :: ms' => (row, t) :: topic_rows ms'
  | _ :: ms' => topic_rows ms'
  end.

(** The lines a listing prints for one topic. *)
Definition topic_lines (item : TopicRecord) : list CliMsg :=
  [PlainTopicRow (row_number item) (title item);
   PlainTopicPrimary (primary_keywords item);
   PlainTopicAuxiliary (auxiliary_keywords item);
   PlainRule60].

(** How a computation ends: with a value, with an exception that
    [except Exception] catches, or with the [SystemExit] of [sys.exit],
    which it does not catch. *)
Inductive Outcome (A : Type) : Type :=
| Done (a : A)
| Raised (e : exn)
| SystemExit (code : Z).
Arguments Done {A} a.
Arguments Raised {A} e.
Arguments SystemExit {A} code.

Definition of_result {A} (r : exn + A) : Outcome A :=
  match r with inr a => Done a | inl e => Raised e end.

Definition C (A : Type) : Type := History -> Outcome A * History.

Definition cret {A} (a : A) : C A := fun h => (Done a, h).

Definition cbind {A B} (c : C A) (k : A -> C B) : C B :=
  fun h => match c h with
           | (Done a, h') => k a h'
           | (Raised e, h') => (Raised e, h')
           | (SystemExit code, h') => (SystemExit code, h')
           end.

(** [try: c  except Exception as e: handler e]. *)
Definition except_Exception {A} (c : C A) (handler : exn -> C A) : C A :=
  fun h => match c h with
           | (Raised e, h') => handler e h'
           | other => other
           end.

Definition sys_exit {A} (code : Z) : C A := fun h => (SystemExit code, h).

Definition say (m : CliMsg) : C unit :=
  fun h => (Done tt, (h ++ [CliLine m])%list).

(** An engine computation run from the command line: it starts from the
    engine's part of the history, and the events it adds go to the end of
    the history. *)
Definition lift {A} (c : M A) : C A :=
  fun h =>
    let w := engine_events h in
    let (r, w') := c w in
    (of_result r, (h ++ map EngineLine (skipn (List.length w) w'))%list).

Declare Scope cli_scope.
Delimit Scope cli_scope with cli.
Notation "x <- c ;; k" := (cbind c (fun x => k))
  (at level 61, c at next level, right associativity) : cli_scope.
Notation "c ;; k" := (cbind c (fun _ => k))
  (at level 61, right associativity) : cli_scope.
Local Open Scope cli_scope.

(** [strftime("%Y-%m-%d")]. *)
Definition strftime_day (t : datetime) : string :=
  zero_pad 4 (year t) ++ "-" ++ zero_pad 2 (month t) ++ "-" ++ zero_pad 2 (day t).

Section WithCollaborators.
Variable env : Collaborators.

Definition print_banner : C unit :=
  t <- lift (perform (datetime_now env) EvClock) ;;
  say (Banner (strftime_day t)).

(** The loop of [list_topics]. *)
Fixpoint list_loop (topics : list TopicRecord) : C unit :=
  match topics with
  | [] => cret tt
  | item :: rest =>
      say (PlainTopicRow (row_number item) (title item)) ;;
      say (PlainTopicPrimary (primary_keywords item)) ;;
      say (PlainTopicAuxiliary (auxiliary_keywords item)) ;;
      say PlainRule60 ;;
      list_loop rest
  end.

(** [BlogEngine.list_topics]. *)
Definition list_topics (self : BlogEngine) : C unit :=
  say InfoTopicsHeader ;;
  say PlainRule80 ;;
  match sheet_data self with
  | [] => say WarnNoTopics
  | _ :: _ =>
      list_loop (sheet_data self) ;;
      say (PlainTotal (List.length (sheet_data self))) ;;
      if wordpress_enabled self then say InfoPublishingEnabled
      else say InfoMarkdownOnlyMode
  end.

(** The chain of [if] and [elif] that ends [main]. *)
Definition run_command (args : Args) (blog_engine : BlogEngine) : C unit :=
  if args_list args then list_topics blog_engine
  else
    match args_generate args with
    | Some row => lift (generate_blog_post env blog_engine row)
    | None =>
        if args_generate_all args then
          lift (generate_all_blog_posts env blog_engine) ;; cret tt
        else if env_truthy (args_custom args) then
          lift (generate_custom_blog_post env blog_engine
                                          (env_value (args_custom args)))
        else
          say Help ;; say InfoTipList ;; say InfoTipWordPress
    end.

(** [parser.parse_args()]. *)
Definition parse_args (cmdline : ParseResult) : C Args :=
  match cmdline with
  | Parsed args => cret args
  | HelpRequested => say Help ;; sys_exit 0
  | UsageError => say Usage ;; sys_exit 2
  end.

(** [main]; [cmdline] is what the parser makes of [sys.argv]. *)
Definition main (cmdline : ParseResult) : C unit :=
  print_banner ;;
  args <- parse_args cmdline ;;
  blog_engine <-
    except_Exception
      (say InfoInitializing ;;
       blog_engine <- lift (BlogEngine_new env (args_output_dir args)
                                           (args_model args)
                                           (args_to_wordpress args)
                                           (args_wp_status args)) ;;
       say OkInitialized ;;
       cret blog_engine)
      (fun e => say (ErrInitFailed e) ;; sys_exit 1) ;;
  run_command args blog_engine.

End WithCollaborators.

(** A command line with the defaults of the parser and no command. *)
Definition no_command : Args :=
  mkArgs false None false None false "draft" "blog_posts" "openai/gpt-4o-mini".

End Cli.
Import Cli.

(** * Properties *)

(** ** The string and pattern operations on concrete inputs *)

Example splitn_limit :
  splitn NL 2 ("a" ++ NL ++ "b" ++ NL ++ "c" ++ NL ++ "d")
  = ["a"; "b"; "c" ++ NL ++ "d"].
Proof. reflexivity. Qed.

Example split_blank_lines :
  split (NL ++ NL) ("a" ++ NL ++ NL ++ "b" ++ NL ++ NL ++ NL ++ "c")
  = ["a"; "b"; NL ++ "c"].
Proof. reflexivity. Qed.

Example splitn_front_matter : splitn "---" 2 "----a---b---c" = [""; "-a"; "b---c"].
Proof. reflexivity. Qed.

Example replace_not_overlapping : replace "aa" "b" "aaa" = "ba".
Proof. reflexivity. Qed.

Example strip_both_ends : strip ("  a b " ++ NL) = "a b".
Proof. reflexivity. Qed.

Example sub_line_headers :
  sub_line "## " "<h2>" "</h2>" ("## a" ++ NL ++ "## " ++ NL ++ "x ## b" ++ NL ++ "## c")
  = "<h2>a</h2>" ++ NL ++ "## " ++ NL ++ "x ## b" ++ NL ++ "<h2>c</h2>".
Proof. reflexivity. Qed.

Example sub_delim_bold :
  sub_delim "**" "<strong>" "</strong>" ("****a** ** **" ++ NL ++ "** **x****")
  = "<strong>**a</strong> <strong> </strong>" ++ NL ++ "<strong> </strong>x****".
Proof. reflexivity. Qed.

Example sub_delim_italic :
  sub_delim "*" "<em>" "</em>" ("***" ++ NL ++ "* a*b*c* **")
  = "<em>*</em>" ++ NL ++ "<em> a</em>b<em>c</em> **".
Proof. reflexivity. Qed.

Example slug_backslash_runs : slug "a\ss\sb -x \x" = "a--b-x\x".
Proof. reflexivity. Qed.

Example safe_filename_spaces : safe_filename "  Hello,   World! 2025 " 50 = "hello-world-2025".
Proof. reflexivity. Qed.

Example safe_filename_negative_limit :
  safe_filename "abc def" (-2) = "abc-d" /\ safe_filename "abc-d" (-2) = "abc".
Proof. split; reflexivity. Qed.

Example hello_pattern_accepts :
  hello_pattern "20250924_120000_hello-world-2025.md" = true
  /\ hello_pattern "20250924_120000_helloworld2025.md" = false
  /\ hello_pattern "2025-09-24_120000_hello-world-2025.md" = false.
Proof. repeat split. Qed.

Example simple_markdown_keeps_tagged_paragraphs :
  _simple_markdown_to_html
    ("# Title" ++ NL ++ NL ++ "hello **bold** and *it*" ++ NL ++ NL ++ "<b>x</b>")
  = "<h1>Title</h1>" ++ NL ++ "<b>x</b>".
Proof. reflexivity. Qed.

(** ** Strings *)

Section StringFacts.

Lemma app_empty_r (s : string) : s ++ "" = s.
Proof. induction s as [|c s IH]; simpl; [reflexivity | now rewrite IH]. Qed.

Lemma app_assoc_s (a b c : string) : (a ++ b) ++ c = a ++ (b ++ c).
Proof. induction a as [|x a IH]; simpl; [reflexivity | now rewrite IH]. Qed.

Lemma length_app_s (a b : string) :
  String.length (a ++ b) = String.length a + String.length b.
Proof. induction a as [|x a IH]; simpl; [reflexivity | now rewrite IH]. Qed.

Lemma take_app_length (a b : string) : take (String.length a) (a ++ b) = a.
Proof. induction a as [|x a IH]; simpl; [now destruct b | now rewrite IH]. Qed.

Lemma drop_app_length (a b : string) : drop (String.length a) (a ++ b) = b.
Proof. induction a as [|x a IH]; simpl; [now destruct b | exact IH]. Qed.

Lemma drop_add (n m : nat) (s : string) : drop (n + m) s = drop m (drop n s).
Proof.
  revert s; induction n as [|n IH]; intros s; simpl; [reflexivity|].
  destruct s as [|c s]; [now destruct m | apply IH].
Qed.

Lemma take_drop (n : nat) (s : string) : take n s ++ drop n s = s.
Proof.
  revert s; induction n as [|n IH]; intros [|c s]; simpl;
    try reflexivity; now rewrite IH.
Qed.

Lemma length_take_le (n : nat) (s : string) : String.length (take n s) <= n.
Proof.
  revert s; induction n as [|n IH]; intros [|c s]; simpl; try lia.
  specialize (IH s); lia.
Qed.

Lemma take_all (n : nat) (s : string) : String.length s <= n -> take n s = s.
Proof.
  revert s; induction n as [|n IH]; intros [|c s]; simpl; intros H;
    try reflexivity; try lia.
  rewrite IH; [reflexivity | lia].
Qed.

Lemma startswith_app (p s : string) : startswith p (p ++ s) = true.
Proof.
  induction p as [|c p IH]; simpl; [reflexivity|].
  now rewrite Ascii.eqb_refl, IH.
Qed.

Lemma startswith_take (p s : string) :
  startswith p s = true -> take (String.length p) s = p.
Proof.
  revert s; induction p as [|c p IH]; intros [|d s]; simpl; intros H;
    try reflexivity; try discriminate.
  apply andb_true_iff in H as [Hc Hs].
  apply Ascii.eqb_eq in Hc; subst d. now rewrite (IH s Hs).
Qed.

(** A string that starts with [p] is [p] followed by the rest. *)
Lemma startswith_split (p s : string) :
  startswith p s = true -> s = p ++ drop (String.length p) s.
Proof.
  intros H. rewrite <- (take_drop (String.length p) s) at 1.
  now rewrite (startswith_take p s H).
Qed.

(** What [find] returns is the place of an occurrence. *)
Lemma find_some (sub s : string) (pos : nat) :
  find sub s = Some pos ->
  s = take pos s ++ sub ++ drop (pos + String.length sub) s.
Proof.
  revert pos; induction s as [|c s IH]; intros pos; simpl.
  - destruct (startswith sub "") eqn:E; [|discriminate].
    intros [= <-]. simpl. destruct sub; [reflexivity | discriminate].
  - destruct (startswith sub (String c s)) eqn:E.
    + intros [= <-]. simpl take. simpl "++". simpl Nat.add.
      now apply startswith_split.
    + destruct (find sub s) as [q|] eqn:F; simpl; [|discriminate].
      intros [= <-]. simpl. f_equal. now apply IH.
Qed.

Lemma find_none_empty (sub : string) : find sub "" = None -> sub <> "".
Proof. intros H ->. discriminate. Qed.

(** No occurrence at all: no suffix starts with [sub]. *)
Lemma find_none_cons (sub : string) (c : ascii) (s : string) :
  find sub (String c s) = None ->
  startswith sub (String c s) = false /\ find sub s = None.
Proof.
  simpl. destruct (startswith sub (String c s)); [discriminate|].
  destruct (find sub s); [discriminate | now split].
Qed.

(** The first occurrence of a one-character separator. *)
Lemma find_char_app (c : ascii) (a r : string) :
  find (String c "") a = None ->
  find (String c "") (a ++ String c r) = Some (String.length a).
Proof.
  induction a as [|d a IH]; intros H.
  - simpl. now rewrite Ascii.eqb_refl.
  - apply find_none_cons in H as [H1 H2].
    simpl in H1. simpl.
    destruct (Ascii.eqb c d); [now destruct a|].
    now rewrite (IH H2).
Qed.

Lemma find_char_app_none (c : ascii) (a b : string) :
  find (String c "") a = None -> find (String c "") b = None ->
  find (String c "") (a ++ b) = None.
Proof.
  induction a as [|d a IH]; intros Ha Hb; [exact Hb|].
  apply find_none_cons in Ha as [H1 H2]. simpl in H1. simpl.
  destruct (Ascii.eqb c d); [now destruct a|].
  now rewrite (IH H2 Hb).
Qed.

(** Cutting at a separator that does not occur gives the string back,
    whatever the limit. *)
Lemma splitn_none (sep : string) (n : nat) (s : string) :
  find sep s = None -> splitn sep n s = [s].
Proof. intros H. destruct n; simpl; [reflexivity | now rewrite H]. Qed.

Lemma splitn_length_pos (sep : string) (n : nat) (s : string) :
  1 <= List.length (splitn sep n s).
Proof.
  destruct n; simpl; [lia|]. destruct (find sep s); simpl; lia.
Qed.

(** A separator that occurs leaves a shorter rest behind. *)
Lemma find_some_rest (sub s : string) (pos : nat) :
  sub <> "" -> find sub s = Some pos ->
  String.length (drop (pos + String.length sub) s) < String.length s.
Proof.
  intros Hsub F. pose proof (find_some sub s pos F) as E.
  rewrite E at 2. rewrite !length_app_s.
  destruct sub as [|c sub]; [congruence|]. cbn [String.length].
  enough (String.length (drop (pos + S (String.length sub)) s)
          = String.length (drop (pos + String.length (String c sub)) s))
    by lia.
  reflexivity.
Qed.

(** A limit of at least the length of the string is no limit: the
    split and the replacement are those of any larger limit. *)
Lemma splitn_saturates (sep : string) (n m : nat) (s : string) :
  sep <> "" -> String.length s <= n -> String.length s <= m ->
  splitn sep n s = splitn sep m s.
Proof.
  intros Hsep. revert m s. induction n as [|n IH]; intros m s Hn Hm.
  - destruct s; [|cbn in Hn; lia].
    destruct m; cbn [splitn]; [reflexivity|].
    destruct sep; [congruence | reflexivity].
  - destruct m as [|m].
    + destruct s; [|cbn in Hm; lia]. cbn [splitn].
      destruct sep; [congruence | reflexivity].
    + cbn [splitn]. destruct (find sep s) as [pos|] eqn:F; [|reflexivity].
      pose proof (find_some_rest sep s pos Hsep F).
      f_equal. apply IH; lia.
Qed.

Lemma replacen_saturates (old new : string) (n m : nat) (s : string) :
  old <> "" -> String.length s <= n -> String.length s <= m ->
  replacen old new n s = replacen old new m s.
Proof.
  intros Hold. revert m s. induction n as [|n IH]; intros m s Hn Hm.
  - destruct s; [|cbn in Hn; lia].
    destruct m; cbn [replacen]; [reflexivity|].
    destruct old; [congruence | reflexivity].
  - destruct m as [|m].
    + destruct s; [|cbn in Hm; lia]. cbn [replacen].
      destruct old; [congruence | reflexivity].
    + cbn [replacen]. destruct (find old s) as [pos|] eqn:F; [|reflexivity].
      pose proof (find_some_rest old s pos Hold F).
      do 2 f_equal. apply IH; lia.
Qed.

Lemma replacen_none (old new : string) (n : nat) (s : string) :
  find old s = None -> replacen old new n s = s.
Proof. intros H. destruct n; simpl; [reflexivity | now rewrite H]. Qed.

(** Stripping. *)
Lemma lstrip_by_cons_out (p : ascii -> bool) (c : ascii) (s : string) :
  p c = false -> lstrip_by p (String c s) = String c s.
Proof. intros H; simpl; now rewrite H. Qed.

Lemma rstrip_by_cons_nonempty (p : ascii -> bool) (c : ascii) (s : string) :
  p c = false -> rstrip_by p (String c s) <> "".
Proof. intros H; simpl. destruct (rstrip_by p s); [now rewrite H | discriminate]. Qed.

Lemma strip_cons_space (c : ascii) (s : string) :
  is_space c = true -> strip (String c s) = strip s.
Proof. intros H. unfold strip, strip_by. simpl. now rewrite H. Qed.

Lemma rstrip_by_length (p : ascii -> bool) (s : string) :
  String.length (rstrip_by p s) <= String.length s.
Proof.
  induction s as [|c s IH]; simpl; [lia|].
  destruct (rstrip_by p s); [destruct (p c) |]; simpl in *; lia.
Qed.

Lemma lstrip_by_length (p : ascii -> bool) (s : string) :
  String.length (lstrip_by p s) <= String.length s.
Proof.
  induction s as [|c s IH]; simpl; [lia|].
  destruct (p c); simpl; lia.
Qed.

Lemma strip_length (s : string) : String.length (strip s) <= String.length s.
Proof.
  unfold strip, strip_by.
  pose proof (rstrip_by_length is_space (lstrip_by is_space s)).
  pose proof (lstrip_by_length is_space s). lia.
Qed.

End StringFacts.

(** ** The response parser *)

Section ParserFacts.

Lemma split_lt2_no_newline (s : string) :
  List.length (split NL s) < 2 -> find NL s = None.
Proof.
  unfold split. destruct s as [|c s]; [reflexivity|].
  cbn [String.length splitn].
  destruct (find NL (String c s)) as [pos|]; [|reflexivity].
  intros H. cbn [List.length] in H.
  pose proof (splitn_length_pos NL (String.length s)
                (drop (pos + String.length NL) (String c s))).
  lia.
Qed.

Lemma tagged_is_text (content : string) :
  startswith META_TAG content = true ->
  truthy (strip content) = true /\ startswith "#" content = false.
Proof.
  intros H. destruct content as [|c content]; [discriminate|].
  unfold META_TAG in H. cbn [startswith] in H.
  apply andb_true_iff in H as [Hc _].
  apply Ascii.eqb_eq in Hc. subst c. split; [|reflexivity].
  unfold strip, strip_by. rewrite lstrip_by_cons_out by reflexivity.
  unfold truthy. apply negb_true_iff, String.eqb_neq.
  now apply rstrip_by_cons_nonempty.
Qed.

Lemma first_paragraph_of_text_line (lines : list string) :
  first_paragraph_of lines =
  match first_text_line lines with Some line => strip line | None => "" end.
Proof.
  induction lines as [|line rest IH];
    cbn [first_paragraph_of first_text_line]; [reflexivity|].
  now destruct (truthy (strip line) && negb (startswith "#" line)).
Qed.

Lemma find_newline_tag_prefix (X : string) :
  find NL X = None -> find NL (META_TAG ++ " " ++ X) = None.
Proof.
  intros H. apply find_char_app_none; [reflexivity|].
  transitivity (option_map S (find NL X)); [reflexivity | now rewrite H].
Qed.

(** The tag starts with [M]: it cannot begin at a space. *)
Lemma find_tag_after_space (X : string) :
  find META_TAG X = None -> find META_TAG (String " " X) = None.
Proof.
  intros H.
  transitivity (option_map S (find META_TAG X)); [reflexivity | now rewrite H].
Qed.

Lemma replace_tag_line (X : string) :
  find META_TAG X = None ->
  replace META_TAG "" (META_TAG ++ " " ++ X) = String " " X.
Proof.
  intros H. unfold replace.
  change (String.length (META_TAG ++ " " ++ X)) with (S (17 + String.length X)).
  cbn [replacen].
  change (find META_TAG (META_TAG ++ " " ++ X)) with (Some 0).
  cbn [take String.append].
  change (drop (0 + String.length META_TAG) (META_TAG ++ " " ++ X))
    with (String " " X).
  apply replacen_none. now apply find_tag_after_space.
Qed.

Lemma splitn_tagged (X BODY : string) :
  find NL X = None ->
  splitn NL 2 (META_TAG ++ " " ++ X ++ NL ++ NL ++ BODY)
  = [META_TAG ++ " " ++ X; ""; BODY].
Proof.
  intros H.
  assert (E : META_TAG ++ " " ++ X ++ NL ++ NL ++ BODY
              = (META_TAG ++ " " ++ X) ++ String nl (NL ++ BODY)).
  { now rewrite !app_assoc_s. }
  rewrite E. cbn [splitn].
  rewrite (find_char_app nl _ _ (find_newline_tag_prefix X H)).
  rewrite take_app_length, drop_add, drop_app_length.
  reflexivity.
Qed.

End ParserFacts.

(** C3, as stated, fails in its last part: for an input that is the tag
    and a description without any newline, the body returned is the whole
    input, tag included, and not what remains after the tag (nor what
    remains after the first line, which is nothing). *)
Lemma tag_line_body_is_whole_input :
  startswith META_TAG "META_DESCRIPTION: x" = true
  /\ List.length (split NL "META_DESCRIPTION: x") = 1
  /\ _extract_meta_description "META_DESCRIPTION: x"
     = ("META_DESCRIPTION: x", "META_DESCRIPTION: x")
  /\ snd (_extract_meta_description "META_DESCRIPTION: x")
     <> drop (String.length META_TAG) "META_DESCRIPTION: x"
  /\ snd (_extract_meta_description "META_DESCRIPTION: x") <> "".
Proof. repeat split; vm_compute; discriminate. Qed.

(** C3, amended. The response parser returns a pair for every input;
    the empty input gives an empty meta description; an input that starts
    with the tag and has fewer than two newline-delimited segments takes
    the fallback path, whose body is the whole input as it is, untrimmed
    and with its tag, and whose meta description is the trimmed input, cut
    to 157 characters and an ellipsis when longer. *)
Theorem extract_meta_description_total (content : string) :
  (exists meta_description body,
      _extract_meta_description content = (meta_description, body))
  /\ _extract_meta_description "" = ("", "")
  /\ (startswith META_TAG content = true ->
      List.length (split NL content) < 2 ->
      _extract_meta_description content = fallback_meta_description content
      /\ snd (_extract_meta_description content) = content
      /\ fst (_extract_meta_description content)
         = if (157 <? String.length (strip content))%nat
           then take 157 (strip content) ++ "..." else strip content).
Proof.
  split; [|split].
  - destruct (_extract_meta_description content) as [m b]. now exists m, b.
  - reflexivity.
  - intros Htag Hseg.
    pose proof (split_lt2_no_newline content Hseg) as Hnl.
    assert (E : _extract_meta_description content
                = fallback_meta_description content).
    { unfold _extract_meta_description. rewrite Htag.
      now rewrite (splitn_none NL 2 content Hnl). }
    rewrite E. split; [reflexivity|]. split; [reflexivity|].
    unfold fallback_meta_description, split.
    rewrite (splitn_none NL _ content Hnl). cbn [fst first_paragraph_of].
    destruct (tagged_is_text content Htag) as [-> ->]. reflexivity.
Qed.

Lemma extract_meta_description_total_witness :
  snd (_extract_meta_description "META_DESCRIPTION: only a tag line  ")
  = "META_DESCRIPTION: only a tag line  ".
Proof.
  apply (proj2 (proj2 (extract_meta_description_total
                         "META_DESCRIPTION: only a tag line  "))).
  - reflexivity.
  - vm_compute. lia.
Defined.

(** C7, as stated, fails: both parts are trimmed, so a description that
    ends with a space before its newline does not come back exactly. *)
Lemma extract_tagged_not_exact :
  _extract_meta_description (META_TAG ++ " " ++ "a " ++ NL ++ NL ++ "b")
  = ("a", "b")
  /\ _extract_meta_description (META_TAG ++ " " ++ "a " ++ NL ++ NL ++ "b")
     <> ("a ", "b").
Proof. split; [reflexivity | vm_compute; discriminate]. Qed.

(** C7, amended. For a description X that holds no newline and no
    occurrence of the tag, parsing [META_DESCRIPTION: X], a blank line and
    BODY returns X trimmed and BODY trimmed; it returns (X, BODY) exactly
    when both are already trimmed. *)
Theorem extract_tagged_trimmed (X BODY : string) :
  contains NL X = false ->
  contains META_TAG X = false ->
  _extract_meta_description (META_TAG ++ " " ++ X ++ NL ++ NL ++ BODY)
  = (strip X, strip BODY)
  /\ (strip X = X -> strip BODY = BODY ->
      _extract_meta_description (META_TAG ++ " " ++ X ++ NL ++ NL ++ BODY)
      = (X, BODY)).
Proof.
  intros Hnl Htag.
  assert (Fnl : find NL X = None).
  { unfold contains in Hnl. now destruct (find NL X). }
  assert (Ftag : find META_TAG X = None).
  { unfold contains in Htag. now destruct (find META_TAG X). }
  assert (E : _extract_meta_description (META_TAG ++ " " ++ X ++ NL ++ NL ++ BODY)
              = (strip X, strip BODY)).
  { unfold _extract_meta_description.
    rewrite startswith_app, (splitn_tagged X BODY Fnl).
    cbn [List.length Nat.leb nth skipn join].
    rewrite (replace_tag_line X Ftag).
    rewrite (strip_cons_space " " X eq_refl).
    change ("" ++ NL ++ BODY) with (String nl BODY).
    now rewrite (strip_cons_space nl BODY eq_refl). }
  split; [exact E|]. intros HX HB. now rewrite E, HX, HB.
Qed.

Lemma extract_tagged_trimmed_witness :
  _extract_meta_description
    (META_TAG ++ " " ++ "Learn to bake bread." ++ NL ++ NL ++ "# Bread" ++ NL ++ "Flour.")
  = ("Learn to bake bread.", "# Bread" ++ NL ++ "Flour.").
Proof.
  apply (proj2 (extract_tagged_trimmed "Learn to bake bread."
                  ("# Bread" ++ NL ++ "Flour.") eq_refl eq_refl));
    reflexivity.
Defined.

(** C8, as stated, fails: the line is trimmed before it is cut, so for a
    line with a leading space the meta description is no prefix of the
    line, with or without an ellipsis. *)
Lemma fallback_meta_not_prefix_of_line :
  startswith META_TAG " hello" = false
  /\ first_text_line (split NL " hello") = Some " hello"
  /\ forall p, startswith p " hello" = true ->
               fst (_extract_meta_description " hello") <> p
               /\ fst (_extract_meta_description " hello") <> p ++ "...".
Proof.
  split; [reflexivity|]. split; [reflexivity|].
  intros p Hp.
  change (fst (_extract_meta_description " hello")) with "hello".
  destruct p as [|c p]; [split; discriminate|].
  cbn [startswith] in Hp. apply andb_true_iff in Hp as [Hc _].
  apply Ascii.eqb_eq in Hc. subst c. split; discriminate.
Qed.

(** C8, amended. For a text that does not start with the tag the body is
    the input unchanged and the meta description has at most 160
    characters; with L the first non-blank line that does not start with
    [#], trimmed, the meta description is L when L has at most 157
    characters and otherwise the first 157 characters of L followed by an
    ellipsis; it is empty when there is no such line. *)
Theorem fallback_meta_description_spec (content : string) :
  startswith META_TAG content = false ->
  snd (_extract_meta_description content) = content
  /\ String.length (fst (_extract_meta_description content)) <= 160
  /\ match first_text_line (split NL content) with
     | None => fst (_extract_meta_description content) = ""
     | Some line =>
         startswith (take 157 (strip line)) (strip line) = true
         /\ ((String.length (strip line) <= 157
              /\ fst (_extract_meta_description content) = strip line)
             \/ (157 < String.length (strip line) <= String.length line
                 /\ fst (_extract_meta_description content)
                    = take 157 (strip line) ++ "..."))
     end.
Proof.
  intros Htag. unfold _extract_meta_description. rewrite Htag.
  unfold fallback_meta_description. cbn [fst snd].
  rewrite first_paragraph_of_text_line.
  split; [reflexivity|]. split.
  - destruct (first_text_line (split NL content)) as [line|]; [|cbn; lia].
    destruct (Nat.ltb_spec 157 (String.length (strip line))); [|lia].
    rewrite length_app_s. pose proof (length_take_le 157 (strip line)).
    cbn [String.length]. lia.
  - destruct (first_text_line (split NL content)) as [line|]; [|reflexivity].
    split.
    + rewrite <- (take_drop 157 (strip line)) at 2. apply startswith_app.
    + pose proof (strip_length line).
      destruct (Nat.ltb_spec 157 (String.length (strip line)));
        [right | left]; split; try reflexivity; lia.
Qed.

Lemma fallback_meta_description_spec_witness :
  snd (_extract_meta_description ("# Title" ++ NL ++ NL ++ "  First words. "))
  = "# Title" ++ NL ++ NL ++ "  First words. ".
Proof.
  apply (proj1 (fallback_meta_description_spec
                  ("# Title" ++ NL ++ NL ++ "  First words. ") eq_refl)).
Defined.

(** ** The post writer *)

Section WriterFacts.

Lemma drop_length (n : nat) (s : string) :
  String.length (drop n s) = String.length s - n.
Proof.
  revert s; induction n as [|n IH]; intros [|c s]; simpl; try lia. apply IH.
Qed.

(** No file name that ends in [_helloworld2025.md] matches the
    pattern of the specification. *)
Lemma hello_pattern_rejects (stamp : string) :
  hello_pattern (stamp ++ "_helloworld2025.md") = false.
Proof.
  unfold hello_pattern. set (f := stamp ++ "_helloworld2025.md").
  assert (L : String.length f = String.length stamp + 18).
  { unfold f. now rewrite length_app_s. }
  assert (D1 : drop 15 f <> "_hello-world-2025.md").
  { intros E.
    assert (L1 : String.length stamp = 17).
    { pose proof (drop_length 15 f) as D. rewrite E in D. cbn in D. lia. }
    pose proof (drop_add 15 2 f) as E2. rewrite E in E2.
    change (15 + 2) with 17 in E2. rewrite <- L1 in E2. unfold f in E2.
    rewrite drop_app_length in E2. discriminate. }
  assert (D2 : drop 15 f <> "_hello-world-2025.md" ++ NL).
  { intros E.
    assert (L1 : String.length stamp = 18).
    { pose proof (drop_length 15 f) as D. rewrite E in D. cbn in D. lia. }
    pose proof (drop_add 15 3 f) as E2. rewrite E in E2.
    change (15 + 3) with 18 in E2. rewrite <- L1 in E2. unfold f in E2.
    rewrite drop_app_length in E2. discriminate. }
  apply String.eqb_neq in D1, D2. rewrite D1, D2. apply andb_false_r.
Qed.

(** A run of [_save_blog_post]: two readings of the clock, then one
    attempt to write. *)
Lemma save_blog_post_run (env : Collaborators) (self : BlogEngine)
      (topic_data : TopicRecord) (content meta_description : string) (w : World) :
  let t1 := datetime_now env w in
  let w1 := (w ++ [EvClock t1])%list in
  let t2 := datetime_now env w1 in
  let w2 := (w1 ++ [EvClock t2])%list in
  let filename := post_filename t1 (title topic_data) in
  let full_content :=
    front_matter (wordpress_enabled self) topic_data meta_description t2
    ++ content in
  let r := file_write env (output_dir self) filename full_content w2 in
  _save_blog_post env self topic_data content meta_description w
  = (match r with
     | None => inr (path_str (output_dir self) filename)
     | Some e => inl ("Failed to save markdown file: " ++ e)
     end,
     (w2 ++ [EvFileWrite (output_dir self) filename full_content r])%list).
Proof.
  cbv zeta. unfold _save_blog_post, bind, perform, try_catch.
  destruct (file_write env (output_dir self) _ _ _); reflexivity.
Qed.

Lemma stem_char_plain (c : ascii) :
  stem_char c = true -> is_space c = false /\ Ascii.eqb c "\" = false.
Proof.
  destruct c as [[] [] [] [] [] [] [] []]; vm_compute; intros H;
    try discriminate; now split.
Qed.

Lemma slug_char_stem (c : ascii) :
  Ascii.eqb c "\" = false -> slug_char c = stem_char c.
Proof.
  destruct c as [[] [] [] [] [] [] [] []]; vm_compute; intros H;
    try discriminate; reflexivity.
Qed.

Lemma safe_char_stem (c : ascii) : is_space c = false -> safe_char c = stem_char c.
Proof.
  destruct c as [[] [] [] [] [] [] [] []]; vm_compute; intros H;
    try discriminate; reflexivity.
Qed.

Lemma sub_class_ext (p q : ascii -> bool) (keep : ascii -> bool) (s : string) :
  all_chars keep s = true -> (forall c, keep c = true -> p c = q c) ->
  sub_class p "" s = sub_class q "" s.
Proof.
  intros H E. induction s as [|c s IH]; [reflexivity|].
  cbn [all_chars] in H. apply andb_true_iff in H as [Hc Hs].
  cbn [sub_class]. rewrite (E c Hc), (IH Hs). reflexivity.
Qed.

Lemma sub_class_filtered (keep : ascii -> bool) (s : string) :
  all_chars keep (sub_class (fun c => negb (keep c)) "" s) = true.
Proof.
  induction s as [|c s IH]; [reflexivity|]. cbn [sub_class].
  destruct (keep c) eqn:K; cbn [negb]; [|exact IH].
  cbn [all_chars]. now rewrite K, IH.
Qed.

Lemma all_chars_impl (p q : ascii -> bool) (s : string) :
  (forall c, p c = true -> q c = true) ->
  all_chars p s = true -> all_chars q s = true.
Proof.
  intros E. induction s as [|c s IH]; [reflexivity|]. cbn [all_chars].
  intros H. apply andb_true_iff in H as [Hc Hs].
  now rewrite (E c Hc), (IH Hs).
Qed.

Lemma lstrip_by_free (p : ascii -> bool) (s : string) :
  all_chars (fun c => negb (p c)) s = true -> lstrip_by p s = s.
Proof.
  destruct s as [|c s]; [reflexivity|]. cbn [all_chars lstrip_by].
  intros H. apply andb_true_iff in H as [Hc _].
  apply negb_true_iff in Hc. now rewrite Hc.
Qed.

Lemma rstrip_by_free (p : ascii -> bool) (s : string) :
  all_chars (fun c => negb (p c)) s = true -> rstrip_by p s = s.
Proof.
  induction s as [|c s IH]; [reflexivity|]. cbn [all_chars rstrip_by].
  intros H. apply andb_true_iff in H as [Hc Hs].
  apply negb_true_iff in Hc. rewrite (IH Hs), Hc. now destruct s.
Qed.

Lemma strip_by_free (p : ascii -> bool) (s : string) :
  all_chars (fun c => negb (p c)) s = true -> strip_by p s = s.
Proof.
  intros H. unfold strip_by. rewrite (lstrip_by_free p s H).
  now apply rstrip_by_free.
Qed.

Lemma sub_run_free (run : ascii -> bool) (repl s : string) :
  all_chars (fun c => negb (run c)) s = true -> sub_run run repl false s = s.
Proof.
  induction s as [|c s IH]; [reflexivity|]. cbn [all_chars sub_run].
  intros H. apply andb_true_iff in H as [Hc Hs].
  apply negb_true_iff in Hc. now rewrite Hc, (IH Hs).
Qed.

Lemma sub_lit_run_free (lit : ascii) (run : ascii -> bool) (repl s : string) :
  all_chars (fun c => negb (Ascii.eqb c lit)) s = true ->
  sub_lit_run lit run repl false s = s.
Proof.
  induction s as [|c s IH]; [reflexivity|]. cbn [all_chars sub_lit_run].
  intros H. apply andb_true_iff in H as [Hc Hs].
  apply negb_true_iff in Hc. now rewrite Hc, (IH Hs).
Qed.

(** On a title without white space and without backslash both
    functions keep the same characters and change nothing more before
    the cut. *)
Lemma slug_plain (text : string) :
  all_chars (fun c => negb (is_space c || Ascii.eqb c "\")) text = true ->
  slug text = take 50 (lower (sub_class (fun c => negb (stem_char c)) "" text))
  /\ safe_filename text 50
     = strip_chars "-"
         (take 50 (lower (sub_class (fun c => negb (stem_char c)) "" text))).
Proof.
  intros H.
  set (r := sub_class (fun c => negb (stem_char c)) "" text).
  assert (R : all_chars stem_char r = true) by apply sub_class_filtered.
  assert (Rs : all_chars (fun c => negb (is_space c)) r = true).
  { revert R. apply all_chars_impl. intros c Hc.
    now rewrite (proj1 (stem_char_plain c Hc)). }
  assert (Rb : all_chars (fun c => negb (Ascii.eqb c "\")) r = true).
  { revert R. apply all_chars_impl. intros c Hc.
    now rewrite (proj2 (stem_char_plain c Hc)). }
  assert (E1 : sub_class (fun c => negb (slug_char c)) "" text = r).
  { apply (sub_class_ext _ _ _ text H). intros c Hc.
    apply negb_true_iff, orb_false_iff in Hc as [_ Hb].
    now rewrite (slug_char_stem c Hb). }
  assert (E2 : sub_class (fun c => negb (safe_char c)) "" text = r).
  { apply (sub_class_ext _ _ _ text H). intros c Hc.
    apply negb_true_iff, orb_false_iff in Hc as [Hs _].
    now rewrite (safe_char_stem c Hs). }
  split.
  - unfold slug. rewrite E1. unfold strip.
    rewrite (strip_by_free is_space r Rs).
    now rewrite (sub_lit_run_free "\" _ "-" r Rb).
  - unfold safe_filename. rewrite E2. unfold strip.
    rewrite (strip_by_free is_space r Rs).
    now rewrite (sub_run_free is_space "-" r Rs).
Qed.

End WriterFacts.

(** C1. The code departs from the specification here: the two patterns of
    [_save_blog_post] are written with a doubled backslash in a raw
    string, so white space is removed instead of being turned into
    hyphens. For the title [Hello, World! 2025] the stem is
    [helloworld2025], the file written is named by the time stamp followed
    by [_helloworld2025.md], and that name does not match the pattern of
    the specification, whatever the clock says. *)
Theorem save_blog_post_hello_world_filename
        (env : Collaborators) (self : BlogEngine) (row : RowNumber)
        (pk ak content meta_description : string) (w : World) :
  let topic_data := mkTopic row pk ak "Hello, World! 2025" in
  let t := datetime_now env w in
  slug "Hello, World! 2025" = "helloworld2025"
  /\ (exists t2 full_content r,
         snd (_save_blog_post env self topic_data content meta_description w)
         = (w ++ [EvClock t; EvClock t2;
                  EvFileWrite (output_dir self)
                              (strftime_stamp t ++ "_helloworld2025.md")
                              full_content r])%list)
  /\ hello_pattern (strftime_stamp t ++ "_helloworld2025.md") = false
  /\ safe_filename "Hello, World! 2025" 50 = "hello-world-2025".
Proof.
  cbv zeta. split; [reflexivity|]. split; [|split].
  - rewrite save_blog_post_run. cbn [snd].
    eexists _, _, _. rewrite <- !app_assoc. reflexivity.
  - apply hello_pattern_rejects.
  - reflexivity.
Qed.

(** C10. The code departs from the claim here, through the slip of C1.
    The inline computation of [_save_blog_post] has its two patterns
    written with a doubled backslash, so it deletes white space, where
    the utility, which has the same two patterns with a single backslash,
    turns every run of white space into one hyphen. For the title
    [Baking bread] the utility gives [baking-bread] and the inline
    computation gives [bakingbread]; stripping hyphens at both ends does
    not make them equal. On a title without white space and without
    backslash the slip does not show, and the utility gives the inline
    stem with its leading and trailing hyphens stripped. *)
Theorem inline_stem_differs_from_safe_filename :
  slug "Baking bread" = "bakingbread"
  /\ safe_filename "Baking bread" 50 = "baking-bread"
  /\ strip_chars "-" (slug "Baking bread") <> safe_filename "Baking bread" 50
  /\ slug "Baking bread" <> safe_filename "Baking bread" 50
  /\ forall text,
       all_chars (fun c => negb (is_space c || Ascii.eqb c "\")) text = true ->
       safe_filename text 50 = strip_chars "-" (slug text).
Proof.
  split; [reflexivity|]. split; [reflexivity|].
  split; [vm_compute; discriminate|]. split; [vm_compute; discriminate|].
  intros text H. destruct (slug_plain text H) as [-> ->]. reflexivity.
Qed.

(** ** The fallback HTML conversion *)

Section ConversionFacts.

Lemma all_chars_take (p : ascii -> bool) (n : nat) (s : string) :
  all_chars p s = true -> all_chars p (take n s) = true.
Proof.
  revert s; induction n as [|n IH]; intros [|c s]; cbn [take all_chars];
    try reflexivity.
  intros H. apply andb_true_iff in H as [Hc Hs]. now rewrite Hc, (IH s Hs).
Qed.

Lemma all_chars_drop (p : ascii -> bool) (n : nat) (s : string) :
  all_chars p s = true -> all_chars p (drop n s) = true.
Proof.
  revert s; induction n as [|n IH]; intros [|c s]; cbn [drop all_chars];
    try reflexivity; try (intros H; exact H).
  intros H. apply andb_true_iff in H as [_ Hs]. now apply IH.
Qed.

Lemma all_chars_lstrip (p q : ascii -> bool) (s : string) :
  all_chars q s = true -> all_chars q (lstrip_by p s) = true.
Proof.
  induction s as [|c s IH]; [reflexivity|]. cbn [lstrip_by].
  intros H. destruct (p c); [|exact H].
  cbn [all_chars] in H. apply andb_true_iff in H as [_ Hs]. now apply IH.
Qed.

Lemma all_chars_rstrip (p q : ascii -> bool) (s : string) :
  all_chars q s = true -> all_chars q (rstrip_by p s) = true.
Proof.
  induction s as [|c s IH]; [reflexivity|]. cbn [rstrip_by all_chars].
  intros H. apply andb_true_iff in H as [Hc Hs]. specialize (IH Hs).
  destruct (rstrip_by p s) as [|d r].
  - destruct (p c); [reflexivity|]. cbn [all_chars]. now rewrite Hc.
  - cbn [all_chars] in *. now rewrite Hc, IH.
Qed.

Lemma all_chars_strip (q : ascii -> bool) (s : string) :
  all_chars q s = true -> all_chars q (strip s) = true.
Proof.
  intros H. unfold strip, strip_by.
  now apply all_chars_rstrip, all_chars_lstrip.
Qed.

(** The pieces of a split hold only characters of the whole. *)
Lemma splitn_all_chars (p : ascii -> bool) (sep : string) (n : nat) (s : string) :
  all_chars p s = true ->
  Forall (fun x => all_chars p x = true) (splitn sep n s).
Proof.
  revert s; induction n as [|n IH]; intros s H; cbn [splitn].
  - now constructor.
  - destruct (find sep s) as [pos|]; [|now constructor].
    constructor; [now apply all_chars_take|].
    now apply IH, all_chars_drop.
Qed.

(** Joining the pieces of a split with the separator gives the string
    back. *)
Lemma join_cons (sep x : string) (l : list string) :
  1 <= List.length l -> join sep (x :: l) = x ++ sep ++ join sep l.
Proof. destruct l; cbn [List.length join]; [lia | reflexivity]. Qed.

Lemma join_splitn (sep : string) (n : nat) (s : string) :
  join sep (splitn sep n s) = s.
Proof.
  revert s; induction n as [|n IH]; intros s; cbn [splitn]; [reflexivity|].
  destruct (find sep s) as [pos|] eqn:F; [|reflexivity].
  rewrite join_cons by apply splitn_length_pos.
  rewrite IH. symmetry. now apply find_some.
Qed.

(** A string free of the first character of [p] does not start with
    [p]. *)
Lemma startswith_free (d : ascii) (p s : string) :
  all_chars (fun c => negb (Ascii.eqb c d)) s = true ->
  startswith (String d p) s = false.
Proof.
  destruct s as [|c s]; [reflexivity|]. cbn [all_chars startswith].
  intros H. apply andb_true_iff in H as [Hc _].
  apply negb_true_iff in Hc. rewrite Ascii.eqb_sym in Hc. now rewrite Hc.
Qed.

Lemma sub_line_free (d : ascii) (marker open_tag close_tag s : string) :
  all_chars (fun c => negb (Ascii.eqb c d)) s = true ->
  sub_line (String d marker) open_tag close_tag s = s.
Proof.
  intros H. unfold sub_line, split.
  pose proof (splitn_all_chars _ NL (String.length s) s H) as F.
  transitivity (join NL (splitn NL (String.length s) s));
    [|apply join_splitn].
  f_equal.
  induction F as [|line lines Hl _ IH]; [reflexivity|].
  cbn [map]. rewrite IH. f_equal. unfold sub_line_one.
  now rewrite (startswith_free d marker line Hl).
Qed.

Lemma sub_delim_free (d : ascii) (delim open_tag close_tag s : string) :
  all_chars (fun c => negb (Ascii.eqb c d)) s = true ->
  sub_delim (String d delim) open_tag close_tag s = s.
Proof.
  intros H. unfold sub_delim. induction s as [|c s IH]; [reflexivity|].
  cbn [sub_delim_go]. rewrite (startswith_free d delim _ H).
  cbn [all_chars] in H. apply andb_true_iff in H as [_ Hs].
  now rewrite (IH Hs).
Qed.

Lemma strip_frontmatter_all_chars (p : ascii -> bool) (s : string) :
  all_chars p s = true -> all_chars p (strip_frontmatter s) = true.
Proof.
  intros H. unfold strip_frontmatter.
  destruct (startswith "---" s); [|exact H].
  destruct (3 <=? List.length (splitn "---" 2 s))%nat; [|exact H].
  apply all_chars_strip.
  pose proof (splitn_all_chars p "---" 2 s H) as F.
  rewrite Forall_forall in F.
  destruct (nth_in_or_default 2 (splitn "---" 2 s) "") as [I | ->];
    [now apply F | reflexivity].
Qed.

(** A paragraph that, once trimmed, does not start with [<] leaves the
    list of paragraphs as it was. *)
Lemma paragraph_step_drops (html_paragraphs : list string) (para : string) :
  startswith "<" (strip para) = false ->
  paragraph_step html_paragraphs para = html_paragraphs.
Proof.
  intros H. unfold paragraph_step. rewrite H.
  destruct (truthy (strip para)); reflexivity.
Qed.

Lemma paragraph_loop_drops (paragraphs html_paragraphs : list string) :
  Forall (fun para => startswith "<" (strip para) = false) paragraphs ->
  fold_left paragraph_step paragraphs html_paragraphs = html_paragraphs.
Proof.
  intros F. revert html_paragraphs.
  induction F as [|para rest H _ IH]; intros acc; [reflexivity|].
  cbn [fold_left]. now rewrite (paragraph_step_drops acc para H).
Qed.

Lemma free_of_char (chars : string) (d : ascii) (s : string) :
  char_in d chars = true -> free_of chars s = true ->
  all_chars (fun c => negb (Ascii.eqb c d)) s = true.
Proof.
  intros I. unfold free_of. apply all_chars_impl. intros c Hc.
  apply negb_true_iff in Hc. apply negb_true_iff.
  destruct (Ascii.eqb_spec c d) as [->|]; [congruence | reflexivity].
Qed.

End ConversionFacts.

(** C2. The code departs from the specification here: the paragraph loop of
    [_simple_markdown_to_html] wraps a text paragraph in paragraph tags
    and then drops it; only paragraphs that already start with [<] are
    kept. It never raises, but for every text without [#], [*] and [<]
    (plain text among them) it returns the empty string. *)
Theorem simple_markdown_to_html_plain_text_is_empty (markdown_content : string) :
  free_of "#*<" markdown_content = true ->
  _simple_markdown_to_html markdown_content = "".
Proof.
  intros H. unfold _simple_markdown_to_html.
  set (text := strip_frontmatter markdown_content).
  assert (T : free_of "#*<" text = true)
    by now apply strip_frontmatter_all_chars.
  pose proof (free_of_char "#*<" "#" text eq_refl T) as Hhash.
  pose proof (free_of_char "#*<" "*" text eq_refl T) as Hstar.
  pose proof (free_of_char "#*<" "<" text eq_refl T) as Hlt.
  rewrite !(sub_line_free "#" _ _ _ text Hhash).
  rewrite !(sub_delim_free "*" _ _ _ text Hstar).
  rewrite paragraph_loop_drops; [reflexivity|].
  unfold split.
  pose proof (splitn_all_chars _ (NL ++ NL) (String.length text) text Hlt) as F.
  revert F. apply Forall_impl. intros para Hp.
  now apply startswith_free, all_chars_strip.
Qed.

Lemma simple_markdown_to_html_plain_text_is_empty_witness :
  _simple_markdown_to_html "Plain words, nothing more." = "".
Proof.
  apply simple_markdown_to_html_plain_text_is_empty. reflexivity.
Defined.

(** ** Histories *)

Section TraceFacts.

Ltac trace_app :=
  let a := fresh "a" in
  let e := fresh "e" in
  let IH := fresh "IH" in
  intros a; induction a as [|e a IH]; intros;
  [reflexivity
  | destruct e; cbn; rewrite ?IH; try reflexivity;
    match goal with
    | |- context [match ?r with _ => _ end] =>
        destruct r; cbn; rewrite ?IH; reflexivity
    end].

Lemma files_written_app :
  forall a b : World, files_written (a ++ b)%list = (files_written a ++ files_written b)%list.
Proof. trace_app. Qed.

Lemma posts_created_app :
  forall a b : World, posts_created (a ++ b)%list = (posts_created a ++ posts_created b)%list.
Proof. trace_app. Qed.

Lemma new_post_calls_app :
  forall a b : World, new_post_calls (a ++ b)%list = (new_post_calls a ++ new_post_calls b)%list.
Proof. trace_app. Qed.

Lemma completion_calls_app :
  forall a b : World,
    completion_calls (a ++ b)%list = (completion_calls a ++ completion_calls b)%list.
Proof. trace_app. Qed.

Lemma printed_app :
  forall a b : World, printed (a ++ b)%list = (printed a ++ printed b)%list.
Proof. trace_app. Qed.

Lemma completion_failures_app :
  forall a b : World,
    completion_failures (a ++ b)%list = completion_failures a + completion_failures b.
Proof. trace_app. Qed.

Lemma write_failures_app :
  forall a b : World, write_failures (a ++ b)%list = write_failures a + write_failures b.
Proof. trace_app. Qed.

Lemma new_post_failures_app :
  forall a b : World,
    new_post_failures (a ++ b)%list = new_post_failures a + new_post_failures b.
Proof. trace_app. Qed.

Lemma probe_failures_app :
  forall a b : World, probe_failures (a ++ b)%list = probe_failures a + probe_failures b.
Proof. trace_app. Qed.

Lemma posts_published_app (a b : World) :
  posts_published (a ++ b)%list = (posts_published a ++ posts_published b)%list.
Proof. unfold posts_published. now rewrite posts_created_app, filter_app. Qed.

End TraceFacts.

Create Rewrite HintDb trace.
#[local] Hint Rewrite files_written_app posts_created_app new_post_calls_app
  completion_calls_app printed_app completion_failures_app write_failures_app
  new_post_failures_app probe_failures_app posts_published_app
  length_app : trace.

(** ** The stages of the engine, run from a history *)

#[local] Arguments prompt_of : simpl never.
#[local] Arguments front_matter : simpl never.
#[local] Arguments post_filename : simpl never.
#[local] Arguments path_str : simpl never.
#[local] Arguments build_post : simpl never.
#[local] Arguments strip : simpl never.
#[local] Arguments _extract_meta_description : simpl never.
#[local] Arguments _simple_markdown_to_html : simpl never.
#[local] Arguments String.append : simpl never.

Ltac segment_facts :=
  cbn in *;
  repeat (match goal with
          | |- _ /\ _ => split
          | |- ~ _ => intro
          | |- _ -> _ => intro
          | H : _ \/ _ |- _ => destruct H
          | H : False |- _ => destruct H
          end; cbn in * );
  try reflexivity; try lia; try congruence.

(** An oracle that always answers one way cannot have answered the other
    way. *)
Ltac oracle_clash :=
  match goal with
  | H : generation_succeeds _ _ _, G : chat_completions_create _ _ _ ?w0 = inl _ |- _ =>
      destruct (H w0); congruence
  | H : generation_raises _ _ _, G : chat_completions_create _ _ _ ?w0 = inr _ |- _ =>
      destruct (H w0); congruence
  | H : writes_succeed _, G : file_write _ ?d ?n ?c ?w0 = Some _ |- _ =>
      specialize (H d n c w0); congruence
  end.

Section StageFacts.
Variable env : Collaborators.
Variable self : BlogEngine.

Lemma generate_ai_content_run (topic_data : TopicRecord) (w : World) :
  _generate_ai_content env self topic_data w
  = (match chat_completions_create env (ai_model self) (prompt_of topic_data) w with
     | inr content => inr (strip content)
     | inl e => inl ("AI generation failed: " ++ e)
     end,
     (w ++ [EvCompletion (ai_model self) (prompt_of topic_data)
              (chat_completions_create env (ai_model self)
                                       (prompt_of topic_data) w)])%list).
Proof.
  unfold _generate_ai_content, try_catch, bind, perform.
  destruct (chat_completions_create env _ _ w); reflexivity.
Qed.

(** The conversion returns, having printed one line. *)
Lemma markdown_to_html_run (markdown_content : string) (w : World) :
  exists html_content m,
    _markdown_to_html env markdown_content w
    = (inr html_content, (w ++ [EvPrint m])%list)
    /\ m <> ErrPublishingFailed.
Proof.
  unfold _markdown_to_html, bind, print, ret.
  destruct (markdown_markdown env _); eexists _, _;
    (split; [reflexivity | discriminate]).
Qed.

Lemma create_post_run (c : WordPressClient)
      (post_title html status meta_description : string) (w : World) :
  create_post env c post_title html status meta_description w
  = match client c with
    | None =>
        (inl "Failed to create WordPress post: WordPress client not initialized", w)
    | Some _ =>
        let post := build_post post_title html status meta_description in
        (match xmlrpc_new_post env post w with
         | inr post_id => inr post_id
         | inl e => inl ("Failed to create WordPress post: " ++ e)
         end,
         (w ++ [EvNewPost post (xmlrpc_new_post env post w)])%list)
    end.
Proof.
  unfold create_post, try_catch, bind, perform.
  destruct (client c); [|reflexivity]. cbv zeta.
  destruct (xmlrpc_new_post env _ w); reflexivity.
Qed.

(** [_publish_to_wordpress] never raises. *)
Lemma publish_to_wordpress_spec (topic_data : TopicRecord)
      (content meta_description : string) (w : World) :
  returns (_publish_to_wordpress env self topic_data content meta_description) w
          (publish_segment (wordpress_enabled self)).
Proof.
  unfold returns, _publish_to_wordpress, publish_segment.
  destruct (wordpress_enabled self) eqn:En.
  2:{ exists None, []. rewrite app_nil_r. split; [reflexivity|].
      segment_facts. }
  destruct (wp_client self) as [c|].
  2:{ exists None, []. rewrite app_nil_r. split; [reflexivity|].
      segment_facts. }
  unfold try_catch, bind.
  destruct (markdown_to_html_run content w) as (html & m & -> & Hm).
  rewrite create_post_run. unfold print, ret.
  destruct (client c).
  2:{ eexists None, _. rewrite <- !app_assoc. split; [reflexivity|].
      segment_facts. }
  cbv zeta. destruct (xmlrpc_new_post env _ _) as [e|post_id] eqn:E.
  - eexists None, _. rewrite <- !app_assoc. split; [reflexivity|].
    segment_facts.
  - eexists (Some post_id), _. rewrite <- !app_assoc. split; [reflexivity|].
    unfold posts_published, truthy_post_id.
    cbn [posts_created filter snd app].
    destruct (truthy_id post_id); segment_facts.
Qed.

(** One turn of the batch loop never raises; it leaves the events of
    one topic and adds to each counter what the turn achieved. *)
Lemma batch_body_spec (g p : nat) (topic_data : TopicRecord) (w : World) :
  returns (batch_body env self (g, p) topic_data) w
    (fun counts evs =>
       topic_segment env self topic_data evs
       /\ counts = (g + List.length (files_written evs),
                    p + List.length (posts_published evs))).
Proof.
  unfold returns, batch_body, try_catch, bind, print, topic_segment.
  rewrite generate_ai_content_run.
  destruct (chat_completions_create env _ _ _) as [e|raw] eqn:G.
  { eexists _, _. rewrite <- !app_assoc. split; [reflexivity|].
    segment_facts; try oracle_clash; auto with arith. }
  destruct (_extract_meta_description (strip raw)) as [meta blog].
  rewrite save_blog_post_run. cbv zeta.
  destruct (file_write env _ _ _ _) as [e|] eqn:Wr.
  { eexists _, _. rewrite <- !app_assoc. split; [reflexivity|].
    segment_facts; try oracle_clash; auto with arith. }
  unfold ret. destruct (wordpress_enabled self) eqn:En.
  2:{ eexists _, _. rewrite <- !app_assoc. split; [reflexivity|].
      segment_facts; try oracle_clash; auto with arith. }
  match goal with
  | |- context [_publish_to_wordpress env self ?t ?c ?m ?w'] =>
      destruct (publish_to_wordpress_spec t c m w') as (r & pevs & E & F)
  end.
  rewrite E. unfold publish_segment in F.
  destruct F as (F1 & F2 & F3 & F4 & F5 & F6 & F7 & F8 & F9).
  destruct (truthy_post_id r) eqn:T.
  - eexists _, _. rewrite <- !app_assoc. split; [reflexivity|].
    autorewrite with trace. rewrite ?F1, ?F2, ?F3, ?F4, ?F7.
    segment_facts; try oracle_clash; auto with arith.
  - eexists _, _. rewrite <- !app_assoc. split; [reflexivity|].
    autorewrite with trace. rewrite ?F1, ?F2, ?F3, ?F4, ?F7.
    segment_facts; try oracle_clash; auto with arith.
Qed.

(** The loop never raises; its events fall into one segment per topic,
    in order. *)
Lemma batch_loop_spec (topics : list TopicRecord) (g p : nat) (w : World) :
  returns (batch_loop env self topics (g, p)) w
    (fun counts evs =>
       exists segs,
         evs = concat segs
         /\ Forall2 (topic_segment env self) topics segs
         /\ counts = (g + List.length (files_written evs),
                      p + List.length (posts_published evs))).
Proof.
  revert g p w. induction topics as [|topic_data rest IH]; intros g p w.
  - exists (g, p), []. rewrite app_nil_r. split; [reflexivity|].
    exists []. cbn. repeat split; [constructor | f_equal; lia].
  - cbn [batch_loop]. unfold returns, bind.
    destruct (batch_body_spec g p topic_data w) as (c1 & e1 & E1 & S1 & ->).
    rewrite E1.
    destruct (IH (g + List.length (files_written e1))
                 (p + List.length (posts_published e1)) (w ++ e1)%list)
      as (c2 & e2 & E2 & segs & -> & F & ->).
    rewrite E2. eexists _, (e1 ++ concat segs)%list.
    rewrite app_assoc. split; [reflexivity|].
    exists (e1 :: segs). cbn [concat]. split; [reflexivity|].
    split; [now constructor|]. autorewrite with trace. f_equal; lia.
Qed.

(** What the segments add up to. *)
Lemma segments_totals (topics : list TopicRecord) (segs : list (list Event)) :
  Forall2 (topic_segment env self) topics segs ->
  completion_calls (concat segs) = map prompt_of topics
  /\ List.length (files_written (concat segs))
     + completion_failures (concat segs) + write_failures (concat segs)
     = List.length topics
  /\ List.length (new_post_calls (concat segs))
     <= List.length (files_written (concat segs))
  /\ (wordpress_enabled self = false -> new_post_calls (concat segs) = [])
  /\ (forall topic_data, In topic_data topics ->
        In (InfoGenerating (title topic_data)) (printed (concat segs))).
Proof.
  induction 1 as [|topic_data seg topics segs S F IH].
  - cbn. repeat split; auto; try (intros ? []).
  - destruct IH as (I1 & I2 & I3 & I4 & I5).
    destruct S as (S1 & S2 & S3 & S4 & S5 & S6 & _).
    cbn [concat map List.length]. autorewrite with trace.
    rewrite S1, I1. repeat split; try reflexivity; try lia.
    + intros En. now rewrite (S5 En), (I4 En).
    + intros t [<-|I]; apply in_or_app; [now left | right; now apply I5].
Qed.

(** Events that are all prints hold nothing else. *)
Lemma prints_only (evs : list Event) :
  forallb is_print evs = true ->
  files_written evs = [] /\ posts_created evs = [] /\ new_post_calls evs = []
  /\ completion_calls evs = [] /\ completion_failures evs = 0
  /\ write_failures evs = 0 /\ new_post_failures evs = 0.
Proof.
  induction evs as [|e evs IH]; [now repeat split|].
  cbn [forallb]. intros H. apply andb_true_iff in H as [He Hs].
  destruct e; try discriminate. cbn. now apply IH.
Qed.

Lemma prints_only_published (evs : list Event) :
  forallb is_print evs = true -> posts_published evs = [].
Proof.
  intros H. unfold posts_published.
  now rewrite (proj1 (proj2 (prints_only evs H))).
Qed.

(** The whole batch run: opening prints, one segment per topic, closing
    prints that report the two counters. *)
Lemma generate_all_spec (w : World) :
  returns (generate_all_blog_posts env self) w
    (fun counts evs =>
       exists header segs footer,
         evs = (header ++ concat segs ++ footer)%list
         /\ forallb is_print header = true
         /\ forallb is_print footer = true
         /\ Forall2 (topic_segment env self) (sheet_data self) segs
         /\ counts = (List.length (files_written (concat segs)),
                      List.length (posts_published (concat segs)))
         /\ In (OkGenerated (fst counts) (List.length (sheet_data self)))
               (printed footer)).
Proof.
  unfold returns, generate_all_blog_posts, bind, print, ret.
  destruct (wordpress_enabled self) eqn:En.
  - destruct (batch_loop_spec (sheet_data self) 0 0
                ((w ++ [EvPrint (InfoBeastMode (List.length (sheet_data self)))])
                   ++ [EvPrint InfoPublishingEnabledForAll])%list)
      as (c & evs & E & segs & -> & F & ->).
    rewrite E. eexists _, _. rewrite <- !app_assoc.
    split; [reflexivity|].
    eexists [_; _], segs, [_; _; _]. cbn [app fst snd].
    repeat split; try reflexivity; [exact F | cbn; auto].
  - destruct (batch_loop_spec (sheet_data self) 0 0
                (w ++ [EvPrint (InfoBeastMode (List.length (sheet_data self)))])%list)
      as (c & evs & E & segs & -> & F & ->).
    rewrite E. eexists _, _. rewrite <- !app_assoc.
    split; [reflexivity|].
    eexists [_], segs, [_; _]. cbn [app fst snd].
    repeat split; try reflexivity; [exact F | cbn; auto].
Qed.

End StageFacts.

(** ** The batch run *)

Section BatchFacts.
Variable env : Collaborators.
Variable self : BlogEngine.

Lemma published_le_created (evs : list Event) :
  List.length (posts_published evs) <= List.length (posts_created evs).
Proof. unfold posts_published. apply filter_length_le. Qed.

(** What a turn did, read off its segment. *)
Lemma segment_outcome (topic_data : TopicRecord) (seg : list Event) :
  topic_segment env self topic_data seg ->
  (0 < completion_failures seg + write_failures seg ->
   List.length (files_written seg) = 0 /\ List.length (posts_published seg) = 0)
  /\ (0 < new_post_failures seg ->
      List.length (files_written seg) = 1 /\ List.length (posts_published seg) = 0)
  /\ (completion_failures seg + write_failures seg = 0 ->
      List.length (files_written seg) = 1)
  /\ List.length (files_written seg) <= 1
  /\ List.length (new_post_calls seg) <= 1
  /\ List.length (posts_created seg) <= List.length (new_post_calls seg).
Proof.
  intros (S1 & S2 & S3 & S4 & _).
  pose proof (published_le_created seg). repeat split; intros; lia.
Qed.

Lemma segment_file_count (topic_data : TopicRecord) (seg : list Event) :
  topic_segment env self topic_data seg ->
  (generation_succeeds env self topic_data -> writes_succeed env ->
   List.length (files_written seg) = 1)
  /\ (generation_raises env self topic_data ->
      List.length (files_written seg) = 0).
Proof.
  intros (S1 & S2 & S3 & S4 & S5 & S6 & S7 & S8 & S9). split.
  - intros G W. specialize (S8 G). specialize (S9 W). lia.
  - intros G. specialize (S7 G). lia.
Qed.

End BatchFacts.

(** C4, as stated, fails for the publish stage: when the remote creation
    call raises, the markdown counter of that topic has already been
    incremented. *)
Lemma publish_failure_keeps_markdown_count :
  fst (batch_body Scenarios.env_publish_fails Scenarios.engine_publishing
                  (0, 0) Scenarios.topic1 [])
  = inr (1, 0)
  /\ new_post_failures
       (snd (batch_body Scenarios.env_publish_fails Scenarios.engine_publishing
                        (0, 0) Scenarios.topic1 []))
     = 1.
Proof. split; vm_compute; reflexivity. Qed.

(** C4, amended. A batch run never raises. It requests a completion for
    every topic, in load order, whatever happened to the topics before.
    The two counters it reports are the number of files written and the
    number of remote posts published during the run; every topic ends in
    exactly one of a raised generation, a raised write and a written file.
    In a turn where the generation or the write raises neither counter
    moves; in a turn where the remote creation call raises the markdown
    counter moves by one and the publish counter does not. With three
    topics of which the second cannot be generated while the others can
    and writes succeed, two markdown files are reported and the third
    topic is processed. *)
Theorem batch_counts_successful_completions
        (env : Collaborators) (self : BlogEngine) (w : World) :
  returns (generate_all_blog_posts env self) w
    (fun counts evs =>
       fst counts = List.length (files_written evs)
       /\ snd counts = List.length (posts_published evs)
       /\ completion_calls evs = map prompt_of (sheet_data self)
       /\ List.length (files_written evs) + completion_failures evs
          + write_failures evs = List.length (sheet_data self)
       /\ In (OkGenerated (fst counts) (List.length (sheet_data self))) (printed evs)
       /\ (forall t1 t2 t3,
              sheet_data self = [t1; t2; t3] ->
              generation_succeeds env self t1 ->
              generation_raises env self t2 ->
              generation_succeeds env self t3 ->
              writes_succeed env ->
              fst counts = 2
              /\ In (OkGenerated 2 3) (printed evs)
              /\ In (InfoGenerating (title t3)) (printed evs)
              /\ completion_calls evs = [prompt_of t1; prompt_of t2; prompt_of t3]))
  /\ (forall g p topic_data w0,
         returns (batch_body env self (g, p) topic_data) w0
           (fun counts seg =>
              (0 < completion_failures seg + write_failures seg -> counts = (g, p))
              /\ (0 < new_post_failures seg -> counts = (g + 1, p))
              /\ (completion_failures seg + write_failures seg = 0 ->
                  fst counts = g + 1))).
Proof.
  split.
  - destruct (generate_all_spec env self w)
      as (counts & evs & E & header & segs & footer & -> & Hh & Hf & F & -> & Hin).
    eexists _, _. split; [exact E|].
    destruct (prints_only header Hh) as (H1 & H2 & H3 & H4 & H5 & H6 & H7).
    destruct (prints_only footer Hf) as (K1 & K2 & K3 & K4 & K5 & K6 & K7).
    pose proof (prints_only_published header Hh) as H8.
    pose proof (prints_only_published footer Hf) as K8.
    destruct (segments_totals env self _ _ F) as (T1 & T2 & T3 & T4 & T5).
    autorewrite with trace.
    rewrite H1, H4, H5, H6, H8, K1, K4, K5, K6, K8.
    cbn [app List.length fst snd Nat.add]. rewrite !app_nil_r, !Nat.add_0_r.
    split; [reflexivity|]. split; [reflexivity|]. split; [exact T1|].
    split; [exact T2|].
    split; [apply in_or_app; right; apply in_or_app; now right|].
    intros t1 t2 t3 D G1 G2 G3 W. rewrite D in *.
    inversion F as [|? s1 ? r1 S1 F1]; subst.
    inversion F1 as [|? s2 ? r2 S2 F2]; subst.
    inversion F2 as [|? s3 ? r3 S3 F3]; subst.
    inversion F3; subst.
    destruct (segment_file_count env self _ _ S1) as [A1 _].
    destruct (segment_file_count env self _ _ S2) as [_ A2].
    destruct (segment_file_count env self _ _ S3) as [A3 _].
    specialize (A1 G1 W). specialize (A2 G2). specialize (A3 G3 W).
    assert (N : List.length (files_written (concat [s1; s2; s3])) = 2).
    { cbn [concat]. autorewrite with trace. cbn. lia. }
    rewrite N in *. cbn [fst] in Hin.
    repeat split; try reflexivity.
    + apply in_or_app; right; apply in_or_app; now right.
    + apply in_or_app; right; apply in_or_app; left.
      apply T5. cbn. auto.
    + exact T1.
  - intros g p topic_data w0.
    destruct (batch_body_spec env self g p topic_data w0)
      as (counts & seg & E & S & ->).
    eexists _, _. split; [exact E|].
    destruct (segment_outcome env self _ _ S) as (O1 & O2 & O3 & _).
    repeat split.
    + intros H. destruct (O1 H) as [-> ->]. now rewrite !Nat.add_0_r.
    + intros H. destruct (O2 H) as [-> ->]. now rewrite !Nat.add_0_r.
    + intros H. cbn [fst]. now rewrite (O3 H).
Qed.

Lemma batch_counts_successful_completions_witness :
  exists counts evs,
    generate_all_blog_posts Scenarios.env_second_generation_fails
                            Scenarios.engine_markdown_only [] = (inr counts, evs)
    /\ fst counts = 2
    /\ In (InfoGenerating "Making jam") (printed evs).
Proof.
  destruct (proj1 (batch_counts_successful_completions
                     Scenarios.env_second_generation_fails
                     Scenarios.engine_markdown_only []))
    as (counts & evs & E & _ & _ & _ & _ & _ & S).
  exists counts, evs. split; [exact E|].
  destruct (S Scenarios.topic1 Scenarios.topic2 Scenarios.topic3 eq_refl)
    as (A & _ & B & _).
  - intros w0. eexists. vm_compute. reflexivity.
  - intros w0. eexists. vm_compute. reflexivity.
  - intros w0. eexists. vm_compute. reflexivity.
  - intros dir name content w0. reflexivity.
  - split; [exact A | exact B].
Defined.

(** C5, as stated, fails: a write that raises inside a batch run is
    caught by the per-topic handler; the topic yields no file and the run
    goes on. Here the first of three topics meets the failure: all three
    are attempted, the run returns, and only the other two files exist. *)
Lemma batch_write_failure_is_skipped :
  fst (generate_all_blog_posts Scenarios.env_first_write_fails
                               Scenarios.engine_markdown_only [])
  = inr (2, 0)
  /\ completion_calls
       (snd (generate_all_blog_posts Scenarios.env_first_write_fails
                                     Scenarios.engine_markdown_only []))
     = map prompt_of [Scenarios.topic1; Scenarios.topic2; Scenarios.topic3]
  /\ write_failures
       (snd (generate_all_blog_posts Scenarios.env_first_write_fails
                                     Scenarios.engine_markdown_only []))
     = 1
  /\ map (fun f => snd (fst f))
         (files_written
            (snd (generate_all_blog_posts Scenarios.env_first_write_fails
                                          Scenarios.engine_markdown_only [])))
     = ["20250924_120000_brewingtea.md"; "20250924_120000_makingjam.md"].
Proof. repeat split; vm_compute; reflexivity. Qed.

(** C5, amended. A batch run never raises, and its events fall into one
    segment per topic, in load order, between opening and closing prints.
    Every topic is attempted once and yields at most one file: exactly one
    when neither its generation nor its write raised, none otherwise, the
    run going on with the next topic. Every topic yields at most one
    remote post, from at most one remote creation call, which is issued
    only after the file was written and is never repeated. *)
Theorem batch_topic_yields (env : Collaborators) (self : BlogEngine) (w : World) :
  returns (generate_all_blog_posts env self) w
    (fun counts evs =>
       exists header segs footer,
         evs = (header ++ concat segs ++ footer)%list
         /\ forallb is_print header = true
         /\ forallb is_print footer = true
         /\ Forall2
              (fun topic_data seg =>
                 completion_calls seg = [prompt_of topic_data]
                 /\ List.length (files_written seg) <= 1
                 /\ (List.length (files_written seg) = 1 <->
                     completion_failures seg = 0 /\ write_failures seg = 0)
                 /\ List.length (new_post_calls seg) <= 1
                 /\ List.length (new_post_calls seg)
                    <= List.length (files_written seg)
                 /\ List.length (posts_created seg)
                    <= List.length (new_post_calls seg))
              (sheet_data self) segs).
Proof.
  destruct (generate_all_spec env self w)
    as (counts & evs & E & header & segs & footer & -> & Hh & Hf & F & _ & _).
  exists counts, (header ++ concat segs ++ footer)%list. split; [exact E|].
  exists header, segs, footer. repeat split; try assumption.
  clear E. induction F as [|topic_data seg topics segs S F IH]; constructor.
  - destruct S as (S1 & S2 & S3 & S4 & _).
    repeat split; try assumption; try lia.
  - exact IH.
Qed.

Lemma batch_topic_yields_witness :
  exists counts evs,
    generate_all_blog_posts Scenarios.env_first_write_fails
                            Scenarios.engine_markdown_only [] = (inr counts, evs).
Proof.
  destruct (batch_topic_yields Scenarios.env_first_write_fails
                               Scenarios.engine_markdown_only [])
    as (counts & evs & E & _).
  exists counts, ([] ++ evs)%list. exact E.
Defined.

(** ** Initialisation and the single-topic run *)

Section InitFacts.
Variable env : Collaborators.

Lemma init_sheets_client_run (w : World) :
  exists r evs,
    _init_sheets_client env w = (r, (w ++ evs)%list) /\ probe_failures evs = 0.
Proof.
  unfold _init_sheets_client, try_catch, bind, perform, print, of_failure,
    raise, ret.
  destruct (sheets_authorize env w); eexists _, _; rewrite <- ?app_assoc;
    (split; [reflexivity | reflexivity]).
Qed.

Lemma init_ai_client_run (w : World) :
  exists r evs,
    _init_ai_client env w = (r, (w ++ evs)%list) /\ probe_failures evs = 0.
Proof.
  unfold _init_ai_client, try_catch, bind, perform, print, of_failure,
    raise, ret.
  destruct (env_truthy (os_getenv env "OPENROUTER_API_KEY" w)).
  - destruct (openai_client env _ _); eexists _, _; rewrite <- ?app_assoc;
      (split; [reflexivity | reflexivity]).
  - eexists _, _; split; reflexivity.
Qed.

(** The WordPress initialisation never raises; it keeps every field of
    the engine but the client and the publishing flag, and it clears the
    flag when the probe raised. *)
Lemma init_wordpress_client_spec (self : BlogEngine) (w : World) :
  exists self' evs,
    _init_wordpress_client env self w = (inr self', (w ++ evs)%list)
    /\ output_dir self' = output_dir self
    /\ ai_model self' = ai_model self
    /\ (0 < probe_failures evs -> wordpress_enabled self' = false).
Proof.
  unfold _init_wordpress_client, WordPressClient_new, test_connection,
    try_catch, bind, perform, print, of_failure, raise, ret.
  destruct (load_dotenv env w).
  { eexists _, _; rewrite <- ?app_assoc.
    split; [reflexivity|]. segment_facts. }
  destruct (env_truthy (os_getenv env "WORDPRESS_URL" _)
            && env_truthy (os_getenv env "WORDPRESS_USERNAME" _)
            && env_truthy (os_getenv env "WORDPRESS_PASSWORD" _)).
  - destruct (xmlrpc_client env _ _ _ _).
    + eexists _, _; rewrite <- ?app_assoc.
      split; [reflexivity|]. segment_facts.
    + cbn [client]. destruct (xmlrpc_get_posts env 1 _) as [e|u] eqn:P.
      * eexists _, _; rewrite <- ?app_assoc.
        split; [reflexivity|]. segment_facts.
      * eexists _, _; rewrite <- ?app_assoc.
        split; [reflexivity|]. segment_facts.
  - eexists _, _; rewrite <- ?app_assoc.
    split; [reflexivity|]. segment_facts.
Qed.

Lemma load_sheet_data_run (self : BlogEngine) (w : World) :
  exists r evs,
    _load_sheet_data env self w = (r, (w ++ evs)%list)
    /\ probe_failures evs = 0
    /\ forall self', r = inr self' ->
         wordpress_enabled self' = wordpress_enabled self
         /\ output_dir self' = output_dir self
         /\ ai_model self' = ai_model self.
Proof.
  unfold _load_sheet_data, try_catch, bind, perform, print, of_sum, raise, ret.
  destruct (worksheet_get env "A1:C1" w) as [e|[|headers h]].
  - eexists _, _; split; [reflexivity|]. segment_facts.
  - eexists _, _; split; [reflexivity|]. segment_facts.
  - destruct (worksheet_get env "A2:C" _) as [e|all_data].
    + eexists _, _; rewrite <- ?app_assoc. split; [reflexivity|].
      segment_facts.
    + eexists _, _; rewrite <- ?app_assoc. split; [reflexivity|].
      split; [reflexivity|]. intros self' [= <-]. now repeat split.
Qed.

(** The constructor, publishing asked for: if it returns an engine and
    the probe raised on the way, publishing is off in that engine. *)
Lemma blog_engine_new_probe (out model status : string) (w w' : World)
      (self : BlogEngine) :
  BlogEngine_new env out model true status w = (inr self, w') ->
  exists evs,
    w' = (w ++ evs)%list
    /\ output_dir self = out
    /\ ai_model self = model
    /\ (0 < probe_failures evs -> wordpress_enabled self = false).
Proof.
  unfold BlogEngine_new, bind, perform, of_failure, raise, ret.
  destruct (path_mkdir env out w); [discriminate|].
  destruct (init_sheets_client_run (w ++ [EvMkdir out None])%list)
    as (r1 & e1 & -> & P1).
  destruct r1 as [?|[]]; [discriminate|].
  destruct (init_ai_client_run ((w ++ [EvMkdir out None]) ++ e1)%list)
    as (r2 & e2 & -> & P2).
  destruct r2 as [?|[]]; [discriminate|].
  destruct (init_wordpress_client_spec
              (mkEngine out model true status [] None)
              (((w ++ [EvMkdir out None]) ++ e1) ++ e2)%list)
    as (s3 & e3 & -> & O3 & A3 & P3).
  destruct (load_sheet_data_run s3
              ((((w ++ [EvMkdir out None]) ++ e1) ++ e2) ++ e3)%list)
    as (r4 & e4 & -> & P4 & K4).
  intros [= -> <-]. destruct (K4 self eq_refl) as (K1 & K2 & K3).
  exists ([EvMkdir out None] ++ e1 ++ e2 ++ e3 ++ e4)%list.
  rewrite <- !app_assoc. split; [reflexivity|].
  split; [now rewrite K2, O3|]. split; [now rewrite K3, A3|].
  autorewrite with trace. rewrite P1, P2, P4. cbn.
  intros H. rewrite K1. apply P3. lia.
Qed.

(** A single-topic run of an engine with publishing off. *)
Lemma generate_blog_post_markdown_only (self : BlogEngine) (row : Z) (w : World) :
  wordpress_enabled self = false ->
  exists r evs,
    generate_blog_post env self row w = (r, (w ++ evs)%list)
    /\ new_post_calls evs = []
    /\ ~ In ErrPublishingFailed (printed evs)
    /\ forall topic_data,
         find_row row (sheet_data self) = Some topic_data ->
         generation_succeeds env self topic_data ->
         writes_succeed env ->
         r = inr tt
         /\ exists t1 t2 meta_description body,
              files_written evs
              = [(output_dir self, post_filename t1 (title topic_data),
                  front_matter false topic_data meta_description t2 ++ body)]
              /\ In (OkMarkdownSaved
                       (path_str (output_dir self)
                                 (post_filename t1 (title topic_data))))
                    (printed evs).
Proof.
  intros En. unfold generate_blog_post.
  destruct (find_row row (sheet_data self)) as [topic_data|].
  2:{ eexists _, _. split; [reflexivity|]. segment_facts. }
  unfold bind, print. rewrite generate_ai_content_run.
  destruct (chat_completions_create env _ _ _) as [e|raw] eqn:G.
  { eexists _, _. rewrite <- !app_assoc. split; [reflexivity|].
    split; [reflexivity|]. split; [segment_facts|].
    intros t [= <-] Gs _. exfalso. oracle_clash. }
  destruct (_extract_meta_description (strip raw)) as [meta blog].
  rewrite save_blog_post_run. cbv zeta.
  destruct (file_write env _ _ _ _) as [e|] eqn:Wr.
  { eexists _, _. rewrite <- !app_assoc. split; [reflexivity|].
    split; [reflexivity|]. split; [segment_facts|].
    intros t [= <-] _ Ws. exfalso. oracle_clash. }
  rewrite En. unfold ret.
  eexists _, _. rewrite <- !app_assoc. split; [reflexivity|].
  split; [reflexivity|]. split; [segment_facts|].
  intros t [= <-] _ _. split; [reflexivity|].
  eexists _, _, _, _. split; [reflexivity|]. cbn. auto 10.
Qed.

End InitFacts.

(** C6. When the engine is constructed with publishing asked for and the
    connectivity probe raises on the way (so that [test_connection]
    returns false), the constructor does not abort on that account and the
    engine it returns has publishing off. From then on the publisher
    returns at once without an identifier, and every later single-topic
    run of that engine issues no remote creation call and prints no
    publishing failure; when the row exists, its generation succeeds and writes
    succeed, the run returns normally and has written exactly one markdown
    file, in the output directory, whose front matter records publishing as
    off. *)
Theorem probe_failure_disables_publishing
        (env : Collaborators) (out model status : string)
        (w : World) (self : BlogEngine) (evs : list Event) :
  BlogEngine_new env out model true status w = (inr self, (w ++ evs)%list) ->
  0 < probe_failures evs ->
  wordpress_enabled self = false
  /\ (forall topic_data content meta_description w',
         _publish_to_wordpress env self topic_data content meta_description w'
         = (inr None, w'))
  /\ forall row w',
       exists r evs',
         generate_blog_post env self row w' = (r, (w' ++ evs')%list)
         /\ new_post_calls evs' = []
         /\ ~ In ErrPublishingFailed (printed evs')
         /\ forall topic_data,
              find_row row (sheet_data self) = Some topic_data ->
              generation_succeeds env self topic_data ->
              writes_succeed env ->
              r = inr tt
              /\ exists t1 t2 meta_description body,
                   files_written evs'
                   = [(out, post_filename t1 (title topic_data),
                       front_matter false topic_data meta_description t2 ++ body)]
                   /\ In (OkMarkdownSaved
                            (path_str out (post_filename t1 (title topic_data))))
                         (printed evs').
Proof.
  intros Hnew Hprobe.
  destruct (blog_engine_new_probe env out model status w _ self Hnew)
    as (evs0 & Hw & Hout & _ & Hoff).
  apply app_inv_head in Hw. subst evs0.
  specialize (Hoff Hprobe). split; [exact Hoff|]. split.
  { intros topic_data content meta_description w'.
    unfold _publish_to_wordpress. now rewrite Hoff. }
  intros row w'.
  destruct (generate_blog_post_markdown_only env self row w' Hoff)
    as (r & evs' & E & N & P & K).
  exists r, evs'. subst out.
  split; [exact E|]. split; [exact N|]. split; [exact P | exact K].
Qed.

Lemma probe_failure_disables_publishing_witness :
  wordpress_enabled Scenarios.engine_after_failed_probe = false
  /\ exists r evs',
       generate_blog_post Scenarios.env_probe_fails
                          Scenarios.engine_after_failed_probe 2 []
       = (r, ([] ++ evs')%list)
       /\ new_post_calls evs' = []
       /\ ~ In ErrPublishingFailed (printed evs')
       /\ r = inr tt
       /\ exists t1 t2 meta_description body,
            files_written evs'
            = [("blog_posts", post_filename t1 "Brewing tea",
                front_matter false Scenarios.topic2 meta_description t2 ++ body)]
            /\ In (OkMarkdownSaved
                     (path_str "blog_posts" (post_filename t1 "Brewing tea")))
                  (printed evs').
Proof.
  destruct (probe_failure_disables_publishing
              Scenarios.env_probe_fails "blog_posts" "openai/gpt-4o-mini" "draft" []
              Scenarios.engine_after_failed_probe
              (snd (BlogEngine_new Scenarios.env_probe_fails "blog_posts"
                                   "openai/gpt-4o-mini" true "draft" [])))
    as (Hoff & _ & Hrun).
  - vm_compute. reflexivity.
  - vm_compute. lia.
  - split; [exact Hoff|].
    destruct (Hrun 2%Z []) as (r & evs' & E & N & P & K).
    exists r, evs'. split; [exact E|]. split; [exact N|]. split; [exact P|].
    apply (K Scenarios.topic2).
    + reflexivity.
    + intros w0. eexists. reflexivity.
    + intros dir name content w0. reflexivity.
Defined.

(** * Further properties of the code *)

(** ** More on strings *)

#[local] Arguments String.append : simpl nomatch.

Section MoreStringFacts.

Lemma all_chars_app (p : ascii -> bool) (a b : string) :
  all_chars p (a ++ b) = all_chars p a && all_chars p b.
Proof.
  induction a as [|c a IH]; [reflexivity|]. cbn [String.append all_chars].
  now rewrite IH, andb_assoc.
Qed.

Lemma all_chars_lower (p q : ascii -> bool) (s : string) :
  (forall c, p c = true -> q (lower_char c) = true) ->
  all_chars p s = true -> all_chars q (lower s) = true.
Proof.
  intros E. induction s as [|c s IH]; [reflexivity|]. cbn [all_chars lower].
  intros H. apply andb_true_iff in H as [Hc Hs]. now rewrite (E c Hc), (IH Hs).
Qed.

Lemma lower_fixed (p : ascii -> bool) (s : string) :
  (forall c, p c = true -> lower_char c = c) ->
  all_chars p s = true -> lower s = s.
Proof.
  intros E. induction s as [|c s IH]; [reflexivity|]. cbn [all_chars lower].
  intros H. apply andb_true_iff in H as [Hc Hs]. now rewrite (E c Hc), (IH Hs).
Qed.

Lemma sub_class_kept (keep : ascii -> bool) (s : string) :
  all_chars keep s = true -> sub_class (fun c => negb (keep c)) "" s = s.
Proof.
  induction s as [|c s IH]; [reflexivity|]. cbn [all_chars sub_class].
  intros H. apply andb_true_iff in H as [Hc Hs]. now rewrite Hc, (IH Hs).
Qed.

Lemma sub_run_chars (p q run : ascii -> bool) (repl : string) (b : bool)
      (s : string) :
  (forall c, p c = true -> run c = false -> q c = true) ->
  all_chars q repl = true ->
  all_chars p s = true -> all_chars q (sub_run run repl b s) = true.
Proof.
  intros E R. revert b. induction s as [|c s IH]; intros b; [reflexivity|].
  cbn [all_chars sub_run]. intros H. apply andb_true_iff in H as [Hc Hs].
  destruct (run c) eqn:Rc.
  - destruct b; [now apply IH|]. rewrite all_chars_app, R. now apply IH.
  - cbn [all_chars]. now rewrite (E c Hc Rc), (IH false Hs).
Qed.

Lemma sub_lit_run_chars (p q run : ascii -> bool) (lit : ascii)
      (repl : string) (b : bool) (s : string) :
  (forall c, p c = true -> q c = true) ->
  all_chars q repl = true ->
  all_chars p s = true -> all_chars q (sub_lit_run lit run repl b s) = true.
Proof.
  intros E R. revert b. induction s as [|c s IH]; intros b; [reflexivity|].
  cbn [all_chars sub_lit_run]. intros H. apply andb_true_iff in H as [Hc Hs].
  destruct (b && run c); [now apply IH|].
  destruct (Ascii.eqb c lit && _).
  - rewrite all_chars_app, R. now apply IH.
  - cbn [all_chars]. now rewrite (E c Hc), (IH false Hs).
Qed.

(** What is left after stripping on the left does not start with a
    stripped character. *)
Lemma lstrip_by_head (p : ascii -> bool) (s : string) :
  lstrip_by p s = ""
  \/ exists c r, lstrip_by p s = String c r /\ p c = false.
Proof.
  induction s as [|c s IH]; [now left|]. cbn [lstrip_by].
  destruct (p c) eqn:Pc; [exact IH|]. right. now exists c, s.
Qed.

Lemma rstrip_by_keeps_head (p : ascii -> bool) (c : ascii) (r : string) :
  p c = false -> exists r', rstrip_by p (String c r) = String c r'.
Proof.
  intros Pc. cbn [rstrip_by]. destruct (rstrip_by p r) as [|d r'].
  - rewrite Pc. now exists "".
  - now exists (String d r').
Qed.

Lemma rstrip_by_idem (p : ascii -> bool) (s : string) :
  rstrip_by p (rstrip_by p s) = rstrip_by p s.
Proof.
  induction s as [|c s IH]; [reflexivity|]. cbn [rstrip_by].
  destruct (rstrip_by p s) as [|d r] eqn:E.
  - destruct (p c) eqn:Pc; [reflexivity|]. cbn [rstrip_by]. now rewrite Pc.
  - cbn [rstrip_by] in *. now rewrite IH.
Qed.

(** Stripping twice is stripping once. *)
Lemma strip_by_idem (p : ascii -> bool) (s : string) :
  strip_by p (strip_by p s) = strip_by p s.
Proof.
  unfold strip_by. destruct (lstrip_by_head p s) as [E | (c & r & E & Pc)].
  - rewrite E. reflexivity.
  - rewrite E. destruct (rstrip_by_keeps_head p c r Pc) as (r' & E').
    rewrite E'. cbn [lstrip_by]. rewrite Pc. rewrite <- E'.
    apply rstrip_by_idem.
Qed.

Lemma strip_idem (s : string) : strip (strip s) = strip s.
Proof. apply strip_by_idem. Qed.

(** What [strip] returns is empty or starts with a character that is
    no white space. *)
Lemma strip_head (s : string) :
  strip s = "" \/ exists c r, strip s = String c r /\ is_space c = false.
Proof.
  unfold strip, strip_by.
  destruct (lstrip_by_head is_space s) as [E | (c & r & E & Pc)].
  - rewrite E. now left.
  - rewrite E. destruct (rstrip_by_keeps_head is_space c r Pc) as (r' & E').
    right. now exists c, r'.
Qed.

Lemma rstrip_by_snoc (p : ascii -> bool) (a : string) (c : ascii) :
  p c = false -> rstrip_by p (a ++ String c "") = a ++ String c "".
Proof.
  intros Pc. induction a as [|d a IH].
  - cbn. now rewrite Pc.
  - cbn [String.append rstrip_by]. rewrite IH. now destruct a.
Qed.

End MoreStringFacts.

(** ** File names *)

Section FileNameFacts.

Lemma strip_by_head (p : ascii -> bool) (s : string) :
  strip_by p s = "" \/ exists c r, strip_by p s = String c r /\ p c = false.
Proof.
  unfold strip_by. destruct (lstrip_by_head p s) as [E | (c & r & E & Pc)].
  - rewrite E. now left.
  - rewrite E. destruct (rstrip_by_keeps_head p c r Pc) as (r' & E').
    right. now exists c, r'.
Qed.

Lemma strip_by_length (p : ascii -> bool) (s : string) :
  String.length (strip_by p s) <= String.length s.
Proof.
  unfold strip_by. pose proof (rstrip_by_length p (lstrip_by p s)).
  pose proof (lstrip_by_length p s). lia.
Qed.

Lemma all_chars_strip_by (p q : ascii -> bool) (s : string) :
  all_chars q s = true -> all_chars q (strip_by p s) = true.
Proof. intros H. unfold strip_by. now apply all_chars_rstrip, all_chars_lstrip. Qed.

Lemma safe_char_stem_char (c : ascii) :
  safe_char c = true -> is_space c = false -> stem_char c = true.
Proof.
  destruct c as [[] [] [] [] [] [] [] []]; vm_compute; intros; congruence.
Qed.

Lemma stem_char_lower (c : ascii) :
  stem_char c = true -> file_char (lower_char c) = true.
Proof.
  destruct c as [[] [] [] [] [] [] [] []]; vm_compute; intros; congruence.
Qed.

Lemma file_char_plain (c : ascii) :
  file_char c = true ->
  safe_char c = true /\ is_space c = false /\ lower_char c = c.
Proof.
  destruct c as [[] [] [] [] [] [] [] []]; vm_compute; intros H;
    try discriminate; repeat split.
Qed.

Lemma slug_char_lower (c : ascii) :
  slug_char c = true -> post_name_char (lower_char c) = true.
Proof.
  destruct c as [[] [] [] [] [] [] [] []]; vm_compute; intros; congruence.
Qed.

Lemma post_name_char_plain (c : ascii) :
  post_name_char c = true ->
  Ascii.eqb c "/" = false /\ is_space c = false /\ Ascii.eqb c "034" = false.
Proof.
  destruct c as [[] [] [] [] [] [] [] []]; vm_compute; intros H;
    try discriminate; repeat split.
Qed.

Lemma slice_to_nonneg (n : Z) (s : string) :
  (0 <= n)%Z -> slice_to n s = take (Z.to_nat n) s.
Proof.
  intros H. unfold slice_to. now replace (0 <=? n)%Z with true by lia.
Qed.

Lemma slice_to_negative (n : Z) (s : string) :
  (n < 0)%Z -> slice_to n s = take (String.length s - Z.to_nat (- n)) s.
Proof.
  intros H. unfold slice_to. now replace (0 <=? n)%Z with false by lia.
Qed.

Lemma all_chars_slice_to (p : ascii -> bool) (n : Z) (s : string) :
  all_chars p s = true -> all_chars p (slice_to n s) = true.
Proof.
  intros H. unfold slice_to. destruct (0 <=? n)%Z; now apply all_chars_take.
Qed.

Lemma slice_to_length (n : Z) (s : string) :
  String.length (slice_to n s) <= String.length s
  /\ ((0 <= n)%Z -> String.length (slice_to n s) <= Z.to_nat n)
  /\ ((n < 0)%Z ->
      String.length (slice_to n s) <= String.length s - Z.to_nat (- n)).
Proof.
  assert (T : forall k t, String.length (take k t) <= String.length t).
  { induction k as [|k IH]; intros [|c t]; cbn; try lia.
    specialize (IH t). lia. }
  split; [unfold slice_to; destruct (0 <=? n)%Z; apply T|]. split; intros H.
  - rewrite (slice_to_nonneg n s H). apply length_take_le.
  - rewrite (slice_to_negative n s H). apply length_take_le.
Qed.

Lemma sub_class_delete_length (matches : ascii -> bool) (s : string) :
  String.length (sub_class matches "" s) <= String.length s.
Proof.
  induction s as [|c s IH]; [apply Nat.le_refl|]. cbn [sub_class].
  destruct (matches c); cbn; lia.
Qed.

Lemma sub_run_char_length (run : ascii -> bool) (d : ascii) (b : bool)
      (s : string) :
  String.length (sub_run run (String d "") b s) <= String.length s.
Proof.
  revert b. induction s as [|c s IH]; intros b; [apply Nat.le_refl|].
  cbn [sub_run]. pose proof (IH true) as It. pose proof (IH false) as If.
  destruct (run c); [destruct b|]; cbn; lia.
Qed.

Lemma lower_length (s : string) : String.length (lower s) = String.length s.
Proof. induction s as [|c s IH]; cbn; [reflexivity | now rewrite IH]. Qed.

(** What [safe_filename] computes before its final strip. *)
Lemma safe_filename_body_chars (text : string) (max_length : Z) :
  all_chars file_char
    (slice_to max_length
       (lower (sub_run is_space "-" false
                 (strip (sub_class (fun c => negb (safe_char c)) "" text)))))
  = true.
Proof.
  apply all_chars_slice_to.
  apply (all_chars_lower stem_char); [apply stem_char_lower|].
  apply (sub_run_chars safe_char); [apply safe_char_stem_char | reflexivity |].
  apply all_chars_strip, sub_class_filtered.
Qed.

Lemma decimal_digits (d : Decimal.uint) :
  all_chars is_digit09 (NilEmpty.string_of_uint d) = true.
Proof. induction d; cbn; auto. Qed.

Lemma zeros_digits (n : nat) : all_chars is_digit09 (zeros n) = true.
Proof. induction n; cbn; auto. Qed.

Lemma zero_pad_digits (width n : nat) :
  all_chars is_digit09 (zero_pad width n) = true.
Proof.
  unfold zero_pad, str_of_nat. now rewrite all_chars_app, zeros_digits, decimal_digits.
Qed.

Lemma strftime_stamp_chars (t : datetime) :
  all_chars post_name_char (strftime_stamp t) = true.
Proof.
  assert (D : forall w n, all_chars post_name_char (zero_pad w n) = true).
  { intros w n. apply (all_chars_impl is_digit09); [|apply zero_pad_digits].
    intros c. destruct c as [[] [] [] [] [] [] [] []]; vm_compute; congruence. }
  unfold strftime_stamp. rewrite !all_chars_app, !D. reflexivity.
Qed.

Lemma slug_chars (topic_title : string) :
  all_chars post_name_char (slug topic_title) = true.
Proof.
  unfold slug. apply all_chars_take.
  apply (all_chars_lower slug_char); [apply slug_char_lower|].
  apply (sub_lit_run_chars slug_char); [auto | reflexivity |].
  apply all_chars_strip, sub_class_filtered.
Qed.

End FileNameFacts.

(** The shape of a safe file name. *)
Lemma safe_filename_facts (text : string) (max_length : Z) :
  all_chars file_char (safe_filename text max_length) = true
  /\ ((0 <= max_length)%Z ->
      String.length (safe_filename text max_length) <= Z.to_nat max_length)
  /\ ((max_length < 0)%Z ->
      String.length (safe_filename text max_length)
      <= String.length text - Z.to_nat (- max_length))
  /\ String.length (safe_filename text max_length) <= String.length text
  /\ startswith "-" (safe_filename text max_length) = false
  /\ strip_chars "-" (safe_filename text max_length) = safe_filename text max_length.
Proof.
  unfold safe_filename, strip_chars.
  set (full := lower (sub_run is_space "-" false
                        (strip (sub_class (fun c => negb (safe_char c)) "" text)))).
  set (body := slice_to max_length full).
  assert (B : all_chars file_char body = true) by apply safe_filename_body_chars.
  assert (F : String.length full <= String.length text).
  { unfold full, strip. rewrite lower_length.
    pose proof (sub_run_char_length is_space "-" false
                  (strip_by is_space
                     (sub_class (fun c => negb (safe_char c)) "" text))).
    pose proof (strip_by_length is_space
                  (sub_class (fun c => negb (safe_char c)) "" text)).
    pose proof (sub_class_delete_length (fun c => negb (safe_char c)) text).
    lia. }
  pose proof (strip_by_length (fun c => char_in c "-") body) as S.
  destruct (slice_to_length max_length full) as (L0 & L1 & L2). fold body in L0, L1, L2.
  split; [now apply all_chars_strip_by|].
  split; [intros H; specialize (L1 H); lia|].
  split; [intros H; specialize (L2 H); lia|].
  split; [lia|].
  split; [|apply strip_by_idem].
  destruct (strip_by_head (fun c => char_in c "-") body) as [-> | (c & r & -> & Pc)];
    [reflexivity|].
  cbn [startswith]. cbn [char_in] in Pc. rewrite orb_false_r in Pc.
  rewrite Ascii.eqb_sym. now rewrite Pc.
Qed.

(** X1. Whatever the text and the limit, [safe_filename] returns only
    lowercase letters, digits and hyphens, never more characters than the
    text has, with no hyphen at either end. With a limit that is not
    negative it returns at most that many characters; with a negative
    limit, which cuts from the end, it returns at most the length of the
    text less the size of the limit. *)
Theorem safe_filename_shape (text : string) (max_length : Z) :
  all_chars file_char (safe_filename text max_length) = true
  /\ ((0 <= max_length)%Z ->
      String.length (safe_filename text max_length) <= Z.to_nat max_length)
  /\ ((max_length < 0)%Z ->
      String.length (safe_filename text max_length)
      <= String.length text - Z.to_nat (- max_length))
  /\ String.length (safe_filename text max_length) <= String.length text
  /\ startswith "-" (safe_filename text max_length) = false
  /\ strip_chars "-" (safe_filename text max_length) = safe_filename text max_length.
Proof. exact (safe_filename_facts text max_length). Qed.

Lemma safe_filename_shape_witness :
  String.length (safe_filename "abc def" (-2)) <= 5
  /\ String.length (safe_filename "Hello,   World! 2025" 8) <= 8.
Proof.
  split.
  - apply (proj1 (proj2 (proj2 (safe_filename_shape "abc def" (-2))))). lia.
  - apply (proj1 (proj2 (safe_filename_shape "Hello,   World! 2025" 8))). lia.
Defined.

(** X2. With a limit that is not negative, [safe_filename] is idempotent:
    a name it returned comes back unchanged when given again with the same
    limit. *)
Theorem safe_filename_idempotent (text : string) (max_length : Z) :
  (0 <= max_length)%Z ->
  safe_filename (safe_filename text max_length) max_length
  = safe_filename text max_length.
Proof.
  intros Hn.
  destruct (safe_filename_facts text max_length) as (C & L & _ & _ & _ & S).
  specialize (L Hn).
  set (r := safe_filename text max_length) in *.
  assert (Cs : all_chars safe_char r = true).
  { revert C. apply all_chars_impl. intros c Hc. apply (file_char_plain c Hc). }
  assert (Cn : all_chars (fun c => negb (is_space c)) r = true).
  { revert C. apply all_chars_impl. intros c Hc.
    now rewrite (proj1 (proj2 (file_char_plain c Hc))). }
  unfold safe_filename at 1.
  rewrite (sub_class_kept safe_char r Cs). unfold strip.
  rewrite (strip_by_free is_space r Cn), (sub_run_free is_space "-" r Cn).
  rewrite (lower_fixed file_char r (fun c Hc => proj2 (proj2 (file_char_plain c Hc))) C).
  rewrite (slice_to_nonneg max_length r Hn), (take_all (Z.to_nat max_length) r L).
  exact S.
Qed.

Lemma safe_filename_idempotent_witness :
  safe_filename (safe_filename "  Hello,   World! 2025 " 12) 12
  = safe_filename "  Hello,   World! 2025 " 12.
Proof. apply safe_filename_idempotent. lia. Defined.

(** X3. The name of a post file is the time stamp, an underscore, a stem
    of at most 50 characters and [.md]. It holds only digits, lowercase
    letters, hyphens, backslashes, underscores and dots: never a slash, a
    white space or a double quote, whatever the title. *)
Theorem post_filename_shape (t : datetime) (topic_title : string) :
  post_filename t topic_title
  = strftime_stamp t ++ "_" ++ slug topic_title ++ ".md"
  /\ String.length (slug topic_title) <= 50
  /\ String.length (post_filename t topic_title)
     = String.length (strftime_stamp t) + String.length (slug topic_title) + 4
  /\ all_chars post_name_char (post_filename t topic_title) = true
  /\ all_chars (fun c => negb (Ascii.eqb c "/") && negb (is_space c)
                         && negb (Ascii.eqb c "034"))
               (post_filename t topic_title) = true.
Proof.
  assert (C : all_chars post_name_char (post_filename t topic_title) = true).
  { unfold post_filename.
    now rewrite !all_chars_app, strftime_stamp_chars, slug_chars. }
  split; [reflexivity|]. split; [apply length_take_le|]. split.
  - unfold post_filename. rewrite !length_app_s. cbn [String.length]. lia.
  - split; [exact C|]. revert C. apply all_chars_impl. intros c Hc.
    destruct (post_name_char_plain c Hc) as (-> & -> & ->). reflexivity.
Qed.

(** ** More on the response parser *)

Section MoreParserFacts.

Lemma find_char_prefix (c : ascii) (s : string) (pos : nat) :
  find (String c "") s = Some pos ->
  all_chars (fun d => negb (Ascii.eqb d c)) (take pos s) = true.
Proof.
  revert pos. induction s as [|d s IH]; intros pos; [discriminate|].
  cbn [find startswith]. rewrite andb_true_r.
  destruct (Ascii.eqb c d) eqn:E.
  - intros [= <-]. reflexivity.
  - destruct (find (String c "") s) as [q|]; [|discriminate].
    cbn [option_map]. intros [= <-]. cbn [take all_chars].
    rewrite Ascii.eqb_sym, E. now apply IH.
Qed.

Lemma find_char_none_all (c : ascii) (s : string) :
  find (String c "") s = None ->
  all_chars (fun d => negb (Ascii.eqb d c)) s = true.
Proof.
  induction s as [|d s IH]; [reflexivity|]. intros H.
  apply find_none_cons in H as [H1 H2]. cbn [startswith] in H1.
  rewrite andb_true_r in H1. cbn [all_chars].
  rewrite Ascii.eqb_sym, H1. now apply IH.
Qed.

(** The pieces of an unlimited split at a character do not hold that
    character. *)
Lemma splitn_char_pieces (c : ascii) (n : nat) (s : string) :
  String.length s <= n ->
  Forall (fun x => all_chars (fun d => negb (Ascii.eqb d c)) x = true)
         (splitn (String c "") n s).
Proof.
  revert s. induction n as [|n IH]; intros s L.
  - destruct s; [|cbn in L; lia]. now constructor.
  - cbn [splitn]. destruct (find (String c "") s) as [pos|] eqn:F.
    + constructor; [now apply find_char_prefix|]. apply IH.
      assert (N : String c "" <> "") by discriminate.
      pose proof (find_some_rest _ s pos N F). lia.
    + constructor; [now apply find_char_none_all | constructor].
Qed.

Lemma replacen_all_chars (p : ascii -> bool) (old new : string) (n : nat)
      (s : string) :
  all_chars p new = true -> all_chars p s = true ->
  all_chars p (replacen old new n s) = true.
Proof.
  intros N. revert s. induction n as [|n IH]; intros s H; [exact H|].
  cbn [replacen]. destruct (find old s) as [pos|]; [|exact H].
  rewrite !all_chars_app, N, (all_chars_take p pos s H). cbn [andb].
  now apply IH, all_chars_drop.
Qed.

Lemma first_paragraph_of_cases (lines : list string) :
  first_paragraph_of lines = ""
  \/ exists line, In line lines /\ first_paragraph_of lines = strip line.
Proof.
  induction lines as [|line rest IH]; [now left|]. cbn [first_paragraph_of].
  destruct (truthy (strip line) && negb (startswith "#" line)).
  - right. exists line. split; [now left | reflexivity].
  - destruct IH as [E | (l & I & E)]; [now left|].
    right. exists l. split; [now right | exact E].
Qed.

(** The two lines of the tagged path, for a text with a newline. *)
Lemma splitn_first_newline (content : string) (pos : nat) :
  find NL content = Some pos ->
  nth 0 (splitn NL 2 content) "" = take pos content
  /\ join NL (skipn 1 (splitn NL 2 content)) = drop (pos + 1) content
  /\ (2 <=? List.length (splitn NL 2 content))%nat = true.
Proof.
  intros F.
  assert (E : splitn NL 2 content
              = take pos content :: splitn NL 1 (drop (pos + 1) content)).
  { change (splitn NL 2 content)
      with (match find NL content with
            | None => [content]
            | Some q => take q content
                        :: splitn NL 1 (drop (q + String.length NL) content)
            end).
    now rewrite F. }
  rewrite E. cbn [nth skipn List.length].
  split; [reflexivity|]. split.
  - apply (join_splitn NL 1).
  - pose proof (splitn_length_pos NL 1 (drop (pos + 1) content)).
    apply Nat.leb_le. lia.
Qed.

End MoreParserFacts.

(** X4. The meta description the parser returns never holds a newline,
    on the tagged path and on the fallback path alike. *)
Theorem meta_description_one_line (content : string) :
  one_line (fst (_extract_meta_description content)) = true.
Proof.
  unfold one_line, _extract_meta_description.
  assert (Fb : all_chars (fun c => negb (Ascii.eqb c nl))
                 (fst (fallback_meta_description content)) = true).
  { unfold fallback_meta_description. cbn [fst].
    assert (P : all_chars (fun c => negb (Ascii.eqb c nl))
                  (first_paragraph_of (split NL content)) = true).
    { destruct (first_paragraph_of_cases (split NL content))
        as [-> | (line & I & ->)]; [reflexivity|].
      apply all_chars_strip.
      pose proof (splitn_char_pieces nl (String.length content) content
                    (Nat.le_refl _)) as F.
      rewrite Forall_forall in F. now apply F. }
    destruct (157 <? _)%nat; [|exact P].
    rewrite all_chars_app, (all_chars_take _ 157 _ P). reflexivity. }
  destruct (startswith META_TAG content); [|exact Fb].
  destruct (find NL content) as [pos|] eqn:F.
  - destruct (splitn_first_newline content pos F) as (E1 & _ & E3).
    rewrite E3, E1. cbn [fst]. apply all_chars_strip.
    unfold replace. apply replacen_all_chars; [reflexivity|].
    now apply (find_char_prefix nl).
  - rewrite (splitn_none NL 2 content F). exact Fb.
Qed.

(** X5. For a text that starts with the tag and holds a newline the
    tagged path is taken: the meta description is the first line with
    every occurrence of the tag removed, trimmed, and the body is all the
    text after the first newline, trimmed. *)
Theorem extract_tagged_general (content : string) (pos : nat) :
  startswith META_TAG content = true ->
  find NL content = Some pos ->
  _extract_meta_description content
  = (strip (replace META_TAG "" (take pos content)),
     strip (drop (pos + 1) content)).
Proof.
  intros Htag F. unfold _extract_meta_description. rewrite Htag.
  destruct (splitn_first_newline content pos F) as (E1 & E2 & E3).
  now rewrite E3, E1, E2.
Qed.

Lemma extract_tagged_general_witness :
  _extract_meta_description
    ("META_DESCRIPTION: one META_DESCRIPTION: two" ++ NL ++ "a" ++ NL ++ NL ++ "b")
  = ("one  two", "a" ++ NL ++ NL ++ "b").
Proof.
  exact (extract_tagged_general
           ("META_DESCRIPTION: one META_DESCRIPTION: two" ++ NL ++ "a" ++ NL ++ NL ++ "b")
           43 eq_refl eq_refl).
Defined.

(** X6. What the generator returns is trimmed, and so are both parts the
    parser makes of it: neither the meta description nor the body written
    to the file starts or ends with white space. *)
Theorem generated_parts_trimmed
        (env : Collaborators) (self : BlogEngine) (topic_data : TopicRecord)
        (w w' : World) (ai_content : string) :
  _generate_ai_content env self topic_data w = (inr ai_content, w') ->
  trimmed ai_content
  /\ trimmed (fst (_extract_meta_description ai_content))
  /\ trimmed (snd (_extract_meta_description ai_content)).
Proof.
  rewrite generate_ai_content_run.
  destruct (chat_completions_create env _ _ w) as [e|raw]; [discriminate|].
  intros [= <- _]. unfold trimmed.
  assert (T : strip (strip raw) = strip raw) by apply strip_idem.
  split; [exact T|]. set (content := strip raw) in *.
  assert (Fb : strip (fst (fallback_meta_description content))
               = fst (fallback_meta_description content)
               /\ strip (snd (fallback_meta_description content))
                  = snd (fallback_meta_description content)).
  { unfold fallback_meta_description. cbn [fst snd]. split; [|exact T].
    destruct (first_paragraph_of_cases (split NL content))
      as [-> | (line & _ & ->)]; [reflexivity|].
    destruct (Nat.ltb_spec 157 (String.length (strip line))) as [L|L];
      [|apply strip_idem].
    destruct (strip_head line) as [E | (c & r & E & Pc)];
      [rewrite E in L; cbn in L; lia|].
    rewrite E.
    assert (Ecut : take 157 (String c r) ++ "..."
                   = String c (take 156 r ++ "..") ++ ".").
    { change (take 157 (String c r)) with (String c (take 156 r)).
      cbn [String.append]. f_equal.
      now rewrite (app_assoc_s (take 156 r) ".." "."). }
    rewrite Ecut. generalize (take 156 r ++ "..") as body. intros body.
    unfold strip, strip_by. cbn [String.append lstrip_by]. rewrite Pc.
    change (String c (body ++ ".")) with (String c body ++ ".").
    now apply rstrip_by_snoc. }
  unfold _extract_meta_description.
  destruct (startswith META_TAG content); [|exact Fb].
  destruct (2 <=? _)%nat; [|exact Fb].
  cbn [fst snd]. split; apply strip_idem.
Qed.

Lemma generated_parts_trimmed_witness :
  trimmed "META_DESCRIPTION: A short description." /\
  trimmed (fst (_extract_meta_description "META_DESCRIPTION: A short description."))
  /\ trimmed (snd (_extract_meta_description "META_DESCRIPTION: A short description.")).
Proof.
  apply (generated_parts_trimmed
           (Scenarios.with_completion Scenarios.env_ok
              (fun _ _ _ => inr "  META_DESCRIPTION: A short description.  "))
           Scenarios.engine_markdown_only Scenarios.topic1 []
           [EvCompletion "openai/gpt-4o-mini" (prompt_of Scenarios.topic1)
              (inr "  META_DESCRIPTION: A short description.  ")]).
  reflexivity.
Defined.

(** ** More on the fallback HTML conversion *)

Section MoreConversionFacts.

Lemma paragraph_step_keeps (P : string -> Prop) (acc : list string) (para : string) :
  (forall p, startswith "<" p = true -> strip p = p -> p <> "" -> P p) ->
  Forall P acc -> Forall P (paragraph_step acc para).
Proof.
  intros HP F. unfold paragraph_step.
  destruct (truthy (strip para)) eqn:T; cbn [andb]; [|exact F].
  destruct (startswith "<" (strip para)) eqn:S; cbn [negb]; [|exact F].
  apply Forall_app. split; [exact F|]. constructor; [|constructor].
  apply HP; [exact S | apply strip_idem |].
  unfold truthy in T. apply negb_true_iff in T. now apply String.eqb_neq.
Qed.

Lemma paragraph_loop_keeps (P : string -> Prop) (paras acc : list string) :
  (forall p, startswith "<" p = true -> strip p = p -> p <> "" -> P p) ->
  Forall P acc -> Forall P (fold_left paragraph_step paras acc).
Proof.
  intros HP. revert acc. induction paras as [|para rest IH]; intros acc F;
    [exact F|].
  cbn [fold_left]. apply IH. now apply paragraph_step_keeps.
Qed.

End MoreConversionFacts.

(** X7. Whatever its input, the fallback conversion returns paragraphs
    joined by single newlines, each of them trimmed, non-empty and starting
    with [<]: a paragraph of the input that does not come out of the
    substitutions with a leading [<] is never part of the output. So the
    output is empty or starts with [<]. *)
Theorem simple_markdown_output_shape (markdown_content : string) :
  (exists html_paragraphs,
      _simple_markdown_to_html markdown_content = join NL html_paragraphs
      /\ Forall (fun p => startswith "<" p = true /\ trimmed p /\ p <> "")
                html_paragraphs)
  /\ (_simple_markdown_to_html markdown_content = ""
      \/ startswith "<" (_simple_markdown_to_html markdown_content) = true).
Proof.
  unfold _simple_markdown_to_html.
  set (paragraphs := split (NL ++ NL) _).
  assert (F : Forall (fun p => startswith "<" p = true /\ trimmed p /\ p <> "")
                     (fold_left paragraph_step paragraphs [])).
  { apply paragraph_loop_keeps; [now intros p H1 H2 H3 | constructor]. }
  split; [now exists (fold_left paragraph_step paragraphs [])|].
  destruct (fold_left paragraph_step paragraphs []) as [|p rest]; [now left|].
  right. inversion F as [|? ? (S & _ & _) _]; subst.
  destruct p as [|c p]; [discriminate|].
  cbn [startswith] in S. rewrite andb_true_r in S.
  destruct rest; cbn [join String.append startswith]; now rewrite S.
Qed.

(** ** The front matter read back *)

Section FrontMatterFacts.

Lemma dash_run_app (k : nat) (a b : string) :
  dash_run k (a ++ b)
  = match dash_run k a with Some k' => dash_run k' b | None => None end.
Proof.
  revert k. induction a as [|c a IH]; intros k; [reflexivity|].
  cbn [String.append dash_run].
  destruct (Ascii.eqb c "-"); [destruct (2 <=? k)%nat|]; auto.
Qed.

Lemma dash_bound_app (i j l : nat) (a b : string) :
  dash_bound i j a -> dash_bound j l b -> dash_bound i l (a ++ b).
Proof.
  intros A B k Hk. destruct (A k Hk) as (k1 & H1 & E1).
  destruct (B k1 H1) as (k2 & H2 & E2).
  exists k2. split; [exact H2|]. now rewrite dash_run_app, E1.
Qed.

(** A non-empty piece without hyphens ends any run. *)
Lemma dash_bound_plain (i : nat) (c : ascii) (s : string) :
  all_chars (fun d => negb (Ascii.eqb d "-")) (String c s) = true ->
  dash_bound i 0 (String c s).
Proof.
  intros H k _. exists 0. split; [lia|].
  revert c k H. induction s as [|d s IH]; intros c k H;
    cbn [all_chars] in H; apply andb_true_iff in H as [Hc Hs];
    apply negb_true_iff in Hc; cbn [dash_run]; rewrite Hc; [reflexivity|].
  now apply IH.
Qed.

(** A possibly empty piece without hyphens adds nothing to a run. *)
Lemma dash_bound_digits (i : nat) (s : string) :
  all_chars is_digit09 s = true -> dash_bound i i s.
Proof.
  intros H. destruct s as [|c s].
  - intros k Hk. exists k. now split.
  - intros k Hk. destruct (dash_bound_plain i c s) with (k := k) as (k' & L & E);
      [|exact Hk | exists k'; split; [lia | exact E]].
    revert H. apply all_chars_impl. intros d.
    destruct d as [[] [] [] [] [] [] [] []]; vm_compute; congruence.
Qed.

Lemma dash_bound_dash (i : nat) : i <= 1 -> dash_bound i (S i) "-".
Proof.
  intros Hi k Hk. exists (S k). split; [lia|]. cbn.
  destruct k as [|[|k]]; [reflexivity | reflexivity | lia].
Qed.

Lemma find_none_startswith (sub s : string) :
  find sub s = None -> startswith sub s = false.
Proof.
  destruct s as [|c s]; cbn [find].
  - now destruct (startswith sub "").
  - now destruct (startswith sub (String c s)).
Qed.

(** A piece without three hyphens in a row, entered after [k] hyphens
    that its own first hyphens do not complete. *)
Lemma dash_run_free (s : string) (k : nat) :
  k <= 2 ->
  find "---" s = None ->
  startswith (hyphens (3 - k)) s = false ->
  exists k', k' <= 2 /\ dash_run k s = Some k'.
Proof.
  revert k. induction s as [|c s IH]; intros k Hk F S.
  - exists k. now split.
  - apply find_none_cons in F as [_ F]. cbn [dash_run].
    destruct (Ascii.eqb c "-") eqn:E.
    + apply Ascii.eqb_eq in E. subst c.
      destruct k as [|[|[|k]]]; try lia.
      * apply (IH 1); [lia | exact F | exact S].
      * apply (IH 2); [lia | exact F | exact S].
      * cbn in S. discriminate.
    + apply (IH 0); [lia | exact F | now apply find_none_startswith].
Qed.

Lemma dash_bound_free (s : string) : contains "---" s = false -> dash_bound 0 2 s.
Proof.
  intros C k Hk. assert (k = 0) by lia. subst k.
  assert (F : find "---" s = None).
  { unfold contains in C. now destruct (find "---" s). }
  apply dash_run_free; [lia | exact F | now apply find_none_startswith].
Qed.

(** After a piece that leaves a run of hyphens already begun, the text
    does not go on with two hyphens. *)
Lemma dash_run_blocks (k : nat) (a x : string) :
  dash_run (S k) a = Some 0 -> startswith "--" (a ++ x) = false.
Proof.
  destruct a as [|d a]; [discriminate|]. cbn [dash_run String.append startswith].
  destruct (Ascii.eqb d "-") eqn:D.
  - destruct k as [|k]; [|discriminate]. cbn [Nat.leb].
    destruct a as [|e a]; [discriminate|]. cbn [dash_run String.append startswith].
    destruct (Ascii.eqb e "-") eqn:E; [discriminate|].
    intros _. rewrite (Ascii.eqb_sym "-" e), E. now rewrite andb_false_r.
  - intros _. now rewrite (Ascii.eqb_sym "-" d), D.
Qed.

Lemma startswith_cons (d c : ascii) (p s : string) :
  startswith (String d p) (String c s) = Ascii.eqb d c && startswith p s.
Proof. reflexivity. Qed.

(** The delimiter that follows such a piece is the first one. *)
Lemma find_delimiter_after (a r : string) (k : nat) :
  dash_run k a = Some 0 ->
  find "---" (a ++ "---" ++ r) = Some (String.length a).
Proof.
  revert k. induction a as [|c a IH]; intros k H.
  - reflexivity.
  - cbn [dash_run] in H. cbn [String.append String.length].
    assert (Hfind : forall k', dash_run k' a = Some 0 ->
                    startswith "---" (String c (a ++ "---" ++ r)) = false ->
                    find "---" (String c (a ++ "---" ++ r))
                    = Some (S (String.length a))).
    { intros k' H' S. cbn [find]. rewrite S. now rewrite (IH k' H'). }
    destruct (Ascii.eqb c "-") eqn:E.
    + destruct (2 <=? k)%nat; [discriminate|].
      apply (Hfind (S k) H). rewrite startswith_cons.
      rewrite (dash_run_blocks k a _ H). now rewrite andb_false_r.
    + apply (Hfind 0 H). rewrite startswith_cons.
      now rewrite (Ascii.eqb_sym "-" c), E.
Qed.

Lemma dash_bound_weaken (i i' j j' : nat) (s : string) :
  i' <= i -> j <= j' -> dash_bound i j s -> dash_bound i' j' s.
Proof.
  intros Hi Hj B k Hk. destruct (B k) as (k' & L & E); [lia|].
  exists k'. split; [lia | exact E].
Qed.

Lemma str_of_row_dashes (r : RowNumber) : dash_bound 0 1 (str_of_row r).
Proof.
  destruct r as [n|]; cbn [str_of_row].
  - unfold str_of_Z. destruct (Z.to_int n) as [d|d]; cbn [NilEmpty.string_of_int].
    + apply (dash_bound_weaken 0 0 0 1); [lia | lia |].
      apply dash_bound_digits, decimal_digits.
    + change (String "-" (NilEmpty.string_of_uint d))
        with ("-" ++ NilEmpty.string_of_uint d).
      apply (dash_bound_app 0 1 1); [apply dash_bound_dash; lia|].
      apply dash_bound_digits, decimal_digits.
  - apply (dash_bound_weaken 2 0 0 1); [lia | lia |]. apply dash_bound_plain; reflexivity.
Qed.

Lemma strftime_date_dashes (t : datetime) : dash_bound 0 0 (strftime_date t).
Proof.
  unfold strftime_date.
  apply (dash_bound_app 0 0 0); [apply dash_bound_digits, zero_pad_digits|].
  apply (dash_bound_app 0 1 0); [apply dash_bound_dash; lia|].
  apply (dash_bound_app 1 1 0); [apply dash_bound_digits, zero_pad_digits|].
  apply (dash_bound_app 1 2 0); [apply dash_bound_dash; lia|].
  apply (dash_bound_app 2 2 0); [apply dash_bound_digits, zero_pad_digits|].
  apply (dash_bound_app 2 0 0); [apply dash_bound_plain; reflexivity|].
  apply (dash_bound_app 0 0 0); [apply dash_bound_digits, zero_pad_digits|].
  apply (dash_bound_app 0 0 0); [apply dash_bound_plain; reflexivity|].
  apply (dash_bound_app 0 0 0); [apply dash_bound_digits, zero_pad_digits|].
  apply (dash_bound_app 0 0 0); [apply dash_bound_plain; reflexivity|].
  apply dash_bound_digits, zero_pad_digits.
Qed.

(** The key lines of a front matter whose four free texts hold no three
    hyphens in a row hold none either, and end without a hyphen. *)
Lemma front_matter_fields_dashes (enabled : bool) (topic_data : TopicRecord)
      (meta_description : string) (t : datetime) :
  contains "---" (title topic_data) = false ->
  contains "---" meta_description = false ->
  contains "---" (primary_keywords topic_data) = false ->
  contains "---" (auxiliary_keywords topic_data) = false ->
  dash_bound 0 0 (NL ++ front_matter_fields enabled topic_data meta_description t).
Proof.
  intros Ht Hm Hp Ha. unfold front_matter_fields.
  pose proof (dash_bound_free _ Ht) as Bt.
  pose proof (dash_bound_free _ Hm) as Bm.
  pose proof (dash_bound_free _ Hp) as Bp.
  pose proof (dash_bound_free _ Ha) as Ba.
  assert (Q : forall i, dash_bound i 0 DQ) by (intros i; apply dash_bound_plain; reflexivity).
  assert (N : forall i, dash_bound i 0 NL) by (intros i; apply dash_bound_plain; reflexivity).
  apply (dash_bound_app 0 0 0); [apply N|].
  apply (dash_bound_app 0 0 0); [apply dash_bound_plain; reflexivity|].
  apply (dash_bound_app 0 0 0); [apply Q|].
  apply (dash_bound_app 0 2 0); [exact Bt|].
  apply (dash_bound_app 2 0 0); [apply Q|].
  apply (dash_bound_app 0 0 0); [apply N|].
  apply (dash_bound_app 0 0 0); [apply dash_bound_plain; reflexivity|].
  apply (dash_bound_app 0 0 0); [apply Q|].
  apply (dash_bound_app 0 2 0); [exact Bm|].
  apply (dash_bound_app 2 0 0); [apply Q|].
  apply (dash_bound_app 0 0 0); [apply N|].
  apply (dash_bound_app 0 0 0); [apply dash_bound_plain; reflexivity|].
  apply (dash_bound_app 0 0 0); [apply strftime_date_dashes|].
  apply (dash_bound_app 0 0 0); [apply N|].
  apply (dash_bound_app 0 0 0); [apply dash_bound_plain; reflexivity|].
  apply (dash_bound_app 0 0 0); [apply Q|].
  apply (dash_bound_app 0 2 0); [exact Bp|].
  apply (dash_bound_app 2 0 0); [apply Q|].
  apply (dash_bound_app 0 0 0); [apply N|].
  apply (dash_bound_app 0 0 0); [apply dash_bound_plain; reflexivity|].
  apply (dash_bound_app 0 0 0); [apply Q|].
  apply (dash_bound_app 0 2 0); [exact Ba|].
  apply (dash_bound_app 2 0 0); [apply Q|].
  apply (dash_bound_app 0 0 0); [apply N|].
  apply (dash_bound_app 0 0 0); [apply dash_bound_plain; reflexivity|].
  apply (dash_bound_app 0 1 0); [apply str_of_row_dashes|].
  apply (dash_bound_app 1 0 0); [apply N|].
  apply (dash_bound_app 0 0 0); [apply dash_bound_plain; reflexivity|].
  apply (dash_bound_app 0 0 0); [apply Q|].
  apply (dash_bound_app 0 0 0); [apply dash_bound_plain; reflexivity|].
  apply (dash_bound_app 0 0 0); [apply Q|].
  apply (dash_bound_app 0 0 0); [apply N|].
  apply (dash_bound_app 0 0 0); [apply dash_bound_plain; reflexivity|].
  apply (dash_bound_app 0 0 0); [destruct enabled; apply dash_bound_plain; reflexivity|].
  apply N.
Qed.

End FrontMatterFacts.

(** The front-matter removal of the publisher on a written file. *)
Lemma strip_frontmatter_written
        (enabled : bool) (topic_data : TopicRecord)
        (meta_description : string) (t : datetime) (body : string) :
  contains "---" (title topic_data) = false ->
  contains "---" meta_description = false ->
  contains "---" (primary_keywords topic_data) = false ->
  contains "---" (auxiliary_keywords topic_data) = false ->
  strip_frontmatter (front_matter enabled topic_data meta_description t ++ body)
  = strip body.
Proof.
  intros Ht Hm Hp Ha.
  pose proof (front_matter_fields_dashes enabled topic_data meta_description t
                Ht Hm Hp Ha) as B.
  destruct (B 0 (Nat.le_refl 0)) as (k' & L & E).
  assert (k' = 0) by lia. subst k'.
  set (fields := front_matter_fields enabled topic_data meta_description t) in *.
  assert (Z : front_matter enabled topic_data meta_description t ++ body
              = "---" ++ (NL ++ fields) ++ "---" ++ (NL ++ NL ++ body)).
  { unfold front_matter. fold fields. now rewrite !app_assoc_s. }
  rewrite Z. unfold strip_frontmatter. rewrite startswith_app.
  assert (S2 : splitn "---" 2 ("---" ++ (NL ++ fields) ++ "---" ++ NL ++ NL ++ body)
               = [""; NL ++ fields; NL ++ NL ++ body]).
  { change (splitn "---" 2 ("---" ++ (NL ++ fields) ++ "---" ++ NL ++ NL ++ body))
      with ("" :: splitn "---" 1 ((NL ++ fields) ++ "---" ++ NL ++ NL ++ body)).
    f_equal.
    change (splitn "---" 1 ((NL ++ fields) ++ "---" ++ NL ++ NL ++ body))
      with (match find "---" ((NL ++ fields) ++ "---" ++ NL ++ NL ++ body) with
            | None => [(NL ++ fields) ++ "---" ++ NL ++ NL ++ body]
            | Some q =>
                [take q ((NL ++ fields) ++ "---" ++ NL ++ NL ++ body);
                 drop (q + 3) ((NL ++ fields) ++ "---" ++ NL ++ NL ++ body)]
            end).
    rewrite (find_delimiter_after (NL ++ fields) (NL ++ NL ++ body) 0 E).
    rewrite take_app_length, drop_add, drop_app_length. reflexivity. }
  rewrite S2. cbn [List.length Nat.leb nth].
  change (NL ++ NL ++ body) with (String nl (String nl body)).
  now rewrite !(strip_cons_space nl _ eq_refl).
Qed.

(** X8. Reading back what the writer wrote: when the title, the meta
    description and the two keyword texts hold no three hyphens in a row,
    the front-matter removal of the publisher, applied to the content of a
    written file, gives the body back, trimmed. *)
Theorem written_content_strips_to_body
        (enabled : bool) (topic_data : TopicRecord)
        (meta_description : string) (t : datetime) (body : string) :
  contains "---" (title topic_data) = false ->
  contains "---" meta_description = false ->
  contains "---" (primary_keywords topic_data) = false ->
  contains "---" (auxiliary_keywords topic_data) = false ->
  strip_frontmatter (front_matter enabled topic_data meta_description t ++ body)
  = strip body.
Proof.
  exact (strip_frontmatter_written enabled topic_data meta_description t body).
Qed.

Lemma written_content_strips_to_body_witness :
  strip_frontmatter
    (front_matter false Scenarios.topic1 "A short - description." Scenarios.noon
     ++ "# Title" ++ NL ++ NL ++ "Some text.")
  = "# Title" ++ NL ++ NL ++ "Some text.".
Proof.
  exact (written_content_strips_to_body false Scenarios.topic1
           "A short - description." Scenarios.noon
           ("# Title" ++ NL ++ NL ++ "Some text.")
           eq_refl eq_refl eq_refl eq_refl).
Defined.

(** ** Reading a written file back *)

Section ReadBackFacts.











End ReadBackFacts.




(** ** The WordPress client *)

(** X9. The post [create_post] builds: with a meta description, the
    excerpt is that description and the three SEO fields all carry it;
    without one, there is no custom field and the excerpt is the content
    itself when it has at most 200 characters, and otherwise its first 200
    characters and an ellipsis, 203 characters in all. *)
Theorem build_post_excerpt (post_title content status meta_description : string) :
  (meta_description <> "" ->
   post_excerpt (build_post post_title content status meta_description)
   = meta_description
   /\ map snd (post_custom_fields
                 (build_post post_title content status meta_description))
      = [meta_description; meta_description; meta_description])
  /\ (meta_description = "" ->
      post_custom_fields (build_post post_title content status meta_description) = []
      /\ String.length
           (post_excerpt (build_post post_title content status meta_description))
         <= 203
      /\ startswith (take 200 content)
           (post_excerpt (build_post post_title content status meta_description))
         = true
      /\ (String.length content <= 200 ->
          post_excerpt (build_post post_title content status meta_description)
          = content)
      /\ (200 < String.length content ->
          String.length
            (post_excerpt (build_post post_title content status meta_description))
          = 203)).
Proof.
  unfold build_post. cbn [post_excerpt post_custom_fields]. split.
  - intros H. apply String.eqb_neq in H. unfold truthy. rewrite H. now split.
  - intros ->. cbn [truthy String.eqb negb].
    split; [reflexivity|].
    destruct (Nat.ltb_spec 200 (String.length content)) as [L|L].
    + assert (T : String.length (take 200 content) = 200).
      { pose proof (take_drop 200 content) as E.
        apply (f_equal String.length) in E. rewrite length_app_s in E.
        rewrite drop_length in E. lia. }
      repeat split.
      * rewrite length_app_s, T. cbn. lia.
      * apply startswith_app.
      * intros; lia.
      * intros _. rewrite length_app_s, T. reflexivity.
    + repeat split.
      * lia.
      * rewrite (take_all 200 content L).
        rewrite <- (app_empty_r content) at 2. apply startswith_app.
      * intros; lia.
Qed.

Lemma build_post_excerpt_witness :
  post_excerpt (build_post "T" "<p>short</p>" "draft" "") = "<p>short</p>".
Proof.
  apply (proj2 (build_post_excerpt "T" "<p>short</p>" "draft" "") eq_refl).
  cbn. lia.
Defined.

(** X10. [test_connection] never raises. It answers true exactly when the
    client object exists and the read of one post succeeded; it issues at
    most that one read and never creates a post or writes a file. *)
Theorem test_connection_outcome (env : Collaborators) (c : WordPressClient)
        (w : World) :
  exists b evs,
    test_connection env c w = (inr b, (w ++ evs)%list)
    /\ (b = true <->
        client c <> None /\ exists u, xmlrpc_get_posts env 1 w = inr u)
    /\ (client c = None -> evs = [])
    /\ (client c <> None ->
        exists r, xmlrpc_get_posts env 1 w = r
                  /\ hd_error evs = Some (EvGetPosts 1 r))
    /\ (b = true -> probe_failures evs = 0)
    /\ (b = false -> client c <> None -> probe_failures evs = 1)
    /\ new_post_calls evs = [] /\ files_written evs = [].
Proof.
  unfold test_connection, bind, perform, print, ret.
  destruct (client c) as [k|].
  - destruct (xmlrpc_get_posts env 1 w) as [e|u] eqn:P.
    + exists false, [EvGetPosts 1 (inl e); EvPrint (PlainConnectionTestFailed e)].
      rewrite <- app_assoc. split; [reflexivity|].
      repeat split; try discriminate; try reflexivity.
      * intros (_ & u & [=]).
      * now exists (inl e).
    + exists true, [EvGetPosts 1 (inr u)]. split; [reflexivity|].
      repeat split; try discriminate; try reflexivity.
      * now exists u.
      * now exists (inr u).
  - exists false, []. rewrite app_nil_r. split; [reflexivity|].
    repeat split; try discriminate; try reflexivity.
    + now intros ([] & _).
    + now intros [].
    + now intros _ [].
Qed.

(** X11. Constructing the WordPress client first loads the [.env]
    file; when that raises, the error leaves the constructor as it is, and
    no credential is read and no connection attempted. Otherwise the
    constructor reads the three credentials: when one of them is unset or
    empty it raises without attempting a connection, otherwise it attempts
    exactly one, and every failure from there on carries the prefix of
    [_create_client]. A client that is returned always holds a connection
    object. *)
Theorem wordpress_client_new_outcome (env : Collaborators) (w : World) :
  exists r evs,
    WordPressClient_new env w = (r, (w ++ evs)%list)
    /\ (forall e, load_dotenv env w = Some e ->
          r = inl e /\ evs = [EvLoadDotenv (Some e)])
    /\ (load_dotenv env w = None ->
        (0 < missing_env evs ->
         client_attempts evs = 0
         /\ r = inl "Failed to create WordPress client: Missing WordPress credentials in .env file")
        /\ (missing_env evs = 0 -> client_attempts evs = 1)
        /\ (forall e, r = inl e ->
              startswith "Failed to create WordPress client: " e = true))
    /\ (forall c, r = inr c ->
          client c <> None
          /\ env_truthy (wp_url c) = true
          /\ env_truthy (wp_username c) = true
          /\ env_truthy (wp_password c) = true)
    /\ new_post_calls evs = [] /\ probe_failures evs = 0.
Proof.
  unfold WordPressClient_new, try_catch, bind, perform, of_failure, raise, ret.
  destruct (load_dotenv env w) as [e0|] eqn:D.
  { eexists _, _. split; [reflexivity|].
    split; [intros e [= <-]; now split|]. split; [discriminate|].
    split; [intros ? [=]|]. now split. }
  set (w0 := (w ++ [EvLoadDotenv None])%list).
  set (url := os_getenv env "WORDPRESS_URL" w0).
  set (w1 := (w0 ++ [EvGetenv "WORDPRESS_URL" url])%list).
  set (username := os_getenv env "WORDPRESS_USERNAME" w1).
  set (w2 := (w1 ++ [EvGetenv "WORDPRESS_USERNAME" username])%list).
  set (password := os_getenv env "WORDPRESS_PASSWORD" w2).
  set (w3 := (w2 ++ [EvGetenv "WORDPRESS_PASSWORD" password])%list).
  assert (E3 : forall tail, (w3 ++ tail)%list
                = (w ++ [EvLoadDotenv None;
                         EvGetenv "WORDPRESS_URL" url;
                         EvGetenv "WORDPRESS_USERNAME" username;
                         EvGetenv "WORDPRESS_PASSWORD" password] ++ tail)%list).
  { intros tail. unfold w3, w2, w1, w0. now rewrite <- !app_assoc. }
  destruct (env_truthy url && env_truthy username && env_truthy password) eqn:T.
  - apply andb_true_iff in T as [T P]. apply andb_true_iff in T as [U N].
    destruct (xmlrpc_client env _ _ _ w3) as [e|].
    + eexists _, _. rewrite E3. split; [reflexivity|].
      cbn [app missing_env client_attempts new_post_calls probe_failures].
      rewrite U, N, P. split; [discriminate|].
      repeat split; intros; try lia; try discriminate.
      match goal with H : inl _ = inl _ |- _ => injection H as <- end.
      reflexivity.
    + eexists _, _. rewrite E3. split; [reflexivity|].
      cbn [app missing_env client_attempts new_post_calls probe_failures].
      rewrite U, N, P. split; [discriminate|].
      repeat split; intros; try lia; try discriminate;
        match goal with H : inr _ = inr _ |- _ => injection H as <- end;
        cbn; congruence.
  - eexists _, _. rewrite <- (app_nil_r w3), E3. split; [reflexivity|].
    cbn [app missing_env client_attempts new_post_calls probe_failures].
    split; [discriminate|].
    repeat split; intros; try lia; try discriminate; try reflexivity.
    + exfalso. destruct (env_truthy url), (env_truthy username),
        (env_truthy password); cbn in *; try discriminate; lia.
    + match goal with H : inl _ = inl _ |- _ => injection H as <- end.
      reflexivity.
Qed.

Lemma wordpress_client_new_outcome_witness :
  exists evs,
    WordPressClient_new MoreScenarios.env_dotenv_unreadable []
    = (inl "permission denied", evs).
Proof.
  destruct (wordpress_client_new_outcome MoreScenarios.env_dotenv_unreadable [])
    as (r & evs & E & D & _).
  destruct (D "permission denied" eq_refl) as (Hr & _).
  exists ([] ++ evs)%list. subst r. exact E.
Defined.

(** ** The publisher *)

(** X12. With publishing on and a connected client, [_publish_to_wordpress]
    never raises and issues exactly one remote creation call. The post it
    sends has the title of the topic, the status of the engine and the
    HTML of the body: the output of the markdown library, trimmed, computed
    on the body without its front matter, or, when the library raises, the
    fallback conversion of the same text. The result is the identifier the
    remote call returned; when that call raised, an error with the prefix
    of [create_post] is printed and the result is [None]. *)
Theorem publish_to_wordpress_outcome
        (env : Collaborators) (self : BlogEngine) (c : WordPressClient)
        (k : Client) (topic_data : TopicRecord)
        (content meta_description : string) (w : World) :
  wordpress_enabled self = true ->
  wp_client self = Some c ->
  client c = Some k ->
  exists html m answer,
    html = match markdown_markdown env (strip_frontmatter content) with
           | inr h => strip h
           | inl _ => _simple_markdown_to_html (strip_frontmatter content)
           end
    /\ _publish_to_wordpress env self topic_data content meta_description w
       = (inr (match answer with inr post_id => Some post_id | inl _ => None end),
          (w ++ [EvPrint m;
                 EvNewPost (build_post (title topic_data) html (wp_status self)
                                       meta_description) answer]
             ++ match answer with
                | inl e => [EvPrint (ErrPublishingError
                                       ("Failed to create WordPress post: " ++ e)%string)]
                | inr _ => []
                end)%list)
    /\ answer = xmlrpc_new_post env
                  (build_post (title topic_data) html (wp_status self)
                              meta_description)
                  (w ++ [EvPrint m])%list.
Proof.
  intros En Hc Hk. unfold _publish_to_wordpress. rewrite En, Hc.
  unfold try_catch, bind, _markdown_to_html.
  destruct (markdown_markdown env (strip_frontmatter content)) as [e|h];
    unfold bind, print, ret; rewrite create_post_run, Hk; cbv zeta;
    destruct (xmlrpc_new_post env _ _) as [e'|post_id] eqn:A;
    [eexists _, _, (inl e') | eexists _, _, (inr post_id)
    |eexists _, _, (inl e') | eexists _, _, (inr post_id)];
    (split; [reflexivity|]);
    (split; [rewrite <- ?app_assoc; reflexivity | symmetry; exact A]).
Qed.

Lemma publish_to_wordpress_outcome_witness :
  exists r evs,
    _publish_to_wordpress Scenarios.env_publish_fails
      Scenarios.engine_publishing Scenarios.topic1 "# T" "m" []
    = (inr r, evs).
Proof.
  destruct (publish_to_wordpress_outcome Scenarios.env_publish_fails
              Scenarios.engine_publishing Scenarios.a_client
              (mkClient "value" "value" "value") Scenarios.topic1 "# T" "m" []
              eq_refl eq_refl eq_refl)
    as (html & m & answer & _ & E & _).
  eexists _, _. exact E.
Defined.

(** ** Construction of the engine *)

Section ConstructionFacts.
Variable env : Collaborators.

Lemma init_sheets_client_steps (w : World) :
  exists r evs,
    _init_sheets_client env w = (r, (w ++ evs)%list)
    /\ no_wordpress evs = true
    /\ setup_only evs = true
    /\ forall e, r = inl e ->
         startswith "Failed to initialize Google Sheets: " e = true.
Proof.
  unfold _init_sheets_client, try_catch, bind, perform, print, of_failure,
    raise, ret.
  destruct (sheets_authorize env w); eexists _, _; rewrite <- ?app_assoc;
    (split; [reflexivity|]); (split; [reflexivity|]);
    (split; [reflexivity|]); intros e' [=]; subst; reflexivity.
Qed.

Lemma init_ai_client_steps (w : World) :
  exists r evs,
    _init_ai_client env w = (r, (w ++ evs)%list)
    /\ no_wordpress evs = true
    /\ setup_only evs = true
    /\ (forall e, r = inl e ->
          startswith "Failed to initialize AI client: " e = true)
    /\ (0 < missing_env evs ->
        ai_client_attempts evs = 0
        /\ r = inl "Failed to initialize AI client: OPENROUTER_API_KEY not found in environment. Please set it in your .env file.")
    /\ (missing_env evs = 0 -> ai_client_attempts evs = 1).
Proof.
  unfold _init_ai_client, try_catch, bind, perform, print, of_failure,
    raise, ret.
  set (api_key := os_getenv env "OPENROUTER_API_KEY" w).
  destruct (env_truthy api_key) eqn:K.
  - destruct (openai_client env _ _); eexists _, _; rewrite <- ?app_assoc;
      (split; [reflexivity|]); (split; [reflexivity|]);
      (split; [reflexivity|]);
      cbn [app missing_env ai_client_attempts]; rewrite K;
      repeat split; intros; try lia; try discriminate;
      match goal with H : inl _ = inl _ |- _ => injection H as <- end;
      reflexivity.
  - eexists _, _. split; [reflexivity|]. split; [reflexivity|].
    split; [reflexivity|].
    cbn [app missing_env ai_client_attempts]. rewrite K.
    repeat split; intros; try lia; try discriminate; try reflexivity.
    match goal with H : inl _ = inl _ |- _ => injection H as <- end.
    reflexivity.
Qed.

Lemma init_wordpress_client_steps (self : BlogEngine) (w : World) :
  exists self' evs,
    _init_wordpress_client env self w = (inr self', (w ++ evs)%list)
    /\ output_dir self' = output_dir self
    /\ ai_model self' = ai_model self
    /\ wp_status self' = wp_status self
    /\ sheet_data self' = sheet_data self
    /\ setup_only evs = true
    /\ (wordpress_enabled self' = true ->
        wordpress_enabled self = true
        /\ probe_failures evs = 0
        /\ exists c k, wp_client self' = Some c /\ client c = Some k).
Proof.
  unfold _init_wordpress_client, WordPressClient_new, test_connection,
    try_catch, bind, perform, print, of_failure, raise, ret.
  destruct (load_dotenv env w).
  { eexists _, _; rewrite <- ?app_assoc.
    split; [reflexivity|]. repeat split; intros; discriminate. }
  destruct (env_truthy (os_getenv env "WORDPRESS_URL" _)
            && env_truthy (os_getenv env "WORDPRESS_USERNAME" _)
            && env_truthy (os_getenv env "WORDPRESS_PASSWORD" _)).
  - destruct (xmlrpc_client env _ _ _ _).
    + eexists _, _; rewrite <- ?app_assoc.
      split; [reflexivity|]. repeat split; intros; discriminate.
    + cbn [client]. destruct (xmlrpc_get_posts env 1 _) as [e|u] eqn:P.
      * eexists _, _; rewrite <- ?app_assoc.
        split; [reflexivity|]. repeat split; intros; discriminate.
      * eexists _, _; rewrite <- ?app_assoc.
        split; [reflexivity|]. repeat split; try assumption.
        eexists _, _. split; reflexivity.
  - eexists _, _; rewrite <- ?app_assoc.
    split; [reflexivity|]. repeat split; intros; discriminate.
Qed.

Lemma load_sheet_data_steps (self : BlogEngine) (w : World) :
  exists r evs,
    _load_sheet_data env self w = (r, (w ++ evs)%list)
    /\ no_wordpress evs = true
    /\ setup_only evs = true
    /\ (forall e, r = inl e -> startswith "Failed to load sheet data: " e = true)
    /\ forall self', r = inr self' ->
         wordpress_enabled self' = wordpress_enabled self
         /\ output_dir self' = output_dir self
         /\ ai_model self' = ai_model self
         /\ wp_status self' = wp_status self
         /\ wp_client self' = wp_client self
         /\ exists rows,
              sheet_data self' = rows_to_topics 1 rows
              /\ In (EvWorksheetGet "A2:C" (inr rows)) evs.
Proof.
  unfold _load_sheet_data, try_catch, bind, perform, print, of_sum, raise, ret.
  destruct (worksheet_get env "A1:C1" w) as [e|[|headers h]].
  - eexists _, _; split; [reflexivity|]. split; [reflexivity|].
    split; [reflexivity|].
    split; [intros e' [= <-]; reflexivity | intros ? [=]].
  - eexists _, _; split; [reflexivity|]. split; [reflexivity|].
    split; [reflexivity|].
    split; [intros e' [= <-]; reflexivity | intros ? [=]].
  - destruct (worksheet_get env "A2:C" _) as [e|all_data].
    + eexists _, _; rewrite <- ?app_assoc. split; [reflexivity|].
      split; [reflexivity|]. split; [reflexivity|].
      split; [intros e' [= <-]; reflexivity | intros ? [=]].
    + eexists _, _; rewrite <- ?app_assoc. split; [reflexivity|].
      split; [reflexivity|]. split; [reflexivity|]. split; [intros ? [=]|].
      intros self' [= <-]. repeat split.
      exists all_data. split; [reflexivity|]. cbn. auto.
Qed.

End ConstructionFacts.

Section ConstructorFacts.
Variable env : Collaborators.

Lemma no_wordpress_app (a b : list Event) :
  no_wordpress (a ++ b)%list = no_wordpress a && no_wordpress b.
Proof. apply forallb_app. Qed.

Lemma no_wordpress_counts (evs : list Event) :
  no_wordpress evs = true ->
  probe_failures evs = 0 /\ client_attempts evs = 0 /\ new_post_calls evs = [].
Proof.
  induction evs as [|e evs IH]; [now repeat split|].
  unfold no_wordpress. cbn [forallb]. intros H.
  apply andb_true_iff in H as [He Hs]. destruct e; try discriminate;
    cbn; now apply IH.
Qed.

Lemma setup_only_app (a b : list Event) :
  setup_only (a ++ b)%list = setup_only a && setup_only b.
Proof. apply forallb_app. Qed.

Lemma setup_only_counts (evs : list Event) :
  setup_only evs = true ->
  files_written evs = [] /\ completion_calls evs = []
  /\ new_post_calls evs = [] /\ posts_created evs = [].
Proof.
  induction evs as [|e evs IH]; [now repeat split|].
  unfold setup_only. cbn [forallb]. intros H.
  apply andb_true_iff in H as [He Hs]. destruct e; try discriminate;
    cbn; now apply IH.
Qed.

(** The constructor, whichever way it ends. *)
Lemma blog_engine_new_spec (out model status : string) (wp : bool) (w : World) :
  exists r evs,
    BlogEngine_new env out model wp status w = (r, (w ++ evs)%list)
    /\ setup_only evs = true
    /\ (wp = false -> no_wordpress evs = true)
    /\ (forall e, r = inl e ->
          (path_mkdir env out w = Some e /\ evs = [EvMkdir out (Some e)])
          \/ startswith "Failed to initialize Google Sheets: " e = true
          \/ startswith "Failed to initialize AI client: " e = true
          \/ startswith "Failed to load sheet data: " e = true)
    /\ (forall self, r = inr self ->
          output_dir self = out /\ ai_model self = model
          /\ wp_status self = status
          /\ (exists rows,
                 sheet_data self = rows_to_topics 1 rows
                 /\ In (EvWorksheetGet "A2:C" (inr rows)) evs)
          /\ (wordpress_enabled self = true ->
              wp = true /\ probe_failures evs = 0
              /\ exists c k, wp_client self = Some c /\ client c = Some k)
          /\ (wp = false ->
              wordpress_enabled self = false /\ wp_client self = None)).
Proof.
  unfold BlogEngine_new, bind, perform, of_failure, raise, ret.
  destruct (path_mkdir env out w) as [e0|] eqn:Mk.
  { exists (inl e0), [EvMkdir out (Some e0)]. split; [reflexivity|].
    split; [reflexivity|]. split; [reflexivity|]. split; [|intros ? [=]].
    intros e [= <-]. left. now split. }
  destruct (init_sheets_client_steps env (w ++ [EvMkdir out None])%list)
    as (r1 & e1 & -> & N1 & U1 & F1).
  destruct r1 as [x|[]].
  { eexists _, _. rewrite <- app_assoc. split; [reflexivity|].
    split; [now rewrite setup_only_app, U1|].
    split; [intros _; now rewrite no_wordpress_app, N1|].
    split; [|intros ? [=]]. intros e [= <-]. right; left. now apply F1. }
  destruct (init_ai_client_steps env ((w ++ [EvMkdir out None]) ++ e1)%list)
    as (r2 & e2 & -> & N2 & U2 & F2 & _).
  destruct r2 as [x|[]].
  { eexists _, _. rewrite <- !app_assoc. split; [reflexivity|].
    split; [now rewrite !setup_only_app, U1, U2|].
    split; [intros _; now rewrite !no_wordpress_app, N1, N2|].
    split; [|intros ? [=]]. intros e [= <-]. right; right; left.
    now apply F2. }
  destruct wp.
  - destruct (init_wordpress_client_steps env
                (mkEngine out model true status [] None)
                (((w ++ [EvMkdir out None]) ++ e1) ++ e2)%list)
      as (s3 & e3 & -> & O3 & A3 & S3 & D3 & U3 & P3).
    destruct (load_sheet_data_steps env s3
                ((((w ++ [EvMkdir out None]) ++ e1) ++ e2) ++ e3)%list)
      as (r4 & e4 & -> & N4 & U4 & F4 & K4).
    exists r4, ([EvMkdir out None] ++ e1 ++ e2 ++ e3 ++ e4)%list.
    rewrite <- !app_assoc. split; [reflexivity|].
    split; [now rewrite !setup_only_app, U1, U2, U3, U4|].
    split; [discriminate|]. split.
    { intros e ->. right; right; right. now apply F4. }
    intros self ->.
    destruct (K4 self eq_refl) as (K1 & K2 & K3 & K5 & K6 & rows & R1 & R2).
    split; [now rewrite K2, O3|]. split; [now rewrite K3, A3|].
    split; [now rewrite K5, S3|]. split.
    { exists rows. split; [exact R1|]. cbn [app]. right.
      apply in_or_app; right. apply in_or_app; right.
      apply in_or_app; now right. }
    split; [|discriminate]. rewrite K1, K6. intros En.
    destruct (P3 En) as (_ & P & c & k & C1 & C2).
    split; [reflexivity|]. split; [|now exists c, k].
    destruct (no_wordpress_counts _ N1) as (Q1 & _).
    destruct (no_wordpress_counts _ N2) as (Q2 & _).
    destruct (no_wordpress_counts _ N4) as (Q4 & _).
    cbn [app probe_failures]. autorewrite with trace. lia.
  - destruct (load_sheet_data_steps env
                (mkEngine out model false status [] None)
                (((w ++ [EvMkdir out None]) ++ e1) ++ e2)%list)
      as (r4 & e4 & -> & N4 & U4 & F4 & K4).
    exists r4, ([EvMkdir out None] ++ e1 ++ e2 ++ e4)%list.
    rewrite <- !app_assoc. split; [reflexivity|].
    split; [now rewrite !setup_only_app, U1, U2, U4|].
    split; [intros _; now rewrite !no_wordpress_app, N1, N2, N4|].
    split.
    { intros e ->. right; right; right. now apply F4. }
    intros self ->.
    destruct (K4 self eq_refl) as (K1 & K2 & K3 & K5 & K6 & rows & R1 & R2).
    split; [exact K2|]. split; [exact K3|]. split; [exact K5|]. split.
    { exists rows. split; [exact R1|]. cbn [app]. right.
      apply in_or_app; right. apply in_or_app; now right. }
    rewrite K1, K6. split; [discriminate|]. intros _. now split.
Qed.

End ConstructorFacts.

(** X13. When the constructor of the engine raises, the error is either
    the one the creation of the output directory raised, unchanged and
    before anything else was attempted, or it starts with one of the three
    prefixes of the Google Sheets, AI client and sheet loading stages.
    No failure of the WordPress stage makes the constructor raise. *)
Theorem constructor_failure_kinds
        (env : Collaborators) (out model status : string) (wp : bool)
        (w w' : World) (e : exn) :
  BlogEngine_new env out model wp status w = (inl e, w') ->
  (path_mkdir env out w = Some e /\ w' = (w ++ [EvMkdir out (Some e)])%list)
  \/ startswith "Failed to initialize Google Sheets: " e = true
  \/ startswith "Failed to initialize AI client: " e = true
  \/ startswith "Failed to load sheet data: " e = true.
Proof.
  intros H.
  destruct (blog_engine_new_spec env out model status wp w)
    as (r & evs & E & _ & _ & F & _).
  rewrite E in H. injection H as -> <-.
  destruct (F e eq_refl) as [[A ->]|B]; [left; now split | now right].
Qed.

Lemma constructor_failure_kinds_witness :
  startswith "Failed to load sheet data: "
             "Failed to load sheet data: permission denied" = true.
Proof.
  destruct (constructor_failure_kinds
              MoreScenarios.env_sheet_unreadable "blog_posts" "m" "draft" true []
              (snd (BlogEngine_new MoreScenarios.env_sheet_unreadable
                                   "blog_posts" "m" true "draft" []))
              "Failed to load sheet data: permission denied")
    as [[A _]|[A|[A|A]]].
  - vm_compute. reflexivity.
  - discriminate A.
  - discriminate A.
  - discriminate A.
  - exact A.
Defined.

(** X14. An engine the constructor returns has the output directory, the
    model and the post status it was given; its topics are the rows the
    sheet answered for the range A2:C, numbered from 1. Publishing is on
    in it only if it was asked for, no probe of the site raised and the
    engine holds a connected client; if publishing was not asked for, it
    is off, the engine holds no client, and the constructor read no
    WordPress credential and made no call to the site. *)
Theorem constructor_success_invariants
        (env : Collaborators) (out model status : string) (wp : bool)
        (w w' : World) (self : BlogEngine) :
  BlogEngine_new env out model wp status w = (inr self, w') ->
  exists evs,
    w' = (w ++ evs)%list
    /\ output_dir self = out /\ ai_model self = model /\ wp_status self = status
    /\ (exists rows,
           sheet_data self = rows_to_topics 1 rows
           /\ In (EvWorksheetGet "A2:C" (inr rows)) evs)
    /\ (wordpress_enabled self = true ->
        wp = true /\ probe_failures evs = 0
        /\ exists c k, wp_client self = Some c /\ client c = Some k)
    /\ (wp = false ->
        wordpress_enabled self = false /\ wp_client self = None
        /\ no_wordpress evs = true).
Proof.
  intros H.
  destruct (blog_engine_new_spec env out model status wp w)
    as (r & evs & E & _ & N & _ & S).
  rewrite E in H. injection H as -> <-.
  destruct (S self eq_refl) as (S1 & S2 & S3 & S4 & S5 & S6).
  exists evs. repeat split; try assumption.
  - now apply S5.
  - now apply S5.
  - now apply S5.
  - now apply S6.
  - now apply S6.
  - now apply N.
Qed.

Lemma constructor_success_invariants_witness :
  exists evs,
    probe_failures evs = 0
    /\ exists rows,
         sheet_data Scenarios.engine_publishing = rows_to_topics 1 rows
         /\ In (EvWorksheetGet "A2:C" (inr rows)) evs.
Proof.
  destruct (constructor_success_invariants
              Scenarios.env_ok "blog_posts" "openai/gpt-4o-mini" "draft" true []
              (snd (BlogEngine_new Scenarios.env_ok "blog_posts"
                                   "openai/gpt-4o-mini" true "draft" []))
              Scenarios.engine_publishing)
    as (evs & _ & _ & _ & _ & R & P & _).
  - vm_compute. reflexivity.
  - exists evs. destruct (P eq_refl) as (_ & Q & _).
    split; [exact Q | exact R].
Defined.

(** ** Looking a row up *)

Section LookupFacts.

Lemma find_row_from (k i : Z) (rows : list (list string)) :
  find_row i (rows_to_topics k rows)
  = if (i <? k)%Z then None
    else match nth_error rows (Z.to_nat (i - k)) with
         | Some row =>
             if (3 <=? List.length row)%nat
             then Some (mkTopic (RowInt i) (nth 0 row "") (nth 1 row "")
                                (nth 2 row ""))
             else None
         | None => None
         end.
Proof.
  revert k. induction rows as [|row rest IH]; intros k.
  - cbn [rows_to_topics find_row]. destruct (i <? k)%Z; [reflexivity|].
    now destruct (Z.to_nat (i - k)).
  - cbn [rows_to_topics].
    assert (Hrest : find_row i
                      (if (3 <=? List.length row)%nat
                       then mkTopic (RowInt k) (nth 0 row "") (nth 1 row "")
                                    (nth 2 row "")
                            :: rows_to_topics (k + 1) rest
                       else rows_to_topics (k + 1) rest)
                    = if (k =? i)%Z
                      then (if (3 <=? List.length row)%nat
                            then Some (mkTopic (RowInt k) (nth 0 row "")
                                               (nth 1 row "") (nth 2 row ""))
                            else find_row i (rows_to_topics (k + 1) rest))
                      else find_row i (rows_to_topics (k + 1) rest)).
    { destruct (3 <=? List.length row)%nat; cbn [find_row row_number];
        now destruct (k =? i)%Z. }
    rewrite Hrest, IH. clear Hrest IH.
    destruct (Z.eqb_spec k i) as [->|Hne].
    + rewrite Z.ltb_irrefl, Z.sub_diag. cbn [Z.to_nat nth_error].
      destruct (3 <=? List.length row)%nat; [reflexivity|].
      now replace (i <? i + 1)%Z with true by lia.
    + destruct (Z.ltb_spec i k) as [Hlt|Hge].
      * now replace (i <? k + 1)%Z with true by lia.
      * replace (i <? k + 1)%Z with false by lia.
        replace (Z.to_nat (i - k)) with (S (Z.to_nat (i - (k + 1)))) by lia.
        reflexivity.
Qed.

End LookupFacts.

(** X15. In the topics loaded from the sheet, the row number [i] finds
    the [i]-th data row of the sheet, counted from 1, short rows counted
    too: a topic is found exactly when that row exists and has at least
    three cells, and it then holds the first three cells of that very row.
    A number below 1, a number beyond the last row and the number of a
    short row find nothing. *)
Theorem find_row_is_sheet_row (i : Z) (rows : list (list string)) :
  find_row i (rows_to_topics 1 rows)
  = if (i <? 1)%Z then None
    else match nth_error rows (Z.to_nat (i - 1)) with
         | Some row =>
             if (3 <=? List.length row)%nat
             then Some (mkTopic (RowInt i) (nth 0 row "") (nth 1 row "")
                                (nth 2 row ""))
             else None
         | None => None
         end.
Proof. apply find_row_from. Qed.

(** ** Runs for one topic *)

Section SingleRunFacts.
Variable env : Collaborators.
Variable self : BlogEngine.

Lemma publish_failure_not_truthy (enabled : bool) (r : option Z)
      (evs : list Event) :
  publish_segment enabled r evs ->
  0 < new_post_failures evs -> truthy_post_id r = false.
Proof.
  intros (_ & _ & _ & _ & F5 & F6 & F7 & _) H.
  pose proof (published_le_created evs) as L.
  destruct (truthy_post_id r); [lia | reflexivity].
Qed.

Lemma generate_blog_post_spec (row : Z) (w : World) :
  exists r evs,
    generate_blog_post env self row w = (r, (w ++ evs)%list)
    /\ (find_row row (sheet_data self) = None ->
        r = inr tt /\ evs = [EvPrint (ErrRowNotFound row)])
    /\ forall topic_data,
         find_row row (sheet_data self) = Some topic_data ->
         pipeline_outcome self topic_data r evs.
Proof.
  unfold generate_blog_post, pipeline_outcome.
  destruct (find_row row (sheet_data self)) as [topic_data|].
  2:{ eexists _, _. split; [reflexivity|]. split; [now split | discriminate]. }
  unfold bind, print. rewrite generate_ai_content_run.
  destruct (chat_completions_create env _ _ _) as [e|raw] eqn:G.
  { eexists _, _. rewrite <- !app_assoc. split; [reflexivity|].
    split; [discriminate|]. intros t [= <-].
    cbn. repeat split; try lia; try discriminate.
    intros e' [= <-]. left. now split. }
  destruct (_extract_meta_description (strip raw)) as [meta blog].
  rewrite save_blog_post_run. cbv zeta.
  destruct (file_write env _ _ _ _) as [e|] eqn:Wr.
  { eexists _, _. rewrite <- !app_assoc. split; [reflexivity|].
    split; [discriminate|]. intros t [= <-].
    cbn. repeat split; try lia; try discriminate.
    intros e' [= <-]. right. now split. }
  unfold ret. destruct (wordpress_enabled self) eqn:En.
  2:{ eexists _, _. rewrite <- !app_assoc. split; [reflexivity|].
      split; [discriminate|]. intros t [= <-].
      cbn. repeat split; try lia; discriminate. }
  match goal with
  | |- context [_publish_to_wordpress env self ?t ?c ?m ?w'] =>
      destruct (publish_to_wordpress_spec env self t c m w') as (r & pevs & E & F)
  end.
  rewrite E. rewrite En in F.
  pose proof (publish_failure_not_truthy _ _ _ F) as T.
  destruct F as (F1 & F2 & F3 & F4 & F5 & F6 & F7 & F8 & F9).
  destruct (truthy_post_id r) eqn:Tr.
  - eexists _, _. rewrite <- !app_assoc. split; [reflexivity|].
    split; [discriminate|]. intros t [= <-].
    autorewrite with trace. rewrite ?F1, ?F2, ?F3, ?F4. cbn.
    repeat split; try lia; try discriminate;
      intros H; exfalso; rewrite ?Nat.add_0_r in H; specialize (T H);
      discriminate.
  - eexists _, _. rewrite <- !app_assoc. split; [reflexivity|].
    split; [discriminate|]. intros t [= <-].
    autorewrite with trace. rewrite ?F1, ?F2, ?F3, ?F4. cbn.
    repeat split; try lia; try discriminate;
      repeat (match goal with |- _ \/ _ => right end);
      apply in_or_app; right; cbn; auto.
Qed.

Lemma generate_custom_blog_post_spec (topic : string) (w : World) :
  exists r evs,
    generate_custom_blog_post env self topic w = (r, (w ++ evs)%list)
    /\ pipeline_outcome self (mkTopic RowCustom topic "" topic) r evs.
Proof.
  unfold generate_custom_blog_post, pipeline_outcome.
  unfold bind, print. rewrite generate_ai_content_run.
  destruct (chat_completions_create env _ _ _) as [e|raw] eqn:G.
  { eexists _, _. rewrite <- !app_assoc. split; [reflexivity|].
    cbn. repeat split; try lia; try discriminate.
    intros e' [= <-]. left. now split. }
  destruct (_extract_meta_description (strip raw)) as [meta blog].
  rewrite save_blog_post_run. cbv zeta.
  destruct (file_write env _ _ _ _) as [e|] eqn:Wr.
  { eexists _, _. rewrite <- !app_assoc. split; [reflexivity|].
    cbn. repeat split; try lia; try discriminate.
    intros e' [= <-]. right. now split. }
  unfold ret. destruct (wordpress_enabled self) eqn:En.
  2:{ eexists _, _. rewrite <- !app_assoc. split; [reflexivity|].
      cbn. repeat split; try lia; discriminate. }
  match goal with
  | |- context [_publish_to_wordpress env self ?t ?c ?m ?w'] =>
      destruct (publish_to_wordpress_spec env self t c m w') as (r & pevs & E & F)
  end.
  rewrite E. rewrite En in F.
  pose proof (publish_failure_not_truthy _ _ _ F) as T.
  destruct F as (F1 & F2 & F3 & F4 & F5 & F6 & F7 & F8 & F9).
  destruct (truthy_post_id r) eqn:Tr.
  - eexists _, _. rewrite <- !app_assoc. split; [reflexivity|].
    autorewrite with trace. rewrite ?F1, ?F2, ?F3, ?F4. cbn.
    repeat split; try lia; try discriminate;
      intros H; exfalso; rewrite ?Nat.add_0_r in H; specialize (T H);
      discriminate.
  - eexists _, _. rewrite <- !app_assoc. split; [reflexivity|].
    autorewrite with trace. rewrite ?F1, ?F2, ?F3, ?F4. cbn.
    repeat split; try lia; try discriminate;
      repeat (match goal with |- _ \/ _ => right end);
      apply in_or_app; right; cbn; auto.
Qed.

End SingleRunFacts.

(** X16. A single-topic run for a row that is not among the topics only
    prints that the row was not found, and returns. For a row that is
    found the run requests one completion, with the prompt of that topic;
    it ends in exactly one of a raised generation, a raised write and a
    written file. Unlike a batch run it raises when the generation or the
    write raised, with an error that starts with the prefix of that stage,
    and then no file exists and no remote creation call was made. A
    remote creation call that raises does not make the run raise: the
    file stays written and the publishing failure is printed. *)
Theorem single_topic_run_outcome
        (env : Collaborators) (self : BlogEngine) (row : Z) (w : World) :
  exists r evs,
    generate_blog_post env self row w = (r, (w ++ evs)%list)
    /\ (find_row row (sheet_data self) = None ->
        r = inr tt /\ evs = [EvPrint (ErrRowNotFound row)])
    /\ forall topic_data,
         find_row row (sheet_data self) = Some topic_data ->
         completion_calls evs = [prompt_of topic_data]
         /\ List.length (files_written evs) + completion_failures evs
            + write_failures evs = 1
         /\ List.length (new_post_calls evs) <= List.length (files_written evs)
         /\ (wordpress_enabled self = false -> new_post_calls evs = [])
         /\ (forall e, r = inl e ->
               (startswith "AI generation failed: " e = true
                /\ completion_failures evs = 1)
               \/ (startswith "Failed to save markdown file: " e = true
                   /\ write_failures evs = 1))
         /\ (r = inr tt -> List.length (files_written evs) = 1)
         /\ (0 < new_post_failures evs ->
             r = inr tt /\ In ErrPublishingFailed (printed evs)).
Proof. exact (generate_blog_post_spec env self row w). Qed.

(** X17. A custom run requests one completion, with the prompt of a
    topic whose title and primary keywords are the given text and whose
    auxiliary keywords are empty, and ends as a single-topic run does:
    exactly one of a raised generation, a raised write and a written
    file; it raises only in the first two cases, with the prefix of the
    stage, and a remote creation call that raises leaves the file written
    and the run returning. The topics loaded from the sheet play no part
    in it. *)
Theorem custom_run_outcome
        (env : Collaborators) (self : BlogEngine) (topic : string) (w : World) :
  (exists r evs,
      generate_custom_blog_post env self topic w = (r, (w ++ evs)%list)
      /\ completion_calls evs = [prompt_of (mkTopic RowCustom topic "" topic)]
      /\ List.length (files_written evs) + completion_failures evs
         + write_failures evs = 1
      /\ List.length (new_post_calls evs) <= List.length (files_written evs)
      /\ (wordpress_enabled self = false -> new_post_calls evs = [])
      /\ (forall e, r = inl e ->
            (startswith "AI generation failed: " e = true
             /\ completion_failures evs = 1)
            \/ (startswith "Failed to save markdown file: " e = true
                /\ write_failures evs = 1))
      /\ (r = inr tt -> List.length (files_written evs) = 1)
      /\ (0 < new_post_failures evs ->
          r = inr tt /\ In ErrPublishingFailed (printed evs)))
  /\ forall topics,
       generate_custom_blog_post env (set_sheet_data self topics) topic w
       = generate_custom_blog_post env self topic w.
Proof.
  split; [exact (generate_custom_blog_post_spec env self topic w)|].
  intros topics. destruct self. reflexivity.
Qed.

(** X18. Whichever way the constructor ends, it writes no file, requests
    no completion and makes no remote creation call; when publishing was
    not asked for, it reads no WordPress credential and makes no call to
    the site at all. *)
Theorem constructor_side_effects
        (env : Collaborators) (out model status : string) (wp : bool)
        (w : World) :
  exists r evs,
    BlogEngine_new env out model wp status w = (r, (w ++ evs)%list)
    /\ files_written evs = []
    /\ completion_calls evs = []
    /\ new_post_calls evs = []
    /\ (wp = false -> no_wordpress evs = true).
Proof.
  destruct (blog_engine_new_spec env out model status wp w)
    as (r & evs & E & U & N & _).
  destruct (setup_only_counts evs U) as (U1 & U2 & U3 & _).
  now exists r, evs.
Qed.

(** ** More on the batch run *)

Section MoreBatchFacts.
Variable env : Collaborators.
Variable self : BlogEngine.

Lemma created_le_calls (evs : list Event) :
  List.length (posts_created evs) <= List.length (new_post_calls evs).
Proof.
  induction evs as [|e evs IH]; [apply Nat.le_refl|].
  destruct e; cbn; try exact IH. destruct r; cbn; lia.
Qed.

Lemma segments_all_written (topics : list TopicRecord)
      (segs : list (list Event)) :
  Forall2 (topic_segment env self) topics segs ->
  (forall topic_data, In topic_data topics ->
                      generation_succeeds env self topic_data) ->
  writes_succeed env ->
  List.length (files_written (concat segs)) = List.length topics
  /\ completion_failures (concat segs) = 0
  /\ write_failures (concat segs) = 0.
Proof.
  intros F G W. induction F as [|topic_data seg topics segs S F IH].
  - now repeat split.
  - destruct IH as (I1 & I2 & I3); [intros t I; apply G; now right|].
    destruct S as (S1 & S2 & S3 & S4 & S5 & S6 & S7 & S8 & S9).
    specialize (S8 (G topic_data (or_introl eq_refl))). specialize (S9 W).
    cbn [concat List.length]. autorewrite with trace. lia.
Qed.

Lemma segments_none_written (topics : list TopicRecord)
      (segs : list (list Event)) :
  Forall2 (topic_segment env self) topics segs ->
  (forall topic_data, In topic_data topics ->
                      generation_raises env self topic_data) ->
  List.length (files_written (concat segs)) = 0
  /\ completion_failures (concat segs) = List.length topics.
Proof.
  intros F G. induction F as [|topic_data seg topics segs S F IH].
  - now split.
  - destruct IH as (I1 & I2); [intros t I; apply G; now right|].
    destruct S as (S1 & S2 & S3 & S4 & S5 & S6 & S7 & S8 & S9).
    specialize (S7 (G topic_data (or_introl eq_refl))).
    cbn [concat List.length]. autorewrite with trace. lia.
Qed.

(** The events of a batch run are those of its segments, as far as
    files, posts and failures go. *)
Lemma batch_events_totals (header footer : list Event)
      (segs : list (list Event)) :
  forallb is_print header = true ->
  forallb is_print footer = true ->
  let evs := (header ++ concat segs ++ footer)%list in
  files_written evs = files_written (concat segs)
  /\ new_post_calls evs = new_post_calls (concat segs)
  /\ posts_created evs = posts_created (concat segs)
  /\ completion_failures evs = completion_failures (concat segs)
  /\ write_failures evs = write_failures (concat segs).
Proof.
  intros Hh Hf evs. subst evs.
  destruct (prints_only header Hh) as (H1 & H2 & H3 & H4 & H5 & H6 & H7).
  destruct (prints_only footer Hf) as (K1 & K2 & K3 & K4 & K5 & K6 & K7).
  autorewrite with trace.
  rewrite H1, H2, H3, H5, H6, K1, K2, K3, K5, K6.
  cbn [app]. rewrite !app_nil_r, !Nat.add_0_r. now repeat split.
Qed.

End MoreBatchFacts.

(** X19. The two counters a batch run reports are ordered: no more posts
    published than files written, no more files written than topics; the
    run makes no more remote creation calls than it wrote files. With
    publishing off the publish counter is 0 and no remote creation call
    is made. *)
Theorem batch_counts_bounds
        (env : Collaborators) (self : BlogEngine) (w : World) :
  returns (generate_all_blog_posts env self) w
    (fun counts evs =>
       snd counts <= fst counts
       /\ fst counts <= List.length (sheet_data self)
       /\ List.length (new_post_calls evs) <= fst counts
       /\ (wordpress_enabled self = false ->
           snd counts = 0 /\ new_post_calls evs = [])).
Proof.
  destruct (generate_all_spec env self w)
    as (counts & evs & E & header & segs & footer & -> & Hh & Hf & F & -> & _).
  eexists _, _. split; [exact E|].
  destruct (batch_events_totals header footer segs Hh Hf)
    as (B1 & B2 & B3 & B4 & B5).
  destruct (segments_totals env self _ _ F) as (T1 & T2 & T3 & T4 & T5).
  pose proof (published_le_created (concat segs)) as L1.
  pose proof (created_le_calls (concat segs)) as L2.
  cbn [fst snd]. rewrite B2.
  split; [lia|]. split; [lia|]. split; [lia|].
  intros En. specialize (T4 En). rewrite T4 in *. cbn in L2.
  split; [lia | reflexivity].
Qed.

(** X20. When the generation of every topic succeeds and writes succeed,
    a batch run writes one file per topic and reports as many files as
    there are topics, whatever the publishing stage does. *)
Theorem batch_all_written
        (env : Collaborators) (self : BlogEngine) (w : World) :
  (forall topic_data, In topic_data (sheet_data self) ->
                      generation_succeeds env self topic_data) ->
  writes_succeed env ->
  returns (generate_all_blog_posts env self) w
    (fun counts evs =>
       fst counts = List.length (sheet_data self)
       /\ List.length (files_written evs) = List.length (sheet_data self)
       /\ completion_failures evs = 0 /\ write_failures evs = 0).
Proof.
  intros G W.
  destruct (generate_all_spec env self w)
    as (counts & evs & E & header & segs & footer & -> & Hh & Hf & F & -> & _).
  eexists _, _. split; [exact E|].
  destruct (batch_events_totals header footer segs Hh Hf)
    as (B1 & B2 & B3 & B4 & B5).
  destruct (segments_all_written env self _ _ F G W) as (A1 & A2 & A3).
  cbn [fst]. rewrite B1, B4, B5. now repeat split.
Qed.

Lemma batch_all_written_witness :
  exists counts evs,
    generate_all_blog_posts Scenarios.env_publish_fails
                            Scenarios.engine_publishing [] = (inr counts, evs)
    /\ fst counts = 3.
Proof.
  destruct (batch_all_written Scenarios.env_publish_fails
                              Scenarios.engine_publishing [])
    as (counts & evs & E & A & _).
  - intros topic_data _ w0. eexists. reflexivity.
  - intros dir name content w0. reflexivity.
  - exists counts, ([] ++ evs)%list. split; [exact E | exact A].
Defined.

(** X21. When the generation of every topic raises, a batch run still
    returns; it has asked for every topic, written no file and made no
    remote creation call, and both counters are 0. *)
Theorem batch_none_written
        (env : Collaborators) (self : BlogEngine) (w : World) :
  (forall topic_data, In topic_data (sheet_data self) ->
                      generation_raises env self topic_data) ->
  returns (generate_all_blog_posts env self) w
    (fun counts evs =>
       counts = (0, 0)
       /\ files_written evs = []
       /\ new_post_calls evs = []
       /\ completion_calls evs = map prompt_of (sheet_data self)
       /\ completion_failures evs = List.length (sheet_data self)).
Proof.
  intros G.
  destruct (generate_all_spec env self w)
    as (counts & evs & E & header & segs & footer & -> & Hh & Hf & F & -> & _).
  eexists _, _. split; [exact E|].
  destruct (batch_events_totals header footer segs Hh Hf)
    as (B1 & B2 & B3 & B4 & B5).
  destruct (segments_none_written env self _ _ F G) as (A1 & A2).
  destruct (segments_totals env self _ _ F) as (T1 & T2 & T3 & T4 & T5).
  destruct (prints_only header Hh) as (_ & _ & _ & H4 & _).
  destruct (prints_only footer Hf) as (_ & _ & _ & K4 & _).
  pose proof (published_le_created (concat segs)) as L1.
  pose proof (created_le_calls (concat segs)) as L2.
  rewrite B1, B2, B4. autorewrite with trace. rewrite H4, K4, T1, app_nil_r.
  cbn [app].
  assert (N : List.length (new_post_calls (concat segs)) = 0) by lia.
  apply length_zero_iff_nil in A1, N. rewrite A1, N in *. cbn in L1, L2.
  assert (P : List.length (posts_published (concat segs)) = 0) by lia.
  rewrite P. now repeat split.
Qed.

Lemma batch_none_written_witness :
  exists evs,
    generate_all_blog_posts MoreScenarios.env_no_completion
                            Scenarios.engine_publishing [] = (inr (0, 0), evs).
Proof.
  destruct (batch_none_written MoreScenarios.env_no_completion
                               Scenarios.engine_publishing [])
    as (counts & evs & E & A & _).
  - intros topic_data _ w0. eexists. reflexivity.
  - exists ([] ++ evs)%list. rewrite <- A. exact E.
Defined.

(** ** The command line *)

Section CliFacts.
Variable env : Collaborators.

Lemma engine_events_app (a b : History) :
  engine_events (a ++ b)%list = (engine_events a ++ engine_events b)%list.
Proof.
  induction a as [|[e|m] a IH]; cbn; [reflexivity | now rewrite IH | exact IH].
Qed.

Lemma said_app (a b : History) :
  said (a ++ b)%list = (said a ++ said b)%list.
Proof.
  induction a as [|[e|m] a IH]; cbn; [reflexivity | exact IH | now rewrite IH].
Qed.

Lemma engine_events_lines (evs : list Event) :
  engine_events (map EngineLine evs) = evs.
Proof. induction evs as [|e evs IH]; cbn; [reflexivity | now rewrite IH]. Qed.

Lemma said_engine_lines (evs : list Event) : said (map EngineLine evs) = [].
Proof. induction evs as [|e evs IH]; cbn; [reflexivity | exact IH]. Qed.

Lemma engine_events_said (ms : list CliMsg) :
  engine_events (map CliLine ms) = [].
Proof. induction ms as [|m ms IH]; cbn; [reflexivity | exact IH]. Qed.

Lemma said_cli_lines (ms : list CliMsg) : said (map CliLine ms) = ms.
Proof. induction ms as [|m ms IH]; cbn; [reflexivity | now rewrite IH]. Qed.

Lemma topic_rows_app (a b : list CliMsg) :
  topic_rows (a ++ b)%list = (topic_rows a ++ topic_rows b)%list.
Proof.
  induction a as [|m a IH]; [reflexivity|].
  destruct m; cbn; try exact IH. now rewrite IH.
Qed.

(** An engine computation that adds [evs] to the engine's history adds
    the same events to the history of the command line. *)
Lemma lift_run {A} (c : M A) (h : History) (r : exn + A) (evs : list Event) :
  c (engine_events h) = (r, (engine_events h ++ evs)%list) ->
  lift c h = (of_result r, (h ++ map EngineLine evs)%list).
Proof.
  intros E. unfold lift. rewrite E.
  rewrite skipn_app, skipn_all, Nat.sub_diag. reflexivity.
Qed.

Lemma list_loop_run (topics : list TopicRecord) (h : History) :
  list_loop topics h
  = (Done tt, (h ++ map CliLine (flat_map topic_lines topics))%list).
Proof.
  revert h. induction topics as [|item rest IH]; intros h.
  - cbn. now rewrite app_nil_r.
  - cbn [list_loop flat_map]. unfold cbind, say. rewrite IH.
    rewrite map_app, <- !app_assoc. reflexivity.
Qed.

Lemma topic_rows_lines (topics : list TopicRecord) :
  topic_rows (flat_map topic_lines topics)
  = map (fun item => (row_number item, title item)) topics.
Proof.
  induction topics as [|item rest IH]; [reflexivity|].
  cbn [flat_map map]. rewrite topic_rows_app, IH. reflexivity.
Qed.

Lemma flat_map_topic_lines_length (topics : list TopicRecord) :
  List.length (flat_map topic_lines topics) = 4 * List.length topics.
Proof.
  induction topics as [|item rest IH]; [reflexivity|].
  cbn [flat_map List.length]. rewrite length_app, IH. cbn. lia.
Qed.

Lemma list_topics_run (self : BlogEngine) (h : History) :
  exists ms,
    list_topics self h = (Done tt, (h ++ map CliLine ms)%list)
    /\ topic_rows ms = map (fun item => (row_number item, title item))
                           (sheet_data self)
    /\ (sheet_data self = [] -> ms = [InfoTopicsHeader; PlainRule80; WarnNoTopics])
    /\ (sheet_data self <> [] ->
        List.length ms = 4 + 4 * List.length (sheet_data self)
        /\ ~ In WarnNoTopics ms
        /\ In (PlainTotal (List.length (sheet_data self))) ms
        /\ last ms Help = (if wordpress_enabled self then InfoPublishingEnabled
                           else InfoMarkdownOnlyMode)).
Proof.
  unfold list_topics. destruct (sheet_data self) as [|item rest] eqn:D.
  - exists [InfoTopicsHeader; PlainRule80; WarnNoTopics].
    unfold cbind, say. rewrite <- !app_assoc.
    split; [reflexivity|]. split; [reflexivity|]. split; [reflexivity|].
    intros H. now destruct H.
  - exists ([InfoTopicsHeader; PlainRule80]
            ++ flat_map topic_lines (item :: rest)
            ++ [PlainTotal (List.length (item :: rest));
                if wordpress_enabled self then InfoPublishingEnabled
                else InfoMarkdownOnlyMode])%list.
    split.
    { unfold cbind, say. rewrite list_loop_run.
      destruct (wordpress_enabled self);
        rewrite !map_app, <- !app_assoc; reflexivity. }
    split.
    { rewrite !topic_rows_app, topic_rows_lines.
      destruct (wordpress_enabled self); cbn [topic_rows app];
        now rewrite app_nil_r. }
    split; [discriminate|]. intros _. split.
    { rewrite !length_app, flat_map_topic_lines_length. cbn. lia. }
    split.
    { intros I. apply in_app_or in I as [I|I].
      - cbn in I. destruct I as [I|[I|[]]]; discriminate.
      - apply in_app_or in I as [I|I].
        + apply in_flat_map in I as (x & _ & I). cbn in I.
          destruct I as [I|[I|[I|[I|[]]]]]; discriminate.
        + destruct (wordpress_enabled self); cbn in I;
            destruct I as [I|[I|[]]]; discriminate. }
    split.
    { apply in_or_app; right. apply in_or_app; right. now left. }
    rewrite app_assoc.
    change [PlainTotal (List.length (item :: rest));
            if wordpress_enabled self then InfoPublishingEnabled
            else InfoMarkdownOnlyMode]
      with ([PlainTotal (List.length (item :: rest))]
              ++ [if wordpress_enabled self then InfoPublishingEnabled
                  else InfoMarkdownOnlyMode])%list.
    rewrite app_assoc. apply last_last.
Qed.

Lemma run_command_spec (args : Args) (self : BlogEngine) (h : History) :
  exists out body,
    run_command env args self h = (out, (h ++ body)%list)
    /\ (args_list args = true ->
        out = Done tt
        /\ exists ms,
             body = map CliLine ms
             /\ topic_rows ms = map (fun item => (row_number item, title item))
                                    (sheet_data self))
    /\ (args_list args = false ->
        forall row, args_generate args = Some row ->
        exists r evs,
          generate_blog_post env self row (engine_events h)
          = (r, (engine_events h ++ evs)%list)
          /\ body = map EngineLine evs /\ out = of_result r)
    /\ (args_list args = false -> args_generate args = None ->
        args_generate_all args = true ->
        exists counts evs,
          generate_all_blog_posts env self (engine_events h)
          = (inr counts, (engine_events h ++ evs)%list)
          /\ body = map EngineLine evs /\ out = Done tt)
    /\ (args_list args = false -> args_generate args = None ->
        args_generate_all args = false ->
        env_truthy (args_custom args) = true ->
        exists r evs,
          generate_custom_blog_post env self (env_value (args_custom args))
                                    (engine_events h)
          = (r, (engine_events h ++ evs)%list)
          /\ body = map EngineLine evs /\ out = of_result r)
    /\ (args_list args = false -> args_generate args = None ->
        args_generate_all args = false ->
        env_truthy (args_custom args) = false ->
        out = Done tt
        /\ body = [CliLine Help; CliLine InfoTipList; CliLine InfoTipWordPress]).
Proof.
  unfold run_command. destruct (args_list args).
  { destruct (list_topics_run self h) as (ms & E & R & _).
    exists (Done tt), (map CliLine ms). split; [exact E|].
    split; [intros _; split; [reflexivity | now exists ms]|].
    repeat split; discriminate. }
  destruct (args_generate args) as [row|].
  { destruct (generate_blog_post_spec env self row (engine_events h))
      as (r & evs & E & _).
    exists (of_result r), (map EngineLine evs).
    split; [now apply lift_run|]. split; [discriminate|].
    split; [|repeat split; discriminate].
    intros _ row' [= <-]. now exists r, evs. }
  destruct (args_generate_all args).
  { destruct (generate_all_spec env self (engine_events h))
      as (counts & evs & E & _).
    exists (Done tt), (map EngineLine evs).
    split; [unfold cbind; now rewrite (lift_run _ _ _ _ E)|].
    split; [discriminate|]. split; [discriminate|].
    split; [|repeat split; discriminate].
    intros _ _ _. now exists counts, evs. }
  destruct (env_truthy (args_custom args)).
  { destruct (generate_custom_blog_post_spec env self
                (env_value (args_custom args)) (engine_events h))
      as (r & evs & E & _).
    exists (of_result r), (map EngineLine evs).
    split; [now apply lift_run|]. split; [discriminate|].
    split; [discriminate|]. split; [discriminate|].
    split; [|discriminate].
    intros _ _ _ _. now exists r, evs. }
  exists (Done tt), [CliLine Help; CliLine InfoTipList; CliLine InfoTipWordPress].
  split; [unfold cbind, say; now rewrite <- !app_assoc|].
  repeat split; discriminate.
Qed.

(** [main] up to the command: the banner, the construction of the
    engine, and the exit when the construction raised. *)
Lemma main_run (args : Args) (h : History) :
  let t := datetime_now env (engine_events h) in
  let w1 := (engine_events h ++ [EvClock t])%list in
  let opening := [EngineLine (EvClock t); CliLine (Banner (strftime_day t));
                  CliLine InfoInitializing] in
  exists r cevs,
    BlogEngine_new env (args_output_dir args) (args_model args)
                   (args_to_wordpress args) (args_wp_status args) w1
    = (r, (w1 ++ cevs)%list)
    /\ setup_only cevs = true
    /\ (forall self, r = inr self ->
          exists rows,
            sheet_data self = rows_to_topics 1 rows
            /\ In (EvWorksheetGet "A2:C" (inr rows)) cevs)
    /\ main env (Parsed args) h
       = match r with
         | inl e =>
             (SystemExit 1,
              (h ++ opening ++ map EngineLine cevs
                 ++ [CliLine (ErrInitFailed e)])%list)
         | inr self =>
             run_command env args self
               (h ++ opening ++ map EngineLine cevs ++ [CliLine OkInitialized])%list
         end.
Proof.
  cbv zeta.
  set (t := datetime_now env (engine_events h)).
  destruct (blog_engine_new_spec env (args_output_dir args) (args_model args)
              (args_wp_status args) (args_to_wordpress args)
              (engine_events h ++ [EvClock t])%list)
    as (r & cevs & E & U & _ & _ & S).
  exists r, cevs. split; [exact E|]. split; [exact U|].
  split; [intros self Hr; now destruct (S self Hr) as (_ & _ & _ & R & _)|].
  unfold main, print_banner, cbind, except_Exception.
  rewrite (lift_run (perform (datetime_now env) EvClock) h (inr t) [EvClock t]
                    eq_refl).
  cbn [of_result map parse_args]. unfold cret at 1. unfold say at 1 2.
  assert (E1 : engine_events
                 (((h ++ [EngineLine (EvClock t)])
                     ++ [CliLine (Banner (strftime_day t))])
                    ++ [CliLine InfoInitializing])%list
               = (engine_events h ++ [EvClock t])%list).
  { rewrite !engine_events_app. cbn. now rewrite !app_nil_r. }
  rewrite <- E1 in E. rewrite (lift_run _ _ _ _ E).
  destruct r as [e|self]; cbn [of_result]; unfold say, sys_exit, cret;
    rewrite <- !app_assoc; reflexivity.
Qed.

End CliFacts.

Section MainFacts.
Variable env : Collaborators.

Lemma opening_events (t : datetime) (b i x : CliMsg) (cevs : list Event)
      (body : History) :
  engine_events ([EngineLine (EvClock t); CliLine b; CliLine i]
                   ++ map EngineLine cevs ++ CliLine x :: body)%list
  = (EvClock t :: cevs ++ engine_events body)%list.
Proof.
  cbn [app engine_events]. now rewrite engine_events_app, engine_events_lines.
Qed.

Lemma opening_said (t : datetime) (b i x : CliMsg) (cevs : list Event)
      (body : History) :
  said ([EngineLine (EvClock t); CliLine b; CliLine i]
          ++ map EngineLine cevs ++ CliLine x :: body)%list
  = (b :: i :: x :: said body)%list.
Proof. cbn [app said]. now rewrite said_app, said_engine_lines. Qed.

Lemma after_setup (t : datetime) (cevs evs : list Event) :
  setup_only cevs = true ->
  files_written (EvClock t :: cevs ++ evs)%list = files_written evs
  /\ completion_calls (EvClock t :: cevs ++ evs)%list = completion_calls evs
  /\ new_post_calls (EvClock t :: cevs ++ evs)%list = new_post_calls evs.
Proof.
  intros U. destruct (setup_only_counts cevs U) as (U1 & U2 & U3 & _).
  cbn [files_written completion_calls new_post_calls].
  autorewrite with trace. now rewrite U1, U2, U3.
Qed.

(** A run that raised left no file. *)
Lemma pipeline_raised (self : BlogEngine) (topic_data : TopicRecord)
      (e : exn) (evs : list Event) :
  pipeline_outcome self topic_data (inl e) evs ->
  (startswith "AI generation failed: " e = true
   \/ startswith "Failed to save markdown file: " e = true)
  /\ files_written evs = [] /\ new_post_calls evs = [].
Proof.
  intros (P1 & P2 & P3 & P4 & P5 & _).
  assert (L : List.length (files_written evs) = 0)
    by (destruct (P5 e eq_refl) as [[_ F]|[_ F]]; lia).
  assert (N : List.length (new_post_calls evs) = 0) by lia.
  apply length_zero_iff_nil in L, N.
  split; [|now split]. destruct (P5 e eq_refl) as [[F _]|[F _]]; auto.
Qed.

(** How the command ends. *)
Lemma run_command_ends (args : Args) (self : BlogEngine) (h body : History)
      (out : Outcome unit) :
  run_command env args self h = (out, (h ++ body)%list) ->
  (forall code, out <> SystemExit code)
  /\ forall e, out = Raised e ->
       args_list args = false
       /\ (args_generate args = None -> args_generate_all args = false)
       /\ (startswith "AI generation failed: " e = true
           \/ startswith "Failed to save markdown file: " e = true)
       /\ files_written (engine_events body) = []
       /\ new_post_calls (engine_events body) = [].
Proof.
  intros H.
  destruct (run_command_spec env args self h)
    as (out' & body' & E & L & G & A & Cu & Hp).
  rewrite E in H. injection H as <- Hb. apply app_inv_head in Hb. subst body'.
  destruct (args_list args) eqn:Al.
  { destruct (L eq_refl) as (-> & _). split; [discriminate | intros ? [=]]. }
  destruct (args_generate args) as [row|] eqn:Ag.
  { destruct (G eq_refl row eq_refl) as (r & evs & E1 & -> & ->).
    destruct (generate_blog_post_spec env self row (engine_events h))
      as (r2 & evs2 & E2 & N & S).
    rewrite E2 in E1. injection E1 as -> Hb. apply app_inv_head in Hb.
    subst evs2. split; [destruct r; discriminate|].
    intros e Hr. destruct r as [e'|[]]; [|discriminate].
    injection Hr as ->. split; [reflexivity|]. split; [discriminate|].
    rewrite engine_events_lines.
    destruct (find_row row (sheet_data self)) as [topic_data|].
    - exact (pipeline_raised self topic_data _ _ (S topic_data eq_refl)).
    - destruct (N eq_refl); discriminate. }
  destruct (args_generate_all args) eqn:Aa.
  { destruct (A eq_refl eq_refl eq_refl) as (counts & evs & _ & _ & ->).
    split; [discriminate | intros ? [=]]. }
  destruct (env_truthy (args_custom args)) eqn:Ac.
  { destruct (Cu eq_refl eq_refl eq_refl eq_refl) as (r & evs & E1 & -> & ->).
    destruct (generate_custom_blog_post_spec env self
                (env_value (args_custom args)) (engine_events h))
      as (r2 & evs2 & E2 & S).
    rewrite E2 in E1. injection E1 as -> Hb. apply app_inv_head in Hb.
    subst evs2. split; [destruct r; discriminate|].
    intros e Hr. destruct r as [e'|[]]; [|discriminate].
    injection Hr as ->. split; [reflexivity|]. split; [reflexivity|].
    rewrite engine_events_lines.
    exact (pipeline_raised self _ _ _ S). }
  destruct (Hp eq_refl eq_refl eq_refl eq_refl) as (-> & _).
  split; [discriminate | intros ? [=]].
Qed.

End MainFacts.

(** X22. How the command line ends. It exits through [sys.exit] in
    three cases only: with status 0 when the parser was asked for the
    help, with status 2 when the parser refused the command line, both
    before the initialisation of the engine is announced, and with
    status 1 when the construction of the engine raised, the last thing
    said being that failure. In none of them does it say that the engine
    was initialised, write a file, request a completion or make a remote
    creation call. It ends with an uncaught exception only under a
    single-topic or a custom command (never when listing, never in a
    batch run), the exception being that of the generation or the write,
    and then no file was written. When it returns, the command line was
    parsed and the engine was initialised. *)
Theorem main_exit_status
        (env : Collaborators) (cmdline : ParseResult) (h : History) :
  exists out lines,
    main env cmdline h = (out, (h ++ lines)%list)
    /\ (forall code, out = SystemExit code ->
          ~ In OkInitialized (said lines)
          /\ files_written (engine_events lines) = []
          /\ completion_calls (engine_events lines) = []
          /\ new_post_calls (engine_events lines) = []
          /\ match cmdline with
             | HelpRequested =>
                 code = 0%Z /\ ~ In InfoInitializing (said lines)
             | UsageError =>
                 code = 2%Z /\ ~ In InfoInitializing (said lines)
             | Parsed _ =>
                 code = 1%Z
                 /\ exists e, last (said lines) Help = ErrInitFailed e
             end)
    /\ (cmdline = HelpRequested -> out = SystemExit 0)
    /\ (cmdline = UsageError -> out = SystemExit 2)
    /\ (forall e, out = Raised e ->
          exists args,
            cmdline = Parsed args
            /\ args_list args = false
            /\ (args_generate args = None -> args_generate_all args = false)
            /\ (startswith "AI generation failed: " e = true
                \/ startswith "Failed to save markdown file: " e = true)
            /\ files_written (engine_events lines) = []
            /\ new_post_calls (engine_events lines) = [])
    /\ (out = Done tt ->
        (exists args, cmdline = Parsed args) /\ In OkInitialized (said lines)).
Proof.
  destruct cmdline as [args| |].
  2:{ set (t := datetime_now env (engine_events h)).
      exists (SystemExit 0),
        [EngineLine (EvClock t); CliLine (Banner (strftime_day t)); CliLine Help].
      split.
      { unfold main, print_banner, cbind.
        rewrite (lift_run (perform (datetime_now env) EvClock) h (inr t)
                          [EvClock t] eq_refl).
        cbn [of_result map parse_args]. unfold cbind, say, sys_exit.
        rewrite <- !app_assoc. reflexivity. }
      split.
      { intros code [= <-]. cbn. repeat split; try reflexivity;
          intros [I|[I|[]]]; discriminate. }
      repeat split; try discriminate; intros; discriminate. }
  2:{ set (t := datetime_now env (engine_events h)).
      exists (SystemExit 2),
        [EngineLine (EvClock t); CliLine (Banner (strftime_day t)); CliLine Usage].
      split.
      { unfold main, print_banner, cbind.
        rewrite (lift_run (perform (datetime_now env) EvClock) h (inr t)
                          [EvClock t] eq_refl).
        cbn [of_result map parse_args]. unfold cbind, say, sys_exit.
        rewrite <- !app_assoc. reflexivity. }
      split.
      { intros code [= <-]. cbn. repeat split; try reflexivity;
          intros [I|[I|[]]]; discriminate. }
      repeat split; try discriminate; intros; discriminate. }
  destruct (main_run env args h) as (r & cevs & E & U & R & M).
  cbv zeta in M. set (t := datetime_now env (engine_events h)) in *.
  destruct r as [e|self].
  - eexists _, _. split; [exact M|].
    rewrite opening_events, opening_said. cbn [engine_events said].
    destruct (after_setup t cevs [] U) as (S1 & S2 & S3).
    split.
    { intros code [= <-].
      split; [intros [I|[I|[I|[]]]]; discriminate|].
      repeat split; try assumption. now exists e. }
    split; [discriminate|]. split; [discriminate|].
    split; [intros ? [=] | intros [=]].
  - destruct (run_command_spec env args self
                (h ++ [EngineLine (EvClock t); CliLine (Banner (strftime_day t));
                       CliLine InfoInitializing]
                   ++ map EngineLine cevs ++ [CliLine OkInitialized])%list)
      as (out & body & E2 & _).
    destruct (run_command_ends env args self _ _ _ E2) as (X1 & X2).
    rewrite E2 in M.
    exists out, ([EngineLine (EvClock t); CliLine (Banner (strftime_day t));
                  CliLine InfoInitializing]
                   ++ map EngineLine cevs ++ CliLine OkInitialized :: body)%list.
    split.
    { rewrite M. f_equal. rewrite <- !app_assoc. reflexivity. }
    rewrite opening_events, opening_said.
    destruct (after_setup t cevs (engine_events body) U) as (S1 & S2 & S3).
    split; [intros code Hc; now destruct (X1 code)|].
    split; [discriminate|]. split; [discriminate|].
    split.
    { intros e He. destruct (X2 e He) as (Y1 & Y2 & Y3 & Y4 & Y5).
      exists args. rewrite S1, S3. now repeat split. }
    intros _. split; [now exists args|]. cbn. auto.
Qed.

Lemma main_exit_status_witness :
  exists lines,
    main MoreScenarios.env_nothing_set UsageError [] = (SystemExit 2, lines).
Proof.
  destruct (main_exit_status MoreScenarios.env_nothing_set UsageError [])
    as (out & lines & E & _ & _ & Q & _).
  exists ([] ++ lines)%list. rewrite <- (Q eq_refl). exact E.
Defined.

Section CommandFacts.
Variable env : Collaborators.

(** A run of [main]: either the construction raised and the run exited
    with status 1, or an engine was constructed from the rows of the sheet
    and the command ran on it. *)
Lemma main_cases (args : Args) (h : History) :
  exists out lines,
    main env (Parsed args) h = (out, (h ++ lines)%list)
    /\ ((out = SystemExit 1
         /\ files_written (engine_events lines) = []
         /\ completion_calls (engine_events lines) = []
         /\ new_post_calls (engine_events lines) = [])
        \/ exists self rows t cevs body,
             lines = ([EngineLine (EvClock t);
                       CliLine (Banner (strftime_day t));
                       CliLine InfoInitializing]
                        ++ map EngineLine cevs
                        ++ CliLine OkInitialized :: body)%list
             /\ setup_only cevs = true
             /\ sheet_data self = rows_to_topics 1 rows
             /\ In (EvWorksheetGet "A2:C" (inr rows)) cevs
             /\ exists h2,
                  run_command env args self h2 = (out, (h2 ++ body)%list)).
Proof.
  destruct (main_run env args h) as (r & cevs & E & U & R & M).
  cbv zeta in M. set (t := datetime_now env (engine_events h)) in *.
  destruct r as [e|self].
  - eexists _, _. split; [exact M|]. left.
    rewrite opening_events. cbn [engine_events].
    destruct (after_setup t cevs [] U) as (S1 & S2 & S3). now repeat split.
  - destruct (run_command_spec env args self
                (h ++ [EngineLine (EvClock t); CliLine (Banner (strftime_day t));
                       CliLine InfoInitializing]
                   ++ map EngineLine cevs ++ [CliLine OkInitialized])%list)
      as (out & body & E2 & _).
    destruct (R self eq_refl) as (rows & R1 & R2).
    rewrite E2 in M.
    exists out, ([EngineLine (EvClock t); CliLine (Banner (strftime_day t));
                  CliLine InfoInitializing]
                   ++ map EngineLine cevs ++ CliLine OkInitialized :: body)%list.
    split; [rewrite M; f_equal; rewrite <- !app_assoc; reflexivity|].
    right. exists self, rows, t, cevs, body.
    repeat split; try assumption. eexists. exact E2.
Qed.

(** The completion requests of a batch run. *)
Lemma generate_all_completions (self : BlogEngine) (w : World)
      (counts : nat * nat) (evs : list Event) :
  generate_all_blog_posts env self w = (inr counts, (w ++ evs)%list) ->
  completion_calls evs = map prompt_of (sheet_data self).
Proof.
  intros H.
  destruct (generate_all_spec env self w)
    as (counts' & evs' & E & header & segs & footer & -> & Hh & Hf & F & _).
  rewrite E in H. injection H as _ Hb. apply app_inv_head in Hb. subst evs.
  destruct (prints_only header Hh) as (_ & _ & _ & H4 & _).
  destruct (prints_only footer Hf) as (_ & _ & _ & K4 & _).
  destruct (segments_totals env self _ _ F) as (T1 & _).
  autorewrite with trace. now rewrite H4, K4, T1, app_nil_r.
Qed.

End CommandFacts.

(** X23. With [--list] the command line only lists, whatever other
    commands are given with it: it returns or exits with status 1, and
    either way it has written no file, requested no completion and made
    no remote creation call. When it returns, the topics it has listed
    are the rows the sheet answered for A2:C that have at least three
    cells, each under its row number, in order. *)
Theorem listing_from_command_line
        (env : Collaborators) (args : Args) (h : History) :
  args_list args = true ->
  exists out lines,
    main env (Parsed args) h = (out, (h ++ lines)%list)
    /\ (out = Done tt \/ out = SystemExit 1)
    /\ files_written (engine_events lines) = []
    /\ completion_calls (engine_events lines) = []
    /\ new_post_calls (engine_events lines) = []
    /\ (out = Done tt ->
        exists rows,
          In (EvWorksheetGet "A2:C" (inr rows)) (engine_events lines)
          /\ topic_rows (said lines)
             = map (fun item => (row_number item, title item))
                   (rows_to_topics 1 rows)).
Proof.
  intros Al.
  destruct (main_cases env args h) as (out & lines & E & [X|X]).
  { destruct X as (-> & X1 & X2 & X3). exists (SystemExit 1), lines.
    split; [exact E|]. split; [now right|]. repeat split; try assumption.
    discriminate. }
  destruct X as (self & rows & t & cevs & body & -> & U & R1 & R2 & h2 & E2).
  destruct (run_command_spec env args self h2)
    as (out' & body' & E' & L & _).
  rewrite E' in E2. injection E2 as -> Hb. apply app_inv_head in Hb.
  subst body'. destruct (L Al) as (-> & ms & -> & Tr).
  eexists _, _. split; [exact E|]. split; [now left|].
  rewrite opening_events, opening_said, engine_events_said, said_cli_lines.
  destruct (after_setup t cevs [] U) as (S1 & S2 & S3).
  split; [exact S1|]. split; [exact S2|]. split; [exact S3|].
  intros _. exists rows. split.
  - right. apply in_or_app. now left.
  - cbn [topic_rows]. now rewrite Tr, R1.
Qed.

Lemma listing_from_command_line_witness :
  exists out lines,
    main Scenarios.env_ok
         (Parsed (mkArgs true (Some 1%Z) true (Some "tea") true "draft" "blog_posts"
                 "openai/gpt-4o-mini")) [] = (out, lines)
    /\ completion_calls (engine_events lines) = [].
Proof.
  destruct (listing_from_command_line Scenarios.env_ok
              (mkArgs true (Some 1%Z) true (Some "tea") true "draft"
                      "blog_posts" "openai/gpt-4o-mini") [])
    as (out & lines & E & _ & _ & Q & _).
  - reflexivity.
  - exists out, ([] ++ lines)%list. split; [exact E | exact Q].
Defined.

(** X24. Without a command ([--list], [--generate], [--generate-all] all
    absent, and [--custom] absent or given an empty topic) the command
    line generates nothing: it returns or exits with status 1, has written
    no file, requested no completion and made no remote creation call;
    when it returns, the last things it said are the help text and the two
    tips. *)
Theorem help_without_command
        (env : Collaborators) (args : Args) (h : History) :
  args_list args = false ->
  args_generate args = None ->
  args_generate_all args = false ->
  env_truthy (args_custom args) = false ->
  exists out lines,
    main env (Parsed args) h = (out, (h ++ lines)%list)
    /\ (out = Done tt \/ out = SystemExit 1)
    /\ files_written (engine_events lines) = []
    /\ completion_calls (engine_events lines) = []
    /\ new_post_calls (engine_events lines) = []
    /\ (out = Done tt ->
        exists before,
          said lines = (before ++ [Help; InfoTipList; InfoTipWordPress])%list).
Proof.
  intros Al Ag Aa Ac.
  destruct (main_cases env args h) as (out & lines & E & [X|X]).
  { destruct X as (-> & X1 & X2 & X3). exists (SystemExit 1), lines.
    split; [exact E|]. split; [now right|]. repeat split; try assumption.
    discriminate. }
  destruct X as (self & rows & t & cevs & body & -> & U & R1 & R2 & h2 & E2).
  destruct (run_command_spec env args self h2)
    as (out' & body' & E' & _ & _ & _ & _ & Hp).
  rewrite E' in E2. injection E2 as -> Hb. apply app_inv_head in Hb.
  subst body'. destruct (Hp Al Ag Aa Ac) as (-> & ->).
  eexists _, _. split; [exact E|]. split; [now left|].
  rewrite opening_events, opening_said. cbn [engine_events said].
  destruct (after_setup t cevs [] U) as (S1 & S2 & S3).
  split; [exact S1|]. split; [exact S2|]. split; [exact S3|].
  intros _. now exists [Banner (strftime_day t); InfoInitializing; OkInitialized].
Qed.

Lemma help_without_command_witness :
  exists out lines,
    main Scenarios.env_ok
         (Parsed (mkArgs false None false (Some EmptyString) true "draft" "blog_posts"
                 "openai/gpt-4o-mini")) [] = (out, lines)
    /\ files_written (engine_events lines) = [].
Proof.
  destruct (help_without_command Scenarios.env_ok
              (mkArgs false None false (Some EmptyString) true "draft"
                      "blog_posts" "openai/gpt-4o-mini") [])
    as (out & lines & E & _ & Q & _).
  - reflexivity.
  - reflexivity.
  - reflexivity.
  - reflexivity.
  - exists out, ([] ++ lines)%list. split; [exact E | exact Q].
Defined.

(** X25. Under [--generate-all] (and neither [--list] nor [--generate])
    the command line never ends with an uncaught exception: it returns or
    exits with status 1. When it returns, it has requested one completion
    for every row the sheet answered for A2:C that has at least three
    cells, in the order of the sheet, whatever failed on the way. *)
Theorem batch_from_command_line
        (env : Collaborators) (args : Args) (h : History) :
  args_list args = false ->
  args_generate args = None ->
  args_generate_all args = true ->
  exists out lines,
    main env (Parsed args) h = (out, (h ++ lines)%list)
    /\ (out = Done tt \/ out = SystemExit 1)
    /\ (out = Done tt ->
        exists rows,
          In (EvWorksheetGet "A2:C" (inr rows)) (engine_events lines)
          /\ completion_calls (engine_events lines)
             = map prompt_of (rows_to_topics 1 rows)).
Proof.
  intros Al Ag Aa.
  destruct (main_cases env args h) as (out & lines & E & [X|X]).
  { destruct X as (-> & X1 & X2 & X3). exists (SystemExit 1), lines.
    split; [exact E|]. split; [now right | discriminate]. }
  destruct X as (self & rows & t & cevs & body & -> & U & R1 & R2 & h2 & E2).
  destruct (run_command_spec env args self h2)
    as (out' & body' & E' & _ & _ & A & _).
  rewrite E' in E2. injection E2 as -> Hb. apply app_inv_head in Hb.
  subst body'. destruct (A Al Ag Aa) as (counts & evs & Ea & -> & ->).
  eexists _, _. split; [exact E|]. split; [now left|].
  intros _. exists rows. rewrite opening_events, engine_events_lines.
  split; [right; apply in_or_app; now left|].
  destruct (after_setup t cevs evs U) as (S1 & S2 & S3).
  rewrite S2, <- R1. exact (generate_all_completions env self _ _ _ Ea).
Qed.

Lemma batch_from_command_line_witness :
  exists out lines,
    main Scenarios.env_second_generation_fails
         (Parsed (mkArgs false None true None false "draft" "blog_posts"
                 "openai/gpt-4o-mini")) [] = (out, lines)
    /\ (out = Done tt \/ out = SystemExit 1).
Proof.
  destruct (batch_from_command_line Scenarios.env_second_generation_fails
              (mkArgs false None true None false "draft" "blog_posts"
                      "openai/gpt-4o-mini") [])
    as (out & lines & E & Q & _).
  - reflexivity.
  - reflexivity.
  - reflexivity.
  - exists out, ([] ++ lines)%list. split; [exact E | exact Q].
Defined.

(** X26. Under [--generate i] without [--list], whatever other commands
    are given, a run that does not exit at the construction has requested
    the completion of the topic the row number [i] finds among the rows
    the sheet answered for A2:C, and no other; when the number finds no
    topic it has requested none, written no file, and returned. *)
Theorem single_topic_from_command_line
        (env : Collaborators) (args : Args) (h : History) (i : Z) :
  args_list args = false ->
  args_generate args = Some i ->
  exists out lines,
    main env (Parsed args) h = (out, (h ++ lines)%list)
    /\ (out = SystemExit 1
        \/ exists rows,
             In (EvWorksheetGet "A2:C" (inr rows)) (engine_events lines)
             /\ completion_calls (engine_events lines)
                = match find_row i (rows_to_topics 1 rows) with
                  | Some topic_data => [prompt_of topic_data]
                  | None => []
                  end
             /\ (find_row i (rows_to_topics 1 rows) = None ->
                 out = Done tt /\ files_written (engine_events lines) = [])).
Proof.
  intros Al Ag.
  destruct (main_cases env args h) as (out & lines & E & [X|X]).
  { destruct X as (-> & _). exists (SystemExit 1), lines.
    split; [exact E | now left]. }
  destruct X as (self & rows & t & cevs & body & -> & U & R1 & R2 & h2 & E2).
  destruct (run_command_spec env args self h2)
    as (out' & body' & E' & _ & G & _).
  rewrite E' in E2. injection E2 as -> Hb. apply app_inv_head in Hb.
  subst body'. destruct (G Al i Ag) as (r & evs & Eg & -> & ->).
  destruct (generate_blog_post_spec env self i (engine_events h2))
    as (r2 & evs2 & E2 & N & S).
  rewrite E2 in Eg. injection Eg as -> Hb. apply app_inv_head in Hb.
  subst evs2.
  eexists _, _. split; [exact E|]. right. exists rows.
  rewrite opening_events, engine_events_lines.
  split; [right; apply in_or_app; now left|].
  destruct (after_setup t cevs evs U) as (S1 & S2 & S3).
  rewrite S1, S2, <- R1.
  destruct (find_row i (sheet_data self)) as [topic_data|].
  - split; [now destruct (S topic_data eq_refl)|discriminate].
  - destruct (N eq_refl) as (-> & ->). split; [reflexivity|].
    intros _. now split.
Qed.

Lemma single_topic_from_command_line_witness :
  exists out lines,
    main Scenarios.env_ok
         (Parsed (mkArgs false (Some 0%Z) true None false "draft" "blog_posts"
                 "openai/gpt-4o-mini")) [] = (out, lines).
Proof.
  destruct (single_topic_from_command_line Scenarios.env_ok
              (mkArgs false (Some 0%Z) true None false "draft" "blog_posts"
                      "openai/gpt-4o-mini") [] 0%Z)
    as (out & lines & E & _).
  - reflexivity.
  - reflexivity.
  - exists out, ([] ++ lines)%list. exact E.
Defined.

(** X27. A listing interacts with nothing: it only prints, and returns.
    It shows every topic once, number and title, in the order of the
    topics. Without topics it prints the heading, the rule and the
    warning, and neither a total nor the publishing mode; with topics it
    prints four lines per topic between the two heading lines and the two
    closing lines, no warning, the number of topics as the total, and last
    the publishing mode of the engine. *)
Theorem list_topics_listing (self : BlogEngine) (h : History) :
  exists lines,
    list_topics self h = (Done tt, (h ++ lines)%list)
    /\ engine_events lines = []
    /\ topic_rows (said lines)
       = map (fun item => (row_number item, title item)) (sheet_data self)
    /\ (sheet_data self = [] ->
        said lines = [InfoTopicsHeader; PlainRule80; WarnNoTopics])
    /\ (sheet_data self <> [] ->
        List.length lines = 4 + 4 * List.length (sheet_data self)
        /\ ~ In WarnNoTopics (said lines)
        /\ In (PlainTotal (List.length (sheet_data self))) (said lines)
        /\ last (said lines) Help
           = (if wordpress_enabled self then InfoPublishingEnabled
              else InfoMarkdownOnlyMode)).
Proof.
  destruct (list_topics_run self h) as (ms & E & R & Z0 & NZ).
  exists (map CliLine ms). rewrite engine_events_said, said_cli_lines.
  rewrite length_map. split; [exact E|]. split; [reflexivity|].
  split; [exact R|]. split; [exact Z0 | exact NZ].
Qed.

(** ** The connection report *)

(** X28. The report on a client its constructor returned says that the
    password is set and the client ready, and shows as address and user
    name the values read from the environment at construction, both
    non-empty. *)
Theorem connection_info_of_new_client
        (env : Collaborators) (w w' : World) (c : WordPressClient) :
  WordPressClient_new env w = (inr c, w') ->
  password_set (get_connection_info c) = true
  /\ client_ready (get_connection_info c) = true
  /\ info_url (get_connection_info c)
     = os_getenv env "WORDPRESS_URL" (w ++ [EvLoadDotenv None])%list
  /\ info_username (get_connection_info c)
     = os_getenv env "WORDPRESS_USERNAME"
                 (w ++ [EvLoadDotenv None;
                        EvGetenv "WORDPRESS_URL"
                                 (os_getenv env "WORDPRESS_URL"
                                            (w ++ [EvLoadDotenv None])%list)])%list
  /\ env_truthy (info_url (get_connection_info c)) = true
  /\ env_truthy (info_username (get_connection_info c)) = true.
Proof.
  unfold WordPressClient_new, try_catch, bind, perform, of_failure, raise, ret.
  destruct (load_dotenv env w); [discriminate|].
  destruct (env_truthy (os_getenv env "WORDPRESS_URL" _)
            && env_truthy (os_getenv env "WORDPRESS_USERNAME" _)
            && env_truthy (os_getenv env "WORDPRESS_PASSWORD" _)) eqn:T;
    [|discriminate].
  apply andb_true_iff in T as [T P]. apply andb_true_iff in T as [U N].
  destruct (xmlrpc_client env _ _ _ _); [discriminate|].
  intros [= <- _]. cbn [get_connection_info password_set client_ready info_url
                        info_username wp_url wp_username wp_password client].
  rewrite <- ?app_assoc in *. cbn [app] in *. now repeat split.
Qed.

Lemma connection_info_of_new_client_witness :
  password_set (get_connection_info Scenarios.a_client) = true
  /\ client_ready (get_connection_info Scenarios.a_client) = true.
Proof.
  destruct (connection_info_of_new_client
              Scenarios.env_ok []
              (snd (WordPressClient_new Scenarios.env_ok []))
              Scenarios.a_client)
    as (A & B & _).
  - vm_compute. reflexivity.
  - split; [exact A | exact B].
Defined.
